(** * code2vec (Keras back end): configuration, checkpointing and the
      lifecycle of [Code2VecModel]

    A shallow embedding of [config.py] and [keras_model.py].  Python values
    are modelled as the code has them: [int] as [Z], [str] as [string],
    [bool] as [bool], the binary64 results of [/] as dyadic numbers, the
    file system as a finite map, and the methods of [Code2VecModel] in a
    state-and-exception monad that also records the calls made into
    TensorFlow/Keras. *)

From Stdlib Require Import ZArith Lia String Ascii.
From stdpp Require Import gmap strings list relations.

Local Open Scope string_scope.
Local Open Scope Z_scope.

(** ** Python primitives *)

Module Py.

(** Exceptions the modelled code can raise. *)
Inductive exn : Type :=
| ValueError (msg : string)
| ZeroDivisionError
| OverflowError
| AttributeError (msg : string)
| AssertionError.

Inductive result (A : Type) : Type :=
| Ok (a : A)
| Raise (e : exn).
Arguments Ok {A} a.
Arguments Raise {A} e.

Definition rbind {A B} (r : result A) (k : A -> result B) : result B :=
  match r with
  | Ok a => k a
  | Raise e => Raise e
  end.

(** Truth value of a [str]: only the empty string is falsy. *)
Definition truthy (s : string) : bool :=
  match s with
  | EmptyString => false
  | String _ _ => true
  end.

(** *** Floats

    A finite binary64 value is [mant * 2 ^ expo].  [int / int] is the
    correctly rounded quotient (round to nearest, ties to even, 53 bits
    of precision, gradual underflow below [2 ^ -1022]); a quotient whose
    rounding reaches [2 ^ 1024] raises [OverflowError]. *)
Record float : Type := mkFloat { mant : Z; expo : Z }.

Definition pos (k : Z) : Z := Z.max 0 k.

(** [binade a b] is the integer [e] with [2 ^ e <= a / b < 2 ^ (e + 1)],
    for positive [a] and [b]. *)
Definition binade (a b : Z) : Z :=
  let d := Z.log2 a - Z.log2 b in
  if b * 2 ^ pos d <=? a * 2 ^ pos (- d) then d else d - 1.

Definition round_half_even (num den : Z) : Z :=
  let q := num / den in
  let r := num mod den in
  if (den <? 2 * r) || ((den =? 2 * r) && Z.odd q) then q + 1 else q.

Definition div_magnitude (a b : Z) : float :=
  let e := Z.max (binade a b - 52) (-1074) in
  mkFloat (round_half_even (a * 2 ^ pos (- e)) (b * 2 ^ pos e)) e.

(** [a / b] on two [int]s. *)
Definition truediv (a b : Z) : result float :=
  if b =? 0 then Raise ZeroDivisionError
  else if a =? 0 then Ok (mkFloat 0 0)
  else
    let f := div_magnitude (Z.abs a) (Z.abs b) in
    if 2 ^ 1024 * 2 ^ pos (- expo f) <=? mant f * 2 ^ pos (expo f)
    then Raise OverflowError
    else Ok (mkFloat (Z.sgn a * Z.sgn b * mant f) (expo f)).

(** [math.ceil] of a finite float. *)
Definition ceil (f : float) : Z :=
  if 0 <=? expo f then mant f * 2 ^ expo f
  else - ((- mant f) / 2 ^ (- expo f)).

(** *** Strings

    A [str] is a [string] whose characters are the code points below 256. *)

Definition dash : ascii := "-"%char.

(** [s.split(sep)] for a one-character separator: never empty. *)
Fixpoint split (sep : ascii) (s : string) : list string :=
  match s with
  | EmptyString => [EmptyString]
  | String c s' =>
      if Ascii.eqb c sep then EmptyString :: split sep s'
      else
        match split sep s' with
        | [] => [String c EmptyString]
        | w :: ws => String c w :: ws
        end
  end.

(** [l[-1]] on a non-empty list; [d] stands for the [IndexError] case,
    which [split] never reaches. *)
Definition last_item {A} (l : list A) (d : A) : A := List.last l d.

Definition digit_char (d : Z) : ascii := ascii_of_N (Z.to_N (48 + d)).

Definition digit_value (c : ascii) : option Z :=
  let n := Z.of_N (N_of_ascii c) in
  if (48 <=? n) && (n <=? 57) then Some (n - 48) else None.

(** Decimal digits of a non-negative number, most significant first.
    The fuel bounds the number of digits. *)
Fixpoint digits (fuel : nat) (n : Z) : string :=
  match fuel with
  | O => String (digit_char (n mod 10)) EmptyString
  | S fuel' =>
      if n <? 10 then String (digit_char n) EmptyString
      else digits fuel' (n / 10) ++ String (digit_char (n mod 10)) EmptyString
  end.

(** [str(n)] / ["%d" % n]. *)
Definition str_of_int (n : Z) : string :=
  if n <? 0 then String dash (digits (Z.to_nat (Z.log2 (- n))) (- n))
  else digits (Z.to_nat (Z.log2 n)) n.

(** White space as [int] skips it, among the code points below 256: the
    ASCII white space, NEL (133) and the no-break space (160). *)
Definition is_space (c : ascii) : bool :=
  let n := N_of_ascii c in
  ((9 <=? n) && (n <=? 13))%N || (n =? 32)%N || (n =? 133)%N || (n =? 160)%N.

Fixpoint lstrip (s : string) : string :=
  match s with
  | String c s' => if is_space c then lstrip s' else s
  | EmptyString => EmptyString
  end.

(** Digits with single underscores between them, as [int] accepts them.
    [prev] tells whether the previous character was a digit. *)
Fixpoint int_digits (s : string) (acc : Z) (prev : bool) : option Z :=
  match s with
  | EmptyString => if prev then Some acc else None
  | String c s' =>
      match digit_value c with
      | Some d => int_digits s' (10 * acc + d) true
      | None =>
          if Ascii.eqb c "_"%char && prev then
            match s' with
            | String c' _ =>
                if bool_decide (is_Some (digit_value c'))
                then int_digits s' acc false else None
            | EmptyString => None
            end
          else if is_space c && prev then
            (* trailing white space *)
            if bool_decide (lstrip s' = EmptyString) then Some acc else None
          else None
      end
  end.

(** *** [repr] of a [str] *)

Definition single_quote : ascii := ascii_of_N 39.
Definition double_quote : ascii := ascii_of_N 34.
Definition backslash : ascii := ascii_of_N 92.

Definition contains (c : ascii) (s : string) : bool :=
  existsb (Ascii.eqb c) (list_ascii_of_string s).

(** [str.isprintable] of one character, among the code points below 256. *)
Definition printable (c : ascii) : bool :=
  let n := N_of_ascii c in
  negb ((n <? 32) || ((127 <=? n) && (n <=? 160)) || (n =? 173))%N.

Definition hex_digit (n : N) : ascii :=
  if (n <? 10)%N then ascii_of_N (48 + n) else ascii_of_N (87 + n).

Definition repr_char (quote c : ascii) : string :=
  let n := N_of_ascii c in
  if Ascii.eqb c quote || Ascii.eqb c backslash
  then String backslash (String c EmptyString)
  else if (n =? 9)%N then String backslash "t"
  else if (n =? 10)%N then String backslash "n"
  else if (n =? 13)%N then String backslash "r"
  else if printable c then String c EmptyString
  else String backslash
         (String "x" (String (hex_digit (n / 16)) (String (hex_digit (n mod 16))
            EmptyString))).

(** [repr(s)]: in single quotes, or in double quotes when [s] holds a
    single quote and no double quote. *)
Definition repr (s : string) : string :=
  let quote :=
    if contains single_quote s && negb (contains double_quote s)
    then double_quote else single_quote in
  String quote
    (String.concat EmptyString (List.map (repr_char quote) (list_ascii_of_string s))
     ++ String quote EmptyString).

(** [int(s)] on a [str]: optional white space, an optional sign, digits. *)
Definition int_of_str (s : string) : result Z :=
  let body := lstrip s in
  let parsed :=
    match body with
    | String c s' =>
        if Ascii.eqb c "-"%char then option_map Z.opp (int_digits s' 0 false)
        else if Ascii.eqb c "+"%char then int_digits s' 0 false
        else int_digits body 0 false
    | EmptyString => None
    end in
  match parsed with
  | Some n => Ok n
  | None => Raise (ValueError ("invalid literal for int() with base 10: " ++ repr s))
  end.

Fixpoint starts_with (prefix l : list ascii) : bool :=
  match prefix, l with
  | [], _ => true
  | a :: prefix', b :: l' => Ascii.eqb a b && starts_with prefix' l'
  | _ :: _, [] => false
  end.

(** [s.endswith(suffix)] *)
Definition endswith (s suffix : string) : bool :=
  starts_with (rev (list_ascii_of_string suffix)) (rev (list_ascii_of_string s)).

(** [sep.join(l)] *)
Fixpoint join (sep : string) (l : list string) : string :=
  match l with
  | [] => EmptyString
  | [w] => w
  | w :: ws => w ++ sep ++ join sep ws
  end.

(** [os.path.join(d, f)] for a relative [f]. *)
Definition path_join (d f : string) : string :=
  match List.last (list_ascii_of_string d) "/"%char with
  | "/"%char => d ++ f
  | _ => d ++ "/" ++ f
  end.

End Py.

(** ** [config.py] *)

Module Config.

(** The command-line arguments read by [get_default_config]. *)
Record Args : Type := mkArgs {
  dl_framework : string;
  data_path : string;
  test_path : string;
  save_path : string;
  load_path : string;
  release : bool;
  export_code_vectors : bool
}.

Record t : Type := mk {
  DL_FRAMEWORK : string;
  NUM_EPOCHS : Z;
  SAVE_EVERY_EPOCHS : Z;
  TRAIN_BATCH_SIZE : Z;
  TEST_BATCH_SIZE : Z;
  READING_BATCH_SIZE : Z;
  NUM_BATCHING_THREADS : Z;
  BATCH_QUEUE_SIZE : Z;
  MAX_CONTEXTS : Z;
  MAX_TOKEN_VOCAB_SIZE : Z;
  MAX_TARGET_VOCAB_SIZE : Z;
  MAX_PATH_VOCAB_SIZE : Z;
  EMBEDDINGS_SIZE : Z;
  TOKEN_EMBEDDINGS_SIZE : Z;
  PATH_EMBEDDINGS_SIZE : Z;
  CONTEXT_EMBEDDINGS_SIZE : Z;
  CODE_VECTOR_SIZE : Z;
  TARGET_EMBEDDINGS_SIZE : Z;
  MAX_TO_KEEP : Z;
  DROPOUT_KEEP_RATE : Py.float;
  TOP_K_WORDS_CONSIDERED_DURING_PREDICTION : Z;
  READER_NUM_PARALLEL_BATCHES : Z;
  SHUFFLE_BUFFER_SIZE : Z;
  CSV_BUFFER_SIZE : Z;
  MODEL_SAVE_PATH : string;
  MODEL_LOAD_PATH : string;
  TRAIN_DATA_PATH_PREFIX : string;
  TEST_DATA_PATH : string;
  RELEASE : bool;
  EXPORT_CODE_VECTORS : bool;
  NUM_TRAIN_EXAMPLES : Z;
  NUM_TEST_EXAMPLES : Z
}.

(** [Config.__init__]: every field at its zero value. *)
Definition init : t :=
  {| DL_FRAMEWORK := EmptyString; NUM_EPOCHS := 0; SAVE_EVERY_EPOCHS := 0;
     TRAIN_BATCH_SIZE := 0; TEST_BATCH_SIZE := 0; READING_BATCH_SIZE := 0;
     NUM_BATCHING_THREADS := 0; BATCH_QUEUE_SIZE := 0; MAX_CONTEXTS := 0;
     MAX_TOKEN_VOCAB_SIZE := 0; MAX_TARGET_VOCAB_SIZE := 0;
     MAX_PATH_VOCAB_SIZE := 0; EMBEDDINGS_SIZE := 0;
     TOKEN_EMBEDDINGS_SIZE := 0; PATH_EMBEDDINGS_SIZE := 0;
     CONTEXT_EMBEDDINGS_SIZE := 0; CODE_VECTOR_SIZE := 0;
     TARGET_EMBEDDINGS_SIZE := 0; MAX_TO_KEEP := 0;
     DROPOUT_KEEP_RATE := Py.mkFloat 0 0;
     TOP_K_WORDS_CONSIDERED_DURING_PREDICTION := 0;
     READER_NUM_PARALLEL_BATCHES := 0; SHUFFLE_BUFFER_SIZE := 0;
     CSV_BUFFER_SIZE := 0; MODEL_SAVE_PATH := EmptyString;
     MODEL_LOAD_PATH := EmptyString;
     TRAIN_DATA_PATH_PREFIX := EmptyString;
     TEST_DATA_PATH := EmptyString; RELEASE := false;
     EXPORT_CODE_VECTORS := false; NUM_TRAIN_EXAMPLES := 0;
     NUM_TEST_EXAMPLES := 0 |}.

(** [Config.get_default_config]: the assignments in the order of the
    source, each one reading the fields assigned before it. *)
Definition get_default_config (args : Args) : t :=
  let DL_FRAMEWORK' :=
    if negb (Py.truthy (dl_framework args)) then "keras" else dl_framework args in
  let NUM_EPOCHS' := 20 in
  let SAVE_EVERY_EPOCHS' := 1 in
  let TRAIN_BATCH_SIZE' := 512 in
  let TEST_BATCH_SIZE' := TRAIN_BATCH_SIZE' in
  let READING_BATCH_SIZE' := 1300 * 4 in
  let NUM_BATCHING_THREADS' := 2 in
  let BATCH_QUEUE_SIZE' := 300000 in
  let MAX_CONTEXTS' := 200 in
  let MAX_TOKEN_VOCAB_SIZE' := 1301136 in
  let MAX_TARGET_VOCAB_SIZE' := 261245 in
  let MAX_PATH_VOCAB_SIZE' := 911417 in
  let EMBEDDINGS_SIZE' := 128 in
  let TOKEN_EMBEDDINGS_SIZE' := EMBEDDINGS_SIZE' in
  let PATH_EMBEDDINGS_SIZE' := EMBEDDINGS_SIZE' in
  let CONTEXT_EMBEDDINGS_SIZE' := PATH_EMBEDDINGS_SIZE' + 2 * TOKEN_EMBEDDINGS_SIZE' in
  let CODE_VECTOR_SIZE' := CONTEXT_EMBEDDINGS_SIZE' in
  let TARGET_EMBEDDINGS_SIZE' := CODE_VECTOR_SIZE' in
  {| DL_FRAMEWORK := DL_FRAMEWORK';
     NUM_EPOCHS := NUM_EPOCHS';
     SAVE_EVERY_EPOCHS := SAVE_EVERY_EPOCHS';
     TRAIN_BATCH_SIZE := TRAIN_BATCH_SIZE';
     TEST_BATCH_SIZE := TEST_BATCH_SIZE';
     READING_BATCH_SIZE := READING_BATCH_SIZE';
     NUM_BATCHING_THREADS := NUM_BATCHING_THREADS';
     BATCH_QUEUE_SIZE := BATCH_QUEUE_SIZE';
     MAX_CONTEXTS := MAX_CONTEXTS';
     MAX_TOKEN_VOCAB_SIZE := MAX_TOKEN_VOCAB_SIZE';
     MAX_TARGET_VOCAB_SIZE := MAX_TARGET_VOCAB_SIZE';
     MAX_PATH_VOCAB_SIZE := MAX_PATH_VOCAB_SIZE';
     EMBEDDINGS_SIZE := EMBEDDINGS_SIZE';
     TOKEN_EMBEDDINGS_SIZE := TOKEN_EMBEDDINGS_SIZE';
     PATH_EMBEDDINGS_SIZE := PATH_EMBEDDINGS_SIZE';
     CONTEXT_EMBEDDINGS_SIZE := CONTEXT_EMBEDDINGS_SIZE';
     CODE_VECTOR_SIZE := CODE_VECTOR_SIZE';
     TARGET_EMBEDDINGS_SIZE := TARGET_EMBEDDINGS_SIZE';
     MAX_TO_KEEP := 10;
     DROPOUT_KEEP_RATE := Py.mkFloat 3 (-2);
     TOP_K_WORDS_CONSIDERED_DURING_PREDICTION := 10;
     READER_NUM_PARALLEL_BATCHES := 6;
     SHUFFLE_BUFFER_SIZE := 10000;
     CSV_BUFFER_SIZE := 100 * 1024 * 1024;
     TRAIN_DATA_PATH_PREFIX := data_path args;
     TEST_DATA_PATH := test_path args;
     MODEL_SAVE_PATH := save_path args;
     MODEL_LOAD_PATH := load_path args;
     RELEASE := release args;
     EXPORT_CODE_VECTORS := export_code_vectors args;
     NUM_TRAIN_EXAMPLES := NUM_TRAIN_EXAMPLES init;
     NUM_TEST_EXAMPLES := NUM_TEST_EXAMPLES init |}.

Definition steps (examples batch : Z) : Py.result Z :=
  Py.rbind (Py.truediv examples batch) (fun q => Py.Ok (Py.ceil q)).

Definition train_steps_per_epoch (c : t) : Py.result Z :=
  steps (NUM_TRAIN_EXAMPLES c) (TRAIN_BATCH_SIZE c).

Definition test_steps_per_epoch (c : t) : Py.result Z :=
  steps (NUM_TEST_EXAMPLES c) (TEST_BATCH_SIZE c).

Definition batch_size (c : t) (is_evaluating : bool) : Z :=
  if is_evaluating then TEST_BATCH_SIZE c else TRAIN_BATCH_SIZE c.

Definition train_data_path (c : t) : string :=
  TRAIN_DATA_PATH_PREFIX c ++ ".train.c2v".

Definition word_freq_dict_path (c : t) : string :=
  TRAIN_DATA_PATH_PREFIX c ++ ".dict.c2v".

Definition data_path_of (c : t) (is_evaluating : bool) : string :=
  if is_evaluating then TEST_DATA_PATH c else train_data_path c.

Definition get_vocabularies_path_from_model_path (model_file_path : string)
  : string :=
  let vocabularies_save_file_name := "vocabularies.bin" in
  Py.join "/"
    (removelast (Py.split "/"%char model_file_path)
     ++ [vocabularies_save_file_name])%list.

Definition get_full_model_path (model_path : string) : string :=
  model_path ++ "-full".

Definition get_model_weights_path (model_path : string) : string :=
  model_path ++ "-only-weights".

Definition full_model_load_path (c : t) : string :=
  get_full_model_path (MODEL_LOAD_PATH c).

Definition model_weights_load_path (c : t) : string :=
  get_model_weights_path (MODEL_LOAD_PATH c).

Definition full_model_save_path (c : t) : string :=
  get_full_model_path (MODEL_SAVE_PATH c).

Definition model_weights_save_path (c : t) : string :=
  get_model_weights_path (MODEL_SAVE_PATH c).

(** Functional updates used below. *)
Definition with_save_every_epochs (c : t) (n : Z) : t :=
  {| DL_FRAMEWORK := DL_FRAMEWORK c; NUM_EPOCHS := NUM_EPOCHS c;
     SAVE_EVERY_EPOCHS := n;
     TRAIN_BATCH_SIZE := TRAIN_BATCH_SIZE c;
     TEST_BATCH_SIZE := TEST_BATCH_SIZE c;
     READING_BATCH_SIZE := READING_BATCH_SIZE c;
     NUM_BATCHING_THREADS := NUM_BATCHING_THREADS c;
     BATCH_QUEUE_SIZE := BATCH_QUEUE_SIZE c; MAX_CONTEXTS := MAX_CONTEXTS c;
     MAX_TOKEN_VOCAB_SIZE := MAX_TOKEN_VOCAB_SIZE c;
     MAX_TARGET_VOCAB_SIZE := MAX_TARGET_VOCAB_SIZE c;
     MAX_PATH_VOCAB_SIZE := MAX_PATH_VOCAB_SIZE c;
     EMBEDDINGS_SIZE := EMBEDDINGS_SIZE c;
     TOKEN_EMBEDDINGS_SIZE := TOKEN_EMBEDDINGS_SIZE c;
     PATH_EMBEDDINGS_SIZE := PATH_EMBEDDINGS_SIZE c;
     CONTEXT_EMBEDDINGS_SIZE := CONTEXT_EMBEDDINGS_SIZE c;
     CODE_VECTOR_SIZE := CODE_VECTOR_SIZE c;
     TARGET_EMBEDDINGS_SIZE := TARGET_EMBEDDINGS_SIZE c;
     MAX_TO_KEEP := MAX_TO_KEEP c; DROPOUT_KEEP_RATE := DROPOUT_KEEP_RATE c;
     TOP_K_WORDS_CONSIDERED_DURING_PREDICTION :=
       TOP_K_WORDS_CONSIDERED_DURING_PREDICTION c;
     READER_NUM_PARALLEL_BATCHES := READER_NUM_PARALLEL_BATCHES c;
     SHUFFLE_BUFFER_SIZE := SHUFFLE_BUFFER_SIZE c;
     CSV_BUFFER_SIZE := CSV_BUFFER_SIZE c;
     MODEL_SAVE_PATH := MODEL_SAVE_PATH c;
     MODEL_LOAD_PATH := MODEL_LOAD_PATH c;
     TRAIN_DATA_PATH_PREFIX := TRAIN_DATA_PATH_PREFIX c;
     TEST_DATA_PATH := TEST_DATA_PATH c; RELEASE := RELEASE c;
     EXPORT_CODE_VECTORS := EXPORT_CODE_VECTORS c;
     NUM_TRAIN_EXAMPLES := NUM_TRAIN_EXAMPLES c;
     NUM_TEST_EXAMPLES := NUM_TEST_EXAMPLES c |}.

Definition with_examples (c : t) (train test : Z) : t :=
  {| DL_FRAMEWORK := DL_FRAMEWORK c; NUM_EPOCHS := NUM_EPOCHS c;
     SAVE_EVERY_EPOCHS := SAVE_EVERY_EPOCHS c;
     TRAIN_BATCH_SIZE := TRAIN_BATCH_SIZE c;
     TEST_BATCH_SIZE := TEST_BATCH_SIZE c;
     READING_BATCH_SIZE := READING_BATCH_SIZE c;
     NUM_BATCHING_THREADS := NUM_BATCHING_THREADS c;
     BATCH_QUEUE_SIZE := BATCH_QUEUE_SIZE c; MAX_CONTEXTS := MAX_CONTEXTS c;
     MAX_TOKEN_VOCAB_SIZE := MAX_TOKEN_VOCAB_SIZE c;
     MAX_TARGET_VOCAB_SIZE := MAX_TARGET_VOCAB_SIZE c;
     MAX_PATH_VOCAB_SIZE := MAX_PATH_VOCAB_SIZE c;
     EMBEDDINGS_SIZE := EMBEDDINGS_SIZE c;
     TOKEN_EMBEDDINGS_SIZE := TOKEN_EMBEDDINGS_SIZE c;
     PATH_EMBEDDINGS_SIZE := PATH_EMBEDDINGS_SIZE c;
     CONTEXT_EMBEDDINGS_SIZE := CONTEXT_EMBEDDINGS_SIZE c;
     CODE_VECTOR_SIZE := CODE_VECTOR_SIZE c;
     TARGET_EMBEDDINGS_SIZE := TARGET_EMBEDDINGS_SIZE c;
     MAX_TO_KEEP := MAX_TO_KEEP c; DROPOUT_KEEP_RATE := DROPOUT_KEEP_RATE c;
     TOP_K_WORDS_CONSIDERED_DURING_PREDICTION :=
       TOP_K_WORDS_CONSIDERED_DURING_PREDICTION c;
     READER_NUM_PARALLEL_BATCHES := READER_NUM_PARALLEL_BATCHES c;
     SHUFFLE_BUFFER_SIZE := SHUFFLE_BUFFER_SIZE c;
     CSV_BUFFER_SIZE := CSV_BUFFER_SIZE c;
     MODEL_SAVE_PATH := MODEL_SAVE_PATH c;
     MODEL_LOAD_PATH := MODEL_LOAD_PATH c;
     TRAIN_DATA_PATH_PREFIX := TRAIN_DATA_PATH_PREFIX c;
     TEST_DATA_PATH := TEST_DATA_PATH c; RELEASE := RELEASE c;
     EXPORT_CODE_VECTORS := EXPORT_CODE_VECTORS c;
     NUM_TRAIN_EXAMPLES := train; NUM_TEST_EXAMPLES := test |}.

End Config.

(** ** State and exceptions

    A computation over a state [S] returns a value or raises; the state
    survives a raise, as the mutations of a Python object do. *)

Definition M (S A : Type) : Type := S -> Py.result A * S.

Definition ret {S A} (a : A) : M S A := fun s => (Py.Ok a, s).

Definition bind {S A B} (m : M S A) (k : A -> M S B) : M S B :=
  fun s =>
    match m s with
    | (Py.Ok a, s') => k a s'
    | (Py.Raise e, s') => (Py.Raise e, s')
    end.

Definition raise {S A} (e : Py.exn) : M S A := fun s => (Py.Raise e, s).

Definition get {S} : M S S := fun s => (Py.Ok s, s).

Definition modify {S} (f : S -> S) : M S unit := fun s => (Py.Ok tt, f s).

Definition lift {S A} (r : Py.result A) : M S A := fun s => (r, s).

Notation "'let*' x ':=' m 'in' k" := (bind m (fun x => k))
  (at level 10, x pattern, m at level 100, k at level 200).
Notation "m ';;' k" := (bind m (fun _ => k))
  (at level 100, k at level 200, right associativity).

(** [for x in xs: body x] *)
Fixpoint for_each {S A} (xs : list A) (body : A -> M S unit) : M S unit :=
  match xs with
  | [] => ret tt
  | x :: xs' => body x ;; for_each xs' body
  end.

(** ** TensorFlow and Keras, as far as the model uses them *)

Module TF.

(** The file system: the paths [os.path.exists] answers for, and for every
    checkpoint directory the checkpoints listed in its state file, oldest
    first. *)
Record FS : Type := mkFS {
  paths : gset string;
  checkpoints : gmap string (list string)
}.

Definition path_exists (fs : FS) (p : string) : bool :=
  bool_decide (p ∈ paths fs).

(** [tf.train.latest_checkpoint(directory)]: [None] when the directory
    holds no checkpoint state. *)
Definition latest_checkpoint (fs : FS) (directory : string) : option string :=
  match checkpoints fs !! directory with
  | Some l => last l
  | None => None
  end.

(** [tf.train.CheckpointManager(checkpoint, directory, max_to_keep)]. *)
Record CheckpointManager : Type := mkManager {
  cm_directory : string;
  cm_max_to_keep : Z
}.

Definition new_manager (directory : string) (max_to_keep : Z)
  : Py.result CheckpointManager :=
  if max_to_keep <=? 0
  then Py.Raise (Py.ValueError "Expected a positive integer or `None` for `max_to_keep`")
  else Py.Ok (mkManager directory max_to_keep).

(** The name [CheckpointManager.save(checkpoint_number=n)] writes to. *)
Definition checkpoint_path (directory : string) (n : Z) : string :=
  Py.path_join directory "ckpt" ++ "-" ++ Py.str_of_int n.

(** [CheckpointManager.save]: write the checkpoint, list it as the latest
    one and delete the oldest ones beyond [max_to_keep]. *)
Definition manager_save (m : CheckpointManager) (n : Z) (fs : FS) : FS :=
  let p := checkpoint_path (cm_directory m) n in
  let old := default [] (checkpoints fs !! cm_directory m) in
  let all := (filter (fun q => q ≠ p) old ++ [p])%list in
  let excess := (length all - Z.to_nat (cm_max_to_keep m))%nat in
  {| paths := {[cm_directory m; p]} ∪ (paths fs ∖ list_to_set (take excess all));
     checkpoints := <[cm_directory m := drop excess all]> (checkpoints fs) |}.

(** The files [Model.save_weights(path)] writes: one HDF5 file at [path]
    when the path ends in [.h5] or [.keras]; otherwise a checkpoint in
    TensorFlow's format, an index and a data shard named after [path],
    and no file at [path] itself. *)
Definition is_hdf5_filepath (path : string) : bool :=
  Py.endswith path ".h5" || Py.endswith path ".keras".

Definition weights_files (path : string) : gset string :=
  if is_hdf5_filepath path then {[path]}
  else {[path ++ ".index"; path ++ ".data-00000-of-00001"]}.

Inductive EstimatorMode : Type := Train | Evaluate | Predict.

(** Calls into the libraries, in the order they are made. *)
Inductive event : Type :=
| Print
| ModelSummary
| ModelCompile (optimizer : nat) (metrics : list string)
| SaveWeights (path : string)
| LoadWeights (path : string)
| CheckpointWrite (path : string) (max_to_keep : Z)
| CheckpointRestore (path : option string)
| InitializeOrRestore
| VocabsSave (path : string)
| ReaderRun (mode : EstimatorMode) (line : string)
| ModelPredict (line : string)
| FitEpoch (epoch steps validation_steps : Z).

(** *** Layers and the graph of the functional API *)

Inductive activation : Type := Tanh | Softmax.
Inductive dtype : Type := Int32 | Float32.

(** A filter of predicted words: from the candidates' indices and strings
    to a mask of the candidates to keep. *)
Definition word_filter : Type := list Z -> list string -> list bool.

Inductive layer_kind : Type :=
| InputLayer (shape : Z) (dt : dtype)
| Embedding (input_dim output_dim : Z)
| Concatenate
| Dropout (keep_rate : Py.float)      (* built with rate [1 - keep_rate] *)
| TimeDistributedDense (units : Z) (use_bias : bool) (act : activation)
| Dense (units : Z) (use_bias : bool) (act : activation)
| AttentionLayer
| WordPredictionLayer (top_k : Z) (index_to_word : Z -> string)
    (predicted_words_filters : list word_filter).

(** A layer object owns its weights; [layer_id] is its identity among the
    layers and tensors of one graph. *)
Record layer : Type := mkLayer {
  layer_id : nat;
  layer_name : option string;
  kind : layer_kind
}.

(** One call of a layer on tensors. *)
Record node : Type := mkNode {
  node_layer : nat;
  node_inputs : list nat;
  node_mask : option nat;
  node_output : nat
}.

Record graph : Type := mkGraph {
  next_id : nat;
  layers : list layer;
  nodes : list node
}.

Definition new_layer (name : option string) (k : layer_kind) : M graph nat :=
  fun g =>
    (Py.Ok (next_id g),
     mkGraph (S (next_id g)) (layers g ++ [mkLayer (next_id g) name k])%list (nodes g)).

Definition call_layer (l : nat) (inputs : list nat) (mask : option nat)
  : M graph nat :=
  fun g =>
    (Py.Ok (next_id g),
     mkGraph (S (next_id g)) (layers g)
       (nodes g ++ [mkNode l inputs mask (next_id g)])%list).

(** [Input(shape, dtype)]: an input layer and its tensor. *)
Definition Input (shape : Z) (dt : dtype) : M graph nat :=
  let* l := new_layer None (InputLayer shape dt) in
  call_layer l [] None.

Record KerasModel : Type := mkModel {
  model_graph : graph;
  inputs : list nat;
  outputs : list nat;
  optimizer : option nat
}.

Definition get_layer (m : KerasModel) (name : string) : option layer :=
  List.find (fun l => bool_decide (layer_name l = Some name))
    (layers (model_graph m)).

(** The layers called on tensor [t]. *)
Definition consumers (m : KerasModel) (t : nat) : list nat :=
  List.map node_layer
    (List.filter (fun n => bool_decide (t ∈ node_inputs n))
       (nodes (model_graph m))).

Definition layer_of_id (m : KerasModel) (i : nat) : option layer :=
  List.find (fun l => Nat.eqb (layer_id l) i) (layers (model_graph m)).

(** [tf.not_equal(t, c)] and [tf.strings.regex_full_match], elementwise. *)
Definition not_equal (t : list Z) (c : Z) : list bool :=
  List.map (fun i => negb (i =? c)) t.

(** A character class given by inclusive ranges of codes. *)
Definition in_class (ranges : list (ascii * ascii)) (c : ascii) : bool :=
  existsb (fun r => (N_of_ascii (fst r) <=? N_of_ascii c)%N
                    && (N_of_ascii c <=? N_of_ascii (snd r))%N) ranges.

(** Full match of [^[class]+$]. *)
Definition full_match_plus (ranges : list (ascii * ascii)) (s : string) : bool :=
  match list_ascii_of_string s with
  | [] => false
  | cs => forallb (in_class ranges) cs
  end.

Definition regex_full_match_plus (ranges : list (ascii * ascii))
  (t : list string) : list bool :=
  List.map (full_match_plus ranges) t.

End TF.

(** ** [keras_model.py] *)

(** Modelled from the spec: the Vocabulary Store (defined in
    [vocabularies.py], outside the two files embedded here): a closed
    symbol table of fixed size with a reverse lookup and a reserved
    out-of-vocabulary entry, whose index is
    [word_to_index[SpecialVocabWords.OOV]]. *)
Record Vocab : Type := mkVocab {
  size : Z;
  oov_index : Z;
  get_index_to_word_lookup_table : Z -> string
}.

Record Code2VecVocabs : Type := mkVocabs {
  token_vocab : Vocab;
  path_vocab : Vocab;
  target_vocab : Vocab
}.

(** [tf.train.Checkpoint(optimizer=..., model=...)]: the optimizer object
    it was created with; the model is the instance's own. *)
Record Checkpoint : Type := mkCheckpoint { ckpt_optimizer : nat }.

Record PathContextReader : Type := mkReader {
  estimator_mode : TF.EstimatorMode;
  is_evaluating : bool;
  repeat_endlessly : bool
}.

(** What [predict] is to give for one line. *)
Record Prediction : Type := mkPrediction {
  topk_predicted_words : list string;
  code_vector : list Py.float
}.

(** The fields of a [Code2VecModel] instance. *)
Record Code2VecModel : Type := mkSelf {
  config : Config.t;
  vocabs : Code2VecVocabs;
  keras_model : option TF.KerasModel;
  nr_epochs_trained : Z;
  _checkpoint : option Checkpoint;
  _save_checkpoint_manager : option TF.CheckpointManager
}.

(** An instance together with the world it runs in. *)
Record state : Type := mkState {
  self : Code2VecModel;
  fs : TF.FS;
  trace : list TF.event;
  fresh : nat
}.

(** [Code2VecModel.__init__] *)
Definition new_model (c : Config.t) (v : Code2VecVocabs) : Code2VecModel :=
  mkSelf c v None 0 None None.

Definition set_keras_model (k : option TF.KerasModel) (st : state) : state :=
  let s := self st in
  mkState (mkSelf (config s) (vocabs s) k (nr_epochs_trained s)
             (_checkpoint s) (_save_checkpoint_manager s))
    (fs st) (trace st) (fresh st).

Definition set_nr_epochs_trained (n : Z) (st : state) : state :=
  let s := self st in
  mkState (mkSelf (config s) (vocabs s) (keras_model s) n
             (_checkpoint s) (_save_checkpoint_manager s))
    (fs st) (trace st) (fresh st).

Definition set_checkpoint (c : option Checkpoint) (st : state) : state :=
  let s := self st in
  mkState (mkSelf (config s) (vocabs s) (keras_model s) (nr_epochs_trained s)
             c (_save_checkpoint_manager s))
    (fs st) (trace st) (fresh st).

Definition set_save_checkpoint_manager (m : option TF.CheckpointManager)
  (st : state) : state :=
  let s := self st in
  mkState (mkSelf (config s) (vocabs s) (keras_model s) (nr_epochs_trained s)
             (_checkpoint s) m)
    (fs st) (trace st) (fresh st).

Definition set_fs (f : TF.FS) (st : state) : state :=
  mkState (self st) f (trace st) (fresh st).

Definition set_fresh (n : nat) (st : state) : state :=
  mkState (self st) (fs st) (trace st) n.

Definition emit (e : TF.event) : M state unit :=
  modify (fun st => mkState (self st) (fs st) (trace st ++ [e])%list (fresh st)).

Definition new_object : M state nat :=
  fun st => (Py.Ok (fresh st), set_fresh (S (fresh st)) st).

(** [self.keras_model.<attribute>] on a model that may still be [None]. *)
Definition the_keras_model : M state TF.KerasModel :=
  let* st := get in
  match keras_model (self st) with
  | Some k => ret k
  | None => raise (Py.AttributeError "'NoneType' object has no attribute")
  end.

Definition alphabetic_or_pipe : list (ascii * ascii) :=
  [("a"%char, "z"%char); ("A"%char, "Z"%char); ("|"%char, "|"%char)].

(** The two filters handed to the word prediction layer. *)
Definition oov_filter (v : Code2VecVocabs) : TF.word_filter :=
  fun word_indices _ => TF.not_equal word_indices (oov_index (target_vocab v)).

Definition legal_name_filter : TF.word_filter :=
  fun _ word_strings => TF.regex_full_match_plus alphabetic_or_pipe word_strings.

(** The body of [_create_keras_model]: the layers and their calls. *)
Definition assemble (c : Config.t) (v : Code2VecVocabs)
  : M TF.graph (list nat * list nat) :=
  let* path_source_token_input := TF.Input (Config.MAX_CONTEXTS c) TF.Int32 in
  let* path_input := TF.Input (Config.MAX_CONTEXTS c) TF.Int32 in
  let* path_target_token_input := TF.Input (Config.MAX_CONTEXTS c) TF.Int32 in
  let* context_valid_mask := TF.Input (Config.MAX_CONTEXTS c) TF.Float32 in
  let* path_embedding :=
    TF.new_layer (Some "path_embedding")
      (TF.Embedding (size (path_vocab v)) (Config.PATH_EMBEDDINGS_SIZE c)) in
  let* paths_embedded := TF.call_layer path_embedding [path_input] None in
  let* token_embedding_shared_layer :=
    TF.new_layer (Some "token_embedding")
      (TF.Embedding (size (token_vocab v)) (Config.TOKEN_EMBEDDINGS_SIZE c)) in
  let* path_source_token_embedded :=
    TF.call_layer token_embedding_shared_layer [path_source_token_input] None in
  let* path_target_token_embedded :=
    TF.call_layer token_embedding_shared_layer [path_target_token_input] None in
  let* concatenate := TF.new_layer None TF.Concatenate in
  let* context_embedded :=
    TF.call_layer concatenate
      [path_source_token_embedded; paths_embedded; path_target_token_embedded]
      None in
  let* dropout := TF.new_layer None (TF.Dropout (Config.DROPOUT_KEEP_RATE c)) in
  let* context_embedded := TF.call_layer dropout [context_embedded] None in
  let* time_distributed :=
    TF.new_layer None
      (TF.TimeDistributedDense (Config.CODE_VECTOR_SIZE c) false TF.Tanh) in
  let* context_after_dense :=
    TF.call_layer time_distributed [context_embedded] None in
  let* attention := TF.new_layer (Some "code_vectors") TF.AttentionLayer in
  let* code_vectors :=
    TF.call_layer attention [context_after_dense] (Some context_valid_mask) in
  let* y_hat_layer :=
    TF.new_layer (Some "y_hat")
      (TF.Dense (size (target_vocab v)) false TF.Softmax) in
  let* y_hat := TF.call_layer y_hat_layer [code_vectors] None in
  let* word_prediction :=
    TF.new_layer (Some "target_word_prediction")
      (TF.WordPredictionLayer
         (Config.TOP_K_WORDS_CONSIDERED_DURING_PREDICTION c)
         (get_index_to_word_lookup_table (target_vocab v))
         [oov_filter v; legal_name_filter]) in
  let* target_word_prediction := TF.call_layer word_prediction [y_hat] None in
  ret ([path_source_token_input; path_input; path_target_token_input;
        context_valid_mask],
       [y_hat; code_vectors; target_word_prediction]).

Definition _create_keras_model : M state unit :=
  let* st := get in
  match assemble (config (self st)) (vocabs (self st)) (TF.mkGraph 0 [] []) with
  | (Py.Ok (ins, outs), g) =>
      modify (set_keras_model (Some (TF.mkModel g ins outs None)))
  | (Py.Raise e, _) => raise e
  end.

(** [target_word_prediction_layer_output]: [get_layer] raises on an
    unknown name. *)
Definition target_word_prediction_layer_output : M state nat :=
  let* k := the_keras_model in
  match TF.get_layer k "target_word_prediction" with
  | Some l =>
      match List.find (fun n => Nat.eqb (TF.node_layer n) (TF.layer_id l))
              (TF.nodes (TF.model_graph k)) with
      | Some n => ret (TF.node_output n)
      | None => raise (Py.AttributeError "Layer has no inbound nodes")
      end
  | None => raise (Py.ValueError "No such layer: target_word_prediction")
  end.

(** The names of the metrics, in their order. *)
Definition _create_metrics_for_keras_model : M state (list string) :=
  let* st := get in
  let k := Config.TOP_K_WORDS_CONSIDERED_DURING_PREDICTION (config (self st)) in
  let top_k_acc_metric := "top" ++ Py.str_of_int k ++ "_acc" in
  let* predicted_word_output := target_word_prediction_layer_output in
  ret [top_k_acc_metric; "subtoken_precision"; "subtoken_recall"; "subtoken_f1"].

Definition _create_optimizer : M state nat := new_object.

Definition _compile_keras_model (optimizer : option nat) : M state unit :=
  let* optimizer :=
    match optimizer with
    | None => _create_optimizer
    | Some o => ret o
    end in
  let* k := the_keras_model in
  let* metrics := _create_metrics_for_keras_model in
  modify (set_keras_model
            (Some (TF.mkModel (TF.model_graph k) (TF.inputs k) (TF.outputs k)
                     (Some optimizer)))) ;;
  emit (TF.ModelCompile optimizer metrics).

Definition _create_data_reader (mode : TF.EstimatorMode) (repeat : bool)
  : M state PathContextReader :=
  ret (mkReader mode
         (match mode with TF.Evaluate => true | _ => false end) repeat).

(** [predict]: every line is parsed by the reader and fed to the network;
    the results are printed and [None] is returned. *)
Definition predict (predict_data_lines : list string)
  : M state (option (list Prediction)) :=
  let* predict_input_reader := _create_data_reader TF.Predict false in
  for_each predict_data_lines (fun predict_line =>
    emit TF.Print ;;
    emit TF.Print ;;
    emit (TF.ReaderRun (estimator_mode predict_input_reader) predict_line) ;;
    emit TF.Print ;;
    emit TF.Print ;;
    emit TF.Print ;;
    let* k := the_keras_model in
    emit (TF.ModelPredict predict_line) ;;
    emit TF.Print) ;;
  ret None.

Definition _get_checkpoint : M state Checkpoint :=
  let* st := get in
  match keras_model (self st) with
  | Some k =>
      match TF.optimizer k with
      | Some o =>
          match _checkpoint (self st) with
          | Some c => ret c
          | None =>
              modify (set_checkpoint (Some (mkCheckpoint o))) ;;
              ret (mkCheckpoint o)
          end
      | None => raise Py.AssertionError
      end
  | None => raise Py.AssertionError
  end.

Definition _get_save_checkpoint_manager : M state TF.CheckpointManager :=
  let* st := get in
  match _save_checkpoint_manager (self st) with
  | Some m => ret m
  | None =>
      let* c := _get_checkpoint in
      let* m := lift (TF.new_manager
                        (Config.full_model_save_path (config (self st)))
                        (Config.MAX_TO_KEEP (config (self st)))) in
      modify (set_save_checkpoint_manager (Some m)) ;;
      ret m
  end.

(** [keras_model.save_weights(path)] *)
Definition save_weights (path : string) : M state unit :=
  let* k := the_keras_model in
  modify (fun st =>
    set_fs (TF.mkFS (TF.weights_files path ∪ TF.paths (fs st))
              (TF.checkpoints (fs st))) st) ;;
  emit (TF.SaveWeights path).

(** [manager.save(checkpoint_number=n)] *)
Definition checkpoint_manager_save (m : TF.CheckpointManager) (n : Z)
  : M state unit :=
  modify (fun st => set_fs (TF.manager_save m n (fs st)) st) ;;
  emit (TF.CheckpointWrite (TF.checkpoint_path (TF.cm_directory m) n)
          (TF.cm_max_to_keep m)).

Definition _save_inner_model (path : string) : M state unit :=
  let* st := get in
  if Config.RELEASE (config (self st)) then
    save_weights (Config.get_model_weights_path path)
  else
    let* m := _get_save_checkpoint_manager in
    let* st := get in
    checkpoint_manager_save m (nr_epochs_trained (self st)).

Definition no_model_message (model_file_path : string) : string :=
  "There is no model at path `" ++ model_file_path
  ++ "`. When loading the model for further training, "
  ++ "we must use a full saved model file (not just weights).".

Definition _load_inner_model : M state unit :=
  _create_keras_model ;;
  _compile_keras_model None ;;
  let* st := get in
  let c := config (self st) in
  let must_use_full_model := Py.truthy (Config.TRAIN_DATA_PATH_PREFIX c) in
  if must_use_full_model
     && negb (TF.path_exists (fs st) (Config.full_model_load_path c))
  then raise (Py.ValueError (no_model_message (Config.full_model_load_path c)))
  else
    let use_full_model :=
      must_use_full_model
      || negb (TF.path_exists (fs st) (Config.model_weights_load_path c)) in
    (if use_full_model then
       let latest_checkpoint :=
         TF.latest_checkpoint (fs st) (Config.full_model_load_path c) in
       emit TF.Print ;;
       let* ckpt := _get_checkpoint in
       emit (TF.CheckpointRestore
               (TF.latest_checkpoint (fs st) (Config.full_model_load_path c))) ;;
       emit TF.InitializeOrRestore ;;
       _compile_keras_model None ;;
       match latest_checkpoint with
       | Some name =>
           let* n := lift (Py.int_of_str
                             (Py.last_item (Py.split Py.dash name) EmptyString)) in
           modify (set_nr_epochs_trained n)
       | None =>
           raise (Py.AttributeError "'NoneType' object has no attribute 'split'")
       end
     else
       the_keras_model ;;
       emit (TF.LoadWeights (Config.model_weights_load_path c))) ;;
    emit TF.ModelSummary.

Definition _create_inner_model : M state unit :=
  _create_keras_model ;;
  _compile_keras_model None ;;
  emit TF.ModelSummary.

(** Modelled from the spec: [save] of the base class (defined in
    [model_base.py], outside the two files embedded here): it persists the
    vocabularies next to the model and the model itself through
    [_save_inner_model]; called without a path it uses the configured save
    path. *)
Definition save (model_save_path : option string) : M state unit :=
  let* st := get in
  let path := default (Config.MODEL_SAVE_PATH (config (self st))) model_save_path in
  emit (TF.VocabsSave (Config.get_vocabularies_path_from_model_path path)) ;;
  _save_inner_model path.

(** *** [ModelCheckpointSaverCallback] *)

Record ModelCheckpointSaverCallback : Type := mkCallback {
  last_saved_epoch : Z
}.

Definition new_callback : M state ModelCheckpointSaverCallback :=
  let* st := get in
  ret (mkCallback (nr_epochs_trained (self st))).

Definition on_epoch_end (cb : ModelCheckpointSaverCallback) (epoch : Z)
  : M state ModelCheckpointSaverCallback :=
  let* st := get in
  (if nr_epochs_trained (self st) =? epoch then ret tt
   else raise Py.AssertionError) ;;
  modify (set_nr_epochs_trained (nr_epochs_trained (self st) + 1)) ;;
  let* st := get in
  let nr_non_saved_epochs := nr_epochs_trained (self st) - last_saved_epoch cb in
  if Config.SAVE_EVERY_EPOCHS (config (self st)) <=? nr_non_saved_epochs then
    save None ;;
    let* st := get in
    ret (mkCallback (nr_epochs_trained (self st)))
  else ret cb.

(** The epochs of [keras_model.fit(..., epochs, initial_epoch, callbacks)]:
    one pass over the data, then the callback, for every epoch of
    [range(initial_epoch, epochs)]. *)
Fixpoint fit_epochs (epochs : list Z) (steps validation_steps : Z)
  (cb : ModelCheckpointSaverCallback) : M state ModelCheckpointSaverCallback :=
  match epochs with
  | [] => ret cb
  | epoch :: rest =>
      emit (TF.FitEpoch epoch steps validation_steps) ;;
      let* cb' := on_epoch_end cb epoch in
      fit_epochs rest steps validation_steps cb'
  end.

Definition train : M state unit :=
  let* train_data_input_reader := _create_data_reader TF.Train false in
  let* val_data_input_reader := _create_data_reader TF.Evaluate true in
  let* k := the_keras_model in
  let* st := get in
  let c := config (self st) in
  let* steps_per_epoch := lift (Config.train_steps_per_epoch c) in
  let initial_epoch := nr_epochs_trained (self st) in
  let* validation_steps := lift (Config.test_steps_per_epoch c) in
  let* cb := new_callback in
  let* cb' :=
    fit_epochs (seqZ initial_epoch (Config.NUM_EPOCHS c - initial_epoch))
      steps_per_epoch validation_steps cb in
  ret tt.

(** ** [_KerasModelInputTensorsFormer] *)

Module Former.

(** [d[key]] on a [dict]. *)
Inductive lookup (A : Type) : Type :=
| Found (a : A)
| KeyError (key : string).
Arguments Found {A} a.
Arguments KeyError {A} key.

Section Tensors.

Variable Tensor : Type.

(** Modelled from the spec: the tensors of one path-context example
    ([ReaderInputTensors], defined in [path_context_reader.py], outside the
    two files embedded here): three index tensors and the validity mask,
    plus, outside predict mode, the target index and optionally the target
    string. *)
Record ReaderInputTensors : Type := mkTensors {
  path_source_token_indices : Tensor;
  path_indices : Tensor;
  path_target_token_indices : Tensor;
  context_valid_mask : Tensor;
  target_index : option Tensor;
  target_string : option Tensor
}.

(** What the Keras model is fed: the four inputs in predict mode, the
    inputs and a dictionary of targets otherwise. *)
Definition model_input (mode : TF.EstimatorMode) : Type :=
  match mode with
  | TF.Predict => Tensor * Tensor * Tensor * Tensor
  | _ => (Tensor * Tensor * Tensor * Tensor) * gmap string (option Tensor)
  end%type.

Definition to_model_input_form (mode : TF.EstimatorMode)
  (input_tensors : ReaderInputTensors) : model_input mode :=
  let inputs :=
    (path_source_token_indices input_tensors, path_indices input_tensors,
     path_target_token_indices input_tensors, context_valid_mask input_tensors) in
  match mode with
  | TF.Predict => inputs
  | TF.Train => (inputs, {[ "y_hat" := target_index input_tensors ]})
  | TF.Evaluate =>
      (inputs,
       <[ "true_target_word" := target_string input_tensors ]>
         {[ "y_hat" := target_index input_tensors ]})
  end.

Definition getitem (targets : gmap string (option Tensor)) (key : string)
  : lookup (option Tensor) :=
  match targets !! key with
  | Some v => Found v
  | None => KeyError key
  end.

Definition of_inputs (inputs : Tensor * Tensor * Tensor * Tensor)
  (index string : option Tensor) : ReaderInputTensors :=
  let '(i0, i1, i2, i3) := inputs in mkTensors i0 i1 i2 i3 index string.

Definition from_model_input_form (mode : TF.EstimatorMode)
  : model_input mode -> lookup ReaderInputTensors :=
  match mode with
  | TF.Predict => fun input_row => Found (of_inputs input_row None None)
  | TF.Train => fun input_row =>
      let inputs := fst input_row in
      let targets := snd input_row in
      match getitem targets "y_hat" with
      | Found target_index => Found (of_inputs inputs target_index None)
      | KeyError k => KeyError k
      end
  | TF.Evaluate => fun input_row =>
      let inputs := fst input_row in
      let targets := snd input_row in
      match getitem targets "y_hat" with
      | Found target_index =>
          match getitem targets "true_target_word" with
          | Found target_string =>
              Found (of_inputs inputs target_index target_string)
          | KeyError k => KeyError k
          end
      | KeyError k => KeyError k
      end
  end.

(** The part of the tensors a mode carries to the model. *)
Definition carried (mode : TF.EstimatorMode) (t : ReaderInputTensors)
  : ReaderInputTensors :=
  mkTensors (path_source_token_indices t) (path_indices t)
    (path_target_token_indices t) (context_valid_mask t)
    (match mode with TF.Predict => None | _ => target_index t end)
    (match mode with TF.Evaluate => target_string t | _ => None end).

End Tensors.

Arguments mkTensors {Tensor}.
Arguments path_source_token_indices {Tensor}.
Arguments path_indices {Tensor}.
Arguments path_target_token_indices {Tensor}.
Arguments context_valid_mask {Tensor}.
Arguments target_index {Tensor}.
Arguments target_string {Tensor}.
Arguments to_model_input_form {Tensor}.
Arguments from_model_input_form {Tensor}.
Arguments carried {Tensor}.

End Former.

(** ** [_get_vocab_embedding_as_np_array] *)

(** Modelled from the spec: the three vocabularies a [VocabType] names
    ([VocabType] and [Code2VecVocabs.get] are defined in
    [vocabularies.py], outside the two files embedded here). *)
Inductive VocabType : Type := Token | Target | Path.

Definition vocabs_get (v : Code2VecVocabs) (vocab_type : VocabType) : Vocab :=
  match vocab_type with
  | Token => token_vocab v
  | Target => target_vocab v
  | Path => path_vocab v
  end.

(** A NumPy array: its shape and its items by index. *)
Record ndarray (A : Type) : Type := mkArray {
  shape : list Z;
  item : list Z -> A
}.
Arguments mkArray {A}.
Arguments shape {A}.
Arguments item {A}.

(** [np.transpose(a)]: the axes reversed. *)
Definition transpose {A} (a : ndarray A) : ndarray A :=
  mkArray (rev (shape a)) (fun index => item a (rev index)).

Definition vocab_type_to_embedding_layer_mapping (vocab_type : VocabType)
  : string :=
  match vocab_type with
  | Target => "y_hat"
  | Token => "token_embedding"
  | Path => "path_embedding"
  end.

Section Weights.

Variable A : Type.

(** [layer.get_weights()[0]]: the embedding table of an [Embedding]
    layer, the kernel of a [Dense] layer. *)
Variable first_weight : TF.layer -> ndarray A.

Definition _get_vocab_embedding_as_np_array (vocab_type : VocabType)
  : M state (ndarray A) :=
  let embedding_layer_name := vocab_type_to_embedding_layer_mapping vocab_type in
  let* k := the_keras_model in
  match TF.get_layer k embedding_layer_name with
  | None => raise (Py.ValueError ("No such layer: " ++ embedding_layer_name))
  | Some l =>
      let weight := first_weight l in
      if negb (length (shape weight) =? 2)%nat then raise Py.AssertionError
      else
        let* st := get in
        let size := size (vocabs_get (vocabs (self st)) vocab_type) in
        if negb (bool_decide (size ∈ shape weight)) then raise Py.AssertionError
        else if negb (size =? List.hd 0 (shape weight))
        then ret (transpose weight)
        else ret weight
  end.

End Weights.

Arguments _get_vocab_embedding_as_np_array {A}.

(** The weight Keras holds for a layer of the network: an [Embedding]
    table has one row per index, a [Dense] kernel one column per unit. *)
Definition keras_weight_shape (k : TF.layer_kind) (input_width : Z) : list Z :=
  match k with
  | TF.Embedding input_dim output_dim => [input_dim; output_dim]
  | TF.Dense units _ _ => [input_width; units]
  | _ => []
  end.

(** ** Notions used to state the properties *)

(** [k] is the ceiling of the exact quotient [n / b], for [b > 0]. *)
Definition is_ceiling (k n b : Z) : Prop := (k - 1) * b < n <= k * b.

(** Strings of decimal digits and the number they denote. *)
Fixpoint all_digits (s : string) : Prop :=
  match s with
  | EmptyString => True
  | String c s' => is_Some (Py.digit_value c) /\ all_digits s'
  end.

Fixpoint dec_value (s : string) (acc : Z) : Z :=
  match s with
  | EmptyString => acc
  | String c s' => dec_value s' (10 * acc + default 0 (Py.digit_value c))
  end.

(** Strings without the separator. *)
Fixpoint free_of (sep : ascii) (s : string) : Prop :=
  match s with
  | EmptyString => True
  | String c s' => Ascii.eqb c sep = false /\ free_of sep s'
  end.

(** Arguments of a training run, for the examples. *)
Definition training_args : Config.Args :=
  Config.mkArgs EmptyString "data/java-small/java-small" "data/java-small/java-small.val.c2v"
    "models/java-small/saved_model" EmptyString false false.

(** The model [_create_keras_model] builds, and the states a load goes
    through. *)
Definition built_graph (c : Config.t) (v : Code2VecVocabs) : TF.graph :=
  snd (assemble c v (TF.mkGraph 0 [] [])).

Definition built_model (c : Config.t) (v : Code2VecVocabs) : TF.KerasModel :=
  TF.mkModel (built_graph c v) [1; 3; 5; 7]%nat [22; 20; 24]%nat None.

(** [keras_model.compile(optimizer=o, ...)] *)
Definition with_optimizer (k : TF.KerasModel) (o : nat) : TF.KerasModel :=
  TF.mkModel (TF.model_graph k) (TF.inputs k) (TF.outputs k) (Some o).

(** The names [_create_metrics_for_keras_model] gives the metrics. *)
Definition metric_names (c : Config.t) : list string :=
  ["top" ++ Py.str_of_int (Config.TOP_K_WORDS_CONSIDERED_DURING_PREDICTION c) ++ "_acc";
   "subtoken_precision"; "subtoken_recall"; "subtoken_f1"].

(** The state after one more library call. *)
Definition add_event (e : TF.event) (st : state) : state :=
  mkState (self st) (fs st) (trace st ++ [e])%list (fresh st).

(** The instance after [_create_keras_model(); _compile_keras_model()]. *)
Definition prepared (st : state) : state :=
  add_event (TF.ModelCompile (fresh st) (metric_names (config (self st))))
    (set_fresh (S (fresh st))
       (set_keras_model
          (Some (with_optimizer (built_model (config (self st)) (vocabs (self st)))
                   (fresh st))) st)).

Definition ensure_checkpoint (o : nat) (st : state) : state :=
  match _checkpoint (self st) with
  | Some _ => st
  | None => set_checkpoint (Some (mkCheckpoint o)) st
  end.

(** The instance after the restore of the full-model branch of
    [_load_inner_model], before the epoch counter is set. *)
Definition restored (st : state) : state :=
  let c := config (self st) in
  let p := ensure_checkpoint (fresh st) (add_event TF.Print (prepared st)) in
  let q :=
    add_event TF.InitializeOrRestore
      (add_event
         (TF.CheckpointRestore
            (TF.latest_checkpoint (fs st) (Config.full_model_load_path c))) p) in
  add_event (TF.ModelCompile (S (fresh st)) (metric_names c))
    (set_fresh (S (S (fresh st)))
       (set_keras_model
          (Some (with_optimizer (built_model c (vocabs (self st))) (S (fresh st))))
          q)).

(** The library calls made between two states of a run. *)
Definition new_events (before after : state) : list TF.event :=
  drop (length (trace before)) (trace after).

(** The calls that restore a model: from a checkpoint or from weights. *)
Definition is_restore (e : TF.event) : bool :=
  match e with
  | TF.CheckpointRestore _ | TF.LoadWeights _ => true
  | _ => false
  end.

(** The error of [_load_inner_model] for a missing full model. *)
Definition configuration_error (c : Config.t) : Py.exn :=
  Py.ValueError (no_model_message (Config.full_model_load_path c)).

(** A new instance in a new process. *)
Definition fresh_state (c : Config.t) (v : Code2VecVocabs) (f : TF.FS) : state :=
  mkState (new_model c v) f [] 0.

(** Small vocabularies, an empty file system and arguments for the
    examples. *)
Definition example_vocab : Vocab := mkVocab 4 1 (fun _ => "name").
Definition example_vocabs : Code2VecVocabs :=
  mkVocabs example_vocab example_vocab example_vocab.
Definition empty_fs : TF.FS := TF.mkFS ∅ ∅.
Definition inference_args : Config.Args :=
  Config.mkArgs EmptyString EmptyString EmptyString EmptyString
    "models/java-small/saved_model" false false.

(** The cached checkpoint manager, if any, is the one
    [_get_save_checkpoint_manager] creates. *)
Definition manager_wf (s : Code2VecModel) : Prop :=
  match _save_checkpoint_manager s with
  | Some m =>
      TF.new_manager (Config.full_model_save_path (config s))
        (Config.MAX_TO_KEEP (config s)) = Py.Ok m
  | None => True
  end.

(** Arguments of a run that resumes training from the saved model. *)
Definition resume_args : Config.Args :=
  Config.mkArgs EmptyString "data/java-small/java-small" "data/java-small/java-small.val.c2v"
    "models/java-small/saved_model" "models/java-small/saved_model" false false.

(** An instance built by [_create_inner_model] that has trained [n] epochs. *)
Definition trained_state (c : Config.t) (n : Z) : state :=
  set_nr_epochs_trained n
    (_create_inner_model (fresh_state c example_vocabs empty_fs)).2.

(** The calls that write the model. *)
Definition is_save (e : TF.event) : bool :=
  match e with
  | TF.SaveWeights _ | TF.CheckpointWrite _ _ => true
  | _ => false
  end.

(** Modelled from the spec: how the word prediction layer
    (defined in [keras_word_prediction_layer.py], outside the two files
    embedded here)
    combines its filters: a candidate is kept when every filter keeps it
    ("predicates compose by logical AND"). *)
Definition compose_filters (filters : list TF.word_filter)
  (word_indices : list Z) (word_strings : list string) : list bool :=
  foldr (fun f mask => zip_with andb (f word_indices word_strings) mask)
    (List.map (fun _ => true) word_indices) filters.

(** A letter of [a-z] or [A-Z], or the separator of subtokens. *)
Definition letter_or_pipe (ch : ascii) : Prop :=
  let n := N_of_ascii ch in
  (97 <= n <= 122)%N \/ (65 <= n <= 90)%N \/ ch = "|"%char.

(** A non-empty string of letters and pipes. *)
Definition alphabetic_name (s : string) : Prop :=
  s <> EmptyString /\ Forall letter_or_pipe (list_ascii_of_string s).

(** The library calls [predict] makes for one line. *)
Definition predict_line_events (line : string) : list TF.event :=
  [TF.Print; TF.Print; TF.ReaderRun TF.Predict line; TF.Print; TF.Print;
   TF.Print; TF.ModelPredict line; TF.Print].

(** Whether [_save_inner_model] can write: a model to take the weights
    from for a release; otherwise a checkpoint manager, either cached or
    one that can be made from a compiled model and a positive
    [MAX_TO_KEEP]. *)
Definition can_save (st : state) : bool :=
  let s := self st in
  if Config.RELEASE (config s) then bool_decide (is_Some (keras_model s))
  else
    match _save_checkpoint_manager s with
    | Some _ => true
    | None =>
        match keras_model s with
        | Some k =>
            bool_decide (is_Some (TF.optimizer k))
            && (0 <? Config.MAX_TO_KEEP (config s))
        | None => false
        end
    end.

(** Whether [_load_inner_model] goes on to restore the full model: no
    configuration error, and training is asked for or the weights file is
    absent. *)
Definition takes_full_branch (st : state) : bool :=
  let c := config (self st) in
  let must_use_full_model := Py.truthy (Config.TRAIN_DATA_PATH_PREFIX c) in
  negb (must_use_full_model
        && negb (TF.path_exists (fs st) (Config.full_model_load_path c)))
  && (must_use_full_model
      || negb (TF.path_exists (fs st) (Config.model_weights_load_path c))).

(** Arguments of a run that releases a trained model. *)
Definition release_args : Config.Args :=
  Config.mkArgs EmptyString EmptyString EmptyString
    "models/java-small/saved_model" "models/java-small/saved_model" true false.

(** An instance that can be trained: its network is built, it can save,
    and a cached checkpoint manager is the configured one. *)
Definition ready (st : state) : Prop :=
  is_Some (keras_model (self st))
  /\ can_save st = true
  /\ manager_wf (self st).

(** ** The states of an instance *)

(** One call of a method on the instance, whatever its outcome, or a change
    of the files by something else. *)
Inductive step : state -> state -> Prop :=
| step_create st : step st (_create_inner_model st).2
| step_load st : step st (_load_inner_model st).2
| step_save st path : step st (save path st).2
| step_save_inner st path : step st (_save_inner_model path st).2
| step_train st : step st (train st).2
| step_predict st lines : step st (predict lines st).2
| step_epoch_end st cb epoch : step st (on_epoch_end cb epoch st).2
| step_files st f : step st (mkState (self st) f (trace st) (fresh st)).

(** The states a new instance with configuration [c] and vocabularies [v]
    can get into. *)
Definition reachable (c : Config.t) (v : Code2VecVocabs) (st : state) : Prop :=
  exists f tr fr, rtc step (mkState (new_model c v) f tr fr) st.

Record invariant (c : Config.t) (v : Code2VecVocabs) (s : Code2VecModel)
  : Prop := mkInvariant {
  inv_config : config s = c;
  inv_vocabs : vocabs s = v;
  inv_counter : 0 <= nr_epochs_trained s;
  inv_manager : manager_wf s;
  inv_network :
    forall k, keras_model s = Some k -> TF.model_graph k = built_graph c v
}.

(** ** Tactics

    Projections of explicit states, membership in explicit event lists,
    and the evaluation of the graph builder. *)

Ltac state_simpl :=
  cbn [self fs trace fresh config vocabs keras_model nr_epochs_trained
       _checkpoint _save_checkpoint_manager add_event set_fresh set_fs
       set_keras_model set_checkpoint set_nr_epochs_trained
       set_save_checkpoint_manager ensure_checkpoint prepared restored
       with_optimizer built_model TF.optimizer TF.model_graph TF.inputs
       TF.outputs default] in *.

Ltac event_in :=
  rewrite ?elem_of_cons; repeat first [left; reflexivity | right].

Ltac event_out :=
  rewrite ?not_elem_of_cons; repeat split; try congruence; apply not_elem_of_nil.

Ltac run_graph :=
  cbv [built_graph assemble bind ret TF.Input TF.new_layer TF.call_layer
       TF.next_id TF.layers TF.nodes snd];
  cbn [app].

Ltac save_cases :=
  repeat split; auto; try discriminate; try congruence;
  try (intros X; apply bool_decide_eq_true in X; destruct X; discriminate);
  try (intros _; apply bool_decide_eq_true; eauto).

(** * Properties *)

(** ** The primitives on concrete inputs *)

Example split_ckpt : Py.split Py.dash "m-full/ckpt-12" = ["m"; "full/ckpt"; "12"].
Proof. reflexivity. Qed.

Example str_of_int_120 : Py.str_of_int 120 = "120".
Proof. reflexivity. Qed.

Example str_of_int_neg : Py.str_of_int (-7) = "-7".
Proof. reflexivity. Qed.

Example int_of_str_12 : Py.int_of_str " 1_2 " = Py.Ok 12.
Proof. reflexivity. Qed.

Example int_of_str_no_break_space :
  Py.int_of_str (String (ascii_of_N 160) "7") = Py.Ok 7.
Proof. reflexivity. Qed.

Example int_of_str_message :
  Py.int_of_str "ckpt"
  = Py.Raise (Py.ValueError "invalid literal for int() with base 10: 'ckpt'").
Proof. reflexivity. Qed.

Example repr_with_single_quote :
  Py.repr "it's"
  = String Py.double_quote "it's" ++ String Py.double_quote EmptyString.
Proof. reflexivity. Qed.

Example repr_escapes :
  Py.repr (String (ascii_of_N 10) (String (ascii_of_N 133)
             (String Py.backslash EmptyString)))
  = "'\n\x85\\'".
Proof. reflexivity. Qed.

Example endswith_h5 :
  Py.endswith "model.h5" ".h5" = true
  /\ Py.endswith "model-only-weights" ".keras" = false.
Proof. split; reflexivity. Qed.

Example truediv_1000_512 : Py.truediv 1000 512 = Py.Ok (Py.mkFloat 8796093022208000 (-52)).
Proof. vm_compute. reflexivity. Qed.

Example ceil_1000_512 : Py.rbind (Py.truediv 1000 512) (fun f => Py.Ok (Py.ceil f)) = Py.Ok 2.
Proof. vm_compute. reflexivity. Qed.

Example truediv_big : Py.rbind (Py.truediv (2 ^ 53 + 1) 1) (fun f => Py.Ok (Py.ceil f)) = Py.Ok (2 ^ 53).
Proof. vm_compute. reflexivity. Qed.

Example truediv_third : Py.truediv 1 3 = Py.Ok (Py.mkFloat 6004799503160661 (-54)).
Proof. vm_compute. reflexivity. Qed.

Example vocabularies_path :
  Config.get_vocabularies_path_from_model_path "models/java14m/saved_model"
  = "models/java14m/vocabularies.bin".
Proof. reflexivity. Qed.

(** ** The default configuration *)

(** C5: in the configuration built by [get_default_config], the context
    width is the path width plus twice the token width, and the code
    vector has the width of a context. *)
Theorem default_config_widths_consistent (args : Config.Args) :
  let c := Config.get_default_config args in
  Config.CONTEXT_EMBEDDINGS_SIZE c
  = Config.PATH_EMBEDDINGS_SIZE c + 2 * Config.TOKEN_EMBEDDINGS_SIZE c
  /\ Config.CODE_VECTOR_SIZE c = Config.CONTEXT_EMBEDDINGS_SIZE c.
Proof. split; reflexivity. Qed.

(** ** Steps per epoch

    [ceil(n / b)] goes through a binary64 quotient.  For operands below
    [2 ^ 53] the rounding of the quotient never crosses an integer, so
    the result is the exact ceiling. *)

Section Division.

Lemma pos_nonneg k : 0 <= k -> Py.pos k = k.
Proof. unfold Py.pos. lia. Qed.

Lemma pos_nonpos k : k <= 0 -> Py.pos k = 0.
Proof. unfold Py.pos. lia. Qed.

Lemma binade_lower a b :
  0 < a -> 0 < b ->
  b * 2 ^ Py.pos (Py.binade a b) <= a * 2 ^ Py.pos (- Py.binade a b).
Proof.
  intros Ha Hb. unfold Py.binade.
  destruct (Z.leb_spec (b * 2 ^ Py.pos (Z.log2 a - Z.log2 b))
              (a * 2 ^ Py.pos (- (Z.log2 a - Z.log2 b)))) as [H | H]; [exact H |].
  destruct (Z.log2_spec a Ha) as [La _].
  destruct (Z.log2_spec b Hb) as [_ Lb].
  pose proof (Z.log2_nonneg a) as Na. pose proof (Z.log2_nonneg b) as Nb.
  set (la := Z.log2 a) in *. set (lb := Z.log2 b) in *.
  destruct (Z_le_gt_dec (la - lb - 1) 0) as [Hd | Hd].
  - rewrite (pos_nonpos (la - lb - 1)) by lia.
    rewrite (pos_nonneg (- (la - lb - 1))) by lia.
    replace (- (la - lb - 1)) with (lb + 1 - la) by lia.
    assert (2 ^ (lb + 1) = 2 ^ la * 2 ^ (lb + 1 - la)) as E
      by (rewrite <- Z.pow_add_r by lia; f_equal; lia).
    assert (0 < 2 ^ (lb + 1 - la)) by (apply Z.pow_pos_nonneg; lia).
    nia.
  - rewrite (pos_nonneg (la - lb - 1)) by lia.
    rewrite (pos_nonpos (- (la - lb - 1))) by lia.
    assert (2 ^ la = 2 ^ (lb + 1) * 2 ^ (la - lb - 1)) as E
      by (rewrite <- Z.pow_add_r by lia; f_equal; lia).
    assert (0 < 2 ^ (la - lb - 1)) by (apply Z.pow_pos_nonneg; lia).
    nia.
Qed.

Lemma round_half_even_cases num den :
  0 < den ->
  let m := Py.round_half_even num den in
  (m = num / den /\ 2 * (num mod den) <= den)
  \/ (m = num / den + 1 /\ den <= 2 * (num mod den)).
Proof.
  intros Hd. unfold Py.round_half_even. cbv zeta.
  destruct (Z.ltb_spec den (2 * (num mod den))) as [H | H]; cbn [orb].
  - right. lia.
  - destruct (Z.eqb_spec den (2 * (num mod den))) as [E | E]; cbn [andb].
    + destruct (Z.odd (num / den)); [right | left]; lia.
    + left. lia.
Qed.

(** Rounding to 53 bits does not move a quotient of two 53-bit numbers
    across an integer. *)
Lemma ceil_of_rounded a b s :
  0 < a < 2 ^ 53 -> 0 < b -> 0 <= s ->
  2 ^ 52 * b <= a * 2 ^ s ->
  let m := Py.round_half_even (a * 2 ^ s) b in
  let k := - ((- m) / 2 ^ s) in
  (k - 1) * b < a <= k * b.
Proof.
  intros Ha Hb Hs Hn m k.
  assert (0 < 2 ^ s) as HP by (apply Z.pow_pos_nonneg; lia).
  set (P := 2 ^ s) in *.
  pose proof (round_half_even_cases (a * P) b Hb) as C. cbv zeta in C.
  fold m in C.
  pose proof (Z.div_mod (a * P) b ltac:(lia)) as D.
  pose proof (Z.mod_pos_bound (a * P) b Hb) as B.
  set (m0 := a * P / b) in *. set (r0 := (a * P) mod b) in *.
  assert (2 ^ 52 <= m0) as Hm0.
  { unfold m0. apply Z.div_le_lower_bound; lia. }
  (* k is the ceiling of m / P *)
  pose proof (Z.div_mod (- m) P ltac:(lia)) as Dk.
  pose proof (Z.mod_pos_bound (- m) P HP) as Bk.
  assert ((k - 1) * P < m <= k * P) as [K1 K2] by (unfold k; nia).
  clearbody k m m0 r0. 
  split.
  - (* lower *)
    apply (Z.mul_lt_mono_pos_r P); [lia |].
    destruct C as [[-> C] | [-> C]].
    + assert ((k - 1) * P + 1 <= m0) by lia. nia.
    + assert ((k - 1) * P <= m0) by lia.
      assert (0 < r0) by lia. nia.
  - (* upper *)
    apply (Z.mul_le_mono_pos_r _ _ P); [lia |].
    destruct (Z.eq_dec r0 0) as [Z0 | NZ].
    + assert (m0 <= k * P) by lia. nia.
    + destruct (Z_lt_le_dec m0 (k * P)) as [Hlt | Hge].
      * assert (m0 + 1 <= k * P) by lia. nia.
      * exfalso.
        assert (m = m0 /\ 2 * r0 <= b) as [-> Hr] by lia.
        assert (m0 = k * P) as -> by lia.
        (* a * P = b * k * P + r0, so P divides r0 *)
        assert (r0 = (a - b * k) * P) as Er by lia.
        assert (1 <= a - b * k) by nia.
        assert (2 * P <= b) by nia.
        assert (0 < k) by nia.
        assert (2 * (k * P) + 1 <= a) by nia.
        lia.
Qed.

Lemma floor_of_rounded a b s :
  0 < a < 2 ^ 53 -> 0 < b -> 0 <= s ->
  2 ^ 52 * b <= a * 2 ^ s ->
  let m := Py.round_half_even (a * 2 ^ s) b in
  let j := m / 2 ^ s in
  j * b <= a < (j + 1) * b.
Proof.
  intros Ha Hb Hs Hn m j.
  assert (0 < 2 ^ s) as HP by (apply Z.pow_pos_nonneg; lia).
  set (P := 2 ^ s) in *.
  pose proof (round_half_even_cases (a * P) b Hb) as C. cbv zeta in C.
  fold m in C.
  pose proof (Z.div_mod (a * P) b ltac:(lia)) as D.
  pose proof (Z.mod_pos_bound (a * P) b Hb) as B.
  set (m0 := a * P / b) in *. set (r0 := (a * P) mod b) in *.
  assert (2 ^ 52 <= m0) as Hm0.
  { unfold m0. apply Z.div_le_lower_bound; lia. }
  pose proof (Z.div_mod m P ltac:(lia)) as Dj.
  pose proof (Z.mod_pos_bound m P HP) as Bj.
  assert (j * P <= m < (j + 1) * P) as [J1 J2] by (unfold j; nia).
  clearbody j m m0 r0.
  split.
  - apply (Z.mul_le_mono_pos_r _ _ P); [lia |].
    destruct (Z_le_gt_dec (j * P) m0) as [Hle | Hgt]; [nia |].
    exfalso.
    assert (m = m0 + 1 /\ b <= 2 * r0) as [-> Hr] by lia.
    assert (m0 = j * P - 1) as -> by lia.
    assert (b - r0 = (b * j - a) * P) as Et by lia.
    assert (1 <= b * j - a) by nia.
    assert (2 * P <= b) by nia.
    assert (0 < j) by nia.
    assert (2 * (j * P) - 1 <= a) by nia.
    lia.
  - apply (Z.mul_lt_mono_pos_r P); [lia |].
    assert (m0 + 1 <= (j + 1) * P) by lia. nia.
Qed.

(** Operands of at most 53 bits: the quotient is a normal number with a
    non-positive exponent. *)
Section Operands.

Variables a b : Z.
Hypothesis Ha : 0 < a < 2 ^ 53.
Hypothesis Hb : 0 < b < 2 ^ 53.

Lemma binade_range : -53 <= Py.binade a b <= 52.
Proof.
  unfold Py.binade.
  assert (0 <= Z.log2 a < 53) by (split; [apply Z.log2_nonneg | apply Z.log2_lt_pow2; lia]).
  assert (0 <= Z.log2 b < 53) by (split; [apply Z.log2_nonneg | apply Z.log2_lt_pow2; lia]).
  destruct (_ <=? _); lia.
Qed.

Lemma normal_lower :
  2 ^ 52 * b <= a * 2 ^ (52 - Py.binade a b).
Proof.
  pose proof binade_range as R.
  pose proof (binade_lower a b ltac:(lia) ltac:(lia)) as L.
  set (e := Py.binade a b) in *.
  destruct (Z_le_gt_dec 0 e) as [He | He].
  - rewrite (pos_nonneg e), (pos_nonpos (- e)) in L by lia.
    assert (2 ^ 52 = 2 ^ e * 2 ^ (52 - e)) as E
      by (rewrite <- Z.pow_add_r by lia; f_equal; lia).
    assert (0 < 2 ^ (52 - e)) by (apply Z.pow_pos_nonneg; lia).
    rewrite E. nia.
  - rewrite (pos_nonpos e), (pos_nonneg (- e)) in L by lia.
    assert (2 ^ (52 - e) = 2 ^ 52 * 2 ^ (- e)) as E
      by (rewrite <- Z.pow_add_r by lia; f_equal; lia).
    rewrite E. nia.
Qed.

Lemma div_magnitude_bounded :
  let s := 52 - Py.binade a b in
  0 <= s
  /\ Py.div_magnitude a b = Py.mkFloat (Py.round_half_even (a * 2 ^ s) b) (- s).
Proof.
  intros s.
  pose proof binade_range as R.
  split; [unfold s; lia |].
  unfold Py.div_magnitude. cbv zeta.
  replace (Z.max (Py.binade a b - 52) (-1074)) with (- s) by (unfold s; lia).
  rewrite (pos_nonpos (- s)) by (unfold s; lia).
  rewrite (pos_nonneg (- - s)) by (unfold s; lia).
  rewrite Z.opp_involutive, Z.pow_0_r, Z.mul_1_r. reflexivity.
Qed.

End Operands.

Lemma steps_exact n b :
  - 2 ^ 53 < n < 2 ^ 53 -> 0 < b < 2 ^ 53 ->
  exists k, Config.steps n b = Py.Ok k /\ (k - 1) * b < n <= k * b.
Proof.
  intros Hn Hb. unfold Config.steps, Py.truediv.
  destruct (Z.eqb_spec b 0) as [? | _]; [lia |].
  destruct (Z.eqb_spec n 0) as [-> | Hn0].
  { exists 0. split; [reflexivity | lia]. }
  assert (0 < Z.abs n < 2 ^ 53) as Ha by lia.
  rewrite (Z.abs_eq b) by lia.
  destruct (div_magnitude_bounded (Z.abs n) b Ha Hb) as [Hs ->].
  pose proof (normal_lower (Z.abs n) b Ha Hb) as L.
  pose proof (ceil_of_rounded (Z.abs n) b _ Ha ltac:(lia) Hs L) as C.
  pose proof (floor_of_rounded (Z.abs n) b _ Ha ltac:(lia) Hs L) as F.
  cbv zeta in C, F.
  set (s := 52 - Py.binade (Z.abs n) b) in *.
  pose proof (round_half_even_cases (Z.abs n * 2 ^ s) b ltac:(lia)) as RC.
  cbv zeta in RC.
  set (m := Py.round_half_even (Z.abs n * 2 ^ s) b) in *.
  cbn [Py.mant Py.expo].
  assert (0 < 2 ^ s) as HP by (apply Z.pow_pos_nonneg; lia).
  assert (m <= Z.abs n * 2 ^ s + 1) as Hm.
  { pose proof (Z.div_le_upper_bound (Z.abs n * 2 ^ s) b (Z.abs n * 2 ^ s)
                  ltac:(lia) ltac:(nia)).
    lia. }
  rewrite (pos_nonneg (- - s)), (pos_nonpos (- s)), Z.opp_involutive by lia.
  destruct (Z.leb_spec (2 ^ 1024 * 2 ^ s) (m * 2 ^ 0)) as [Ov | _].
  { exfalso. rewrite Z.pow_0_r in Ov.
    assert (2 ^ 53 * 2 ^ s < 2 ^ 1024 * 2 ^ s)
      by (apply Z.mul_lt_mono_pos_r; [lia | reflexivity]).
    nia. }
  cbn [Py.rbind]. rewrite (Z.sgn_pos b) by lia.
  unfold Py.ceil. cbn [Py.mant Py.expo].
  destruct (Z_lt_le_dec 0 n) as [Hpos | Hneg].
  - rewrite (Z.sgn_pos n) by lia. rewrite (Z.abs_eq n) in * by lia.
    exists (- ((- m) / 2 ^ s)). split; [| exact C].
    f_equal. replace (1 * 1 * m) with m by lia.
    destruct (Z.leb_spec 0 (- s)) as [Hz | Hz].
    + assert (s = 0) as -> by lia. cbn. rewrite Z.div_1_r. lia.
    + rewrite Z.opp_involutive. reflexivity.
  - rewrite (Z.sgn_neg n) by lia. rewrite (Z.abs_neq n) in * by lia.
    exists (- (m / 2 ^ s)). split; [| lia].
    f_equal. replace (-1 * 1 * m) with (- m) by lia.
    destruct (Z.leb_spec 0 (- s)) as [Hz | Hz].
    + assert (s = 0) as -> by lia. cbn. rewrite Z.div_1_r. lia.
    + rewrite !Z.opp_involutive. reflexivity.
Qed.

End Division.

(** C7, as amended: when the numbers of examples are below [2 ^ 53] in
    magnitude and the batch sizes are positive and below [2 ^ 53],
    [train_steps_per_epoch] and [test_steps_per_epoch] return the exact
    ceilings of examples over batch size; 1000 examples in batches of 512
    make 2 steps. *)
Theorem steps_per_epoch_exact_ceiling (c : Config.t) :
  - 2 ^ 53 < Config.NUM_TRAIN_EXAMPLES c < 2 ^ 53 ->
  0 < Config.TRAIN_BATCH_SIZE c < 2 ^ 53 ->
  - 2 ^ 53 < Config.NUM_TEST_EXAMPLES c < 2 ^ 53 ->
  0 < Config.TEST_BATCH_SIZE c < 2 ^ 53 ->
  (exists tr te,
     Config.train_steps_per_epoch c = Py.Ok tr
     /\ Config.test_steps_per_epoch c = Py.Ok te
     /\ is_ceiling tr (Config.NUM_TRAIN_EXAMPLES c) (Config.TRAIN_BATCH_SIZE c)
     /\ is_ceiling te (Config.NUM_TEST_EXAMPLES c) (Config.TEST_BATCH_SIZE c))
  /\ (Config.NUM_TRAIN_EXAMPLES c = 1000 -> Config.TRAIN_BATCH_SIZE c = 512 ->
      Config.train_steps_per_epoch c = Py.Ok 2).
Proof.
  intros Htr Hbtr Hte Hbte.
  destruct (steps_exact _ _ Htr Hbtr) as (tr & Etr & Ctr).
  destruct (steps_exact _ _ Hte Hbte) as (te & Ete & Cte).
  split.
  - exists tr, te. unfold Config.train_steps_per_epoch, Config.test_steps_per_epoch.
    auto.
  - intros E1 E2. unfold Config.train_steps_per_epoch. rewrite E1, E2.
    reflexivity.
Qed.

Lemma steps_per_epoch_exact_ceiling_witness :
  let c := Config.with_examples (Config.get_default_config training_args) 1000 300 in
  (exists tr te,
     Config.train_steps_per_epoch c = Py.Ok tr
     /\ Config.test_steps_per_epoch c = Py.Ok te
     /\ is_ceiling tr (Config.NUM_TRAIN_EXAMPLES c) (Config.TRAIN_BATCH_SIZE c)
     /\ is_ceiling te (Config.NUM_TEST_EXAMPLES c) (Config.TEST_BATCH_SIZE c))
  /\ (Config.NUM_TRAIN_EXAMPLES c = 1000 -> Config.TRAIN_BATCH_SIZE c = 512 ->
      Config.train_steps_per_epoch c = Py.Ok 2).
Proof.
  apply (steps_per_epoch_exact_ceiling
           (Config.with_examples (Config.get_default_config training_args) 1000 300));
    cbn; lia.
Defined.

(** C7 as stated fails beyond 53 bits: with the default batch size of 512
    and [2 ^ 62 + 1] training examples the quotient rounds down to
    [2 ^ 53], one step short of the ceiling. *)
Lemma steps_per_epoch_inexact_beyond_53_bits :
  let c := Config.with_examples (Config.get_default_config training_args)
             (2 ^ 62 + 1) 0 in
  0 < Config.TRAIN_BATCH_SIZE c
  /\ 0 < Config.TEST_BATCH_SIZE c
  /\ Config.train_steps_per_epoch c = Py.Ok (2 ^ 53)
  /\ ~ is_ceiling (2 ^ 53) (Config.NUM_TRAIN_EXAMPLES c) (Config.TRAIN_BATCH_SIZE c).
Proof.
  cbv zeta. repeat split; try reflexivity.
  unfold is_ceiling. cbn. lia.
Qed.

(** ** Decimal numbers and checkpoint names *)

Lemma digit_value_char d :
  0 <= d < 10 -> Py.digit_value (Py.digit_char d) = Some d.
Proof.
  intros H.
  assert (d = 0 \/ d = 1 \/ d = 2 \/ d = 3 \/ d = 4 \/ d = 5 \/ d = 6
          \/ d = 7 \/ d = 8 \/ d = 9) as C by lia.
  repeat (destruct C as [-> | C]; [reflexivity |]). subst. reflexivity.
Qed.

Lemma digit_not_dash c : is_Some (Py.digit_value c) -> Ascii.eqb c Py.dash = false.
Proof.
  intros [d H]. destruct (Ascii.eqb_spec c Py.dash) as [-> | ]; [discriminate | reflexivity].
Qed.

Lemma digit_not_plus c : is_Some (Py.digit_value c) -> Ascii.eqb c "+"%char = false.
Proof.
  intros [d H]. destruct (Ascii.eqb_spec c "+"%char) as [-> | ]; [discriminate | reflexivity].
Qed.

Lemma digit_not_space c : is_Some (Py.digit_value c) -> Py.is_space c = false.
Proof.
  intros [d H]. unfold Py.digit_value in H. unfold Py.is_space.
  destruct (Z.leb_spec 48 (Z.of_N (N_of_ascii c))); [| discriminate].
  destruct (Z.leb_spec (Z.of_N (N_of_ascii c)) 57); [| discriminate].
  destruct (N.leb_spec (N_of_ascii c) 13), (N.eqb_spec (N_of_ascii c) 32),
    (N.eqb_spec (N_of_ascii c) 133), (N.eqb_spec (N_of_ascii c) 160);
    rewrite ?andb_false_r; cbn; try reflexivity; lia.
Qed.

Lemma all_digits_app s t : all_digits s -> all_digits t -> all_digits (s ++ t).
Proof.
  induction s as [| c s IH]; cbn; [auto |].
  intros [H1 H2] Ht. split; auto.
Qed.

Lemma dec_value_app s t acc : dec_value (s ++ t) acc = dec_value t (dec_value s acc).
Proof.
  revert acc. induction s as [| c s IH]; intros acc; cbn; [reflexivity |].
  apply IH.
Qed.

Lemma int_digits_all_digits s acc prev :
  all_digits s -> s <> EmptyString \/ prev = true ->
  Py.int_digits s acc prev = Some (dec_value s acc).
Proof.
  revert acc prev. induction s as [| c s IH]; intros acc prev Hs Hne.
  - destruct Hne as [? | ->]; [congruence | reflexivity].
  - destruct Hs as [[d Hd] Hs]. cbn. rewrite Hd. cbn. apply IH; auto.
Qed.

Lemma digits_spec fuel n :
  0 <= n < 2 ^ (Z.of_nat fuel + 1) ->
  let s := Py.digits fuel n in
  all_digits s /\ s <> EmptyString /\ dec_value s 0 = n.
Proof.
  revert n. induction fuel as [| fuel IH]; intros n Hn.
  - change (2 ^ (Z.of_nat 0 + 1)) with 2 in Hn. cbn.
    rewrite Z.mod_small by lia. rewrite digit_value_char by lia. cbn.
    repeat split; eauto; try discriminate; lia.
  - cbn [Py.digits]. destruct (Z.ltb_spec n 10) as [Hlt | Hge].
    + cbn. rewrite digit_value_char by lia. cbn.
      repeat split; eauto; try discriminate; lia.
    + assert (0 <= n / 10 < 2 ^ (Z.of_nat fuel + 1)) as Hq.
      { split; [apply Z.div_pos; lia |].
        apply Z.div_lt_upper_bound; [lia |].
        replace (Z.of_nat (S fuel) + 1) with (Z.succ (Z.of_nat fuel + 1)) in Hn by lia.
        rewrite Z.pow_succ_r in Hn by lia. lia. }
      destruct (IH _ Hq) as (A & N & V). cbv zeta.
      pose proof (Z.mod_pos_bound n 10 ltac:(lia)) as Hm.
      repeat split.
      * apply all_digits_app; [exact A |]. cbn.
        rewrite digit_value_char by lia. eauto.
      * destruct (Py.digits fuel (n / 10)); [congruence | discriminate].
      * rewrite dec_value_app, V. cbn. rewrite digit_value_char by lia. cbn.
        pose proof (Z.div_mod n 10 ltac:(lia)). lia.
Qed.

Lemma str_of_int_spec n :
  0 <= n ->
  let s := Py.str_of_int n in
  all_digits s /\ s <> EmptyString /\ dec_value s 0 = n.
Proof.
  intros Hn. unfold Py.str_of_int.
  destruct (Z.ltb_spec n 0); [lia |].
  apply digits_spec. split; [lia |].
  destruct (Z.eq_dec n 0) as [-> | ]; [reflexivity |].
  rewrite Z2Nat.id by apply Z.log2_nonneg.
  apply Z.log2_spec. lia.
Qed.

Lemma int_of_str_all_digits s :
  all_digits s -> s <> EmptyString -> Py.int_of_str s = Py.Ok (dec_value s 0).
Proof.
  intros Hs Hne. destruct s as [| c s]; [congruence |].
  destruct Hs as [Hc Hs]. unfold Py.int_of_str.
  cbn [Py.lstrip]. rewrite (digit_not_space c Hc). cbv zeta.
  pose proof (digit_not_dash c Hc) as Hd. unfold Py.dash in Hd.
  rewrite Hd, (digit_not_plus c Hc).
  rewrite int_digits_all_digits; [reflexivity | split; assumption | left; discriminate].
Qed.

(** [int(str(n)) == n] *)
Lemma int_of_str_of_int n : 0 <= n -> Py.int_of_str (Py.str_of_int n) = Py.Ok n.
Proof.
  intros Hn. destruct (str_of_int_spec n Hn) as (A & N & V).
  rewrite int_of_str_all_digits by assumption. congruence.
Qed.

Lemma all_digits_free_of_dash s : all_digits s -> free_of Py.dash s.
Proof.
  induction s; cbn; [auto |]. intros [H1 H2]. split; [apply digit_not_dash |]; auto.
Qed.

Lemma split_free_of sep s : free_of sep s -> Py.split sep s = [s].
Proof.
  induction s as [| c s IH]; cbn; [auto |].
  intros [-> H]. rewrite IH by assumption. reflexivity.
Qed.

Lemma split_nonempty sep s : Py.split sep s <> [].
Proof.
  induction s as [| c s IH]; cbn; [discriminate |].
  destruct (Ascii.eqb c sep); [discriminate |].
  destruct (Py.split sep s); discriminate.
Qed.

(** [(p + sep + s).split(sep) == p.split(sep) + s.split(sep)] *)
Lemma split_app sep p s :
  Py.split sep (p ++ String sep s) = (Py.split sep p ++ Py.split sep s)%list.
Proof.
  induction p as [| c p IH]; simpl.
  - rewrite Ascii.eqb_refl. reflexivity.
  - destruct (Ascii.eqb c sep).
    + rewrite IH. reflexivity.
    + rewrite IH. pose proof (split_nonempty sep p).
      destruct (Py.split sep p); [congruence | reflexivity].
Qed.

Lemma last_item_app {A} (l1 l2 : list A) d :
  l2 <> [] -> Py.last_item (l1 ++ l2)%list d = Py.last_item l2 d.
Proof.
  intros H. unfold Py.last_item. induction l1 as [| x l1 IH]; [reflexivity |].
  cbn [app List.last]. destruct (l1 ++ l2)%list eqn:E; [| exact IH].
  destruct l1; cbn in E; congruence.
Qed.

(** The suffix after the last dash of [p + "-" + str(n)] reads back as [n]. *)
Lemma numeric_suffix_round_trip p n :
  0 <= n ->
  Py.int_of_str
    (Py.last_item (Py.split Py.dash (p ++ "-" ++ Py.str_of_int n)) EmptyString)
  = Py.Ok n.
Proof.
  intros Hn. destruct (str_of_int_spec n Hn) as (A & N & V).
  change ("-" ++ Py.str_of_int n) with (String Py.dash (Py.str_of_int n)).
  rewrite split_app, last_item_app by apply split_nonempty.
  rewrite split_free_of by (apply all_digits_free_of_dash; exact A).
  cbn [Py.last_item List.last]. apply int_of_str_of_int. exact Hn.
Qed.

(** ** Loading and saving *)

Lemma bind_ok {S A B} (m : M S A) (k : A -> M S B) s a s' :
  m s = (Py.Ok a, s') -> bind m k s = k a s'.
Proof. intros H. unfold bind. rewrite H. reflexivity. Qed.

Lemma bind_raise {S A B} (m : M S A) (k : A -> M S B) s e s' :
  m s = (Py.Raise e, s') -> bind m k s = (Py.Raise e, s').
Proof. intros H. unfold bind. rewrite H. reflexivity. Qed.

Lemma assemble_run c v :
  assemble c v (TF.mkGraph 0 [] [])
  = (Py.Ok ([1; 3; 5; 7]%nat, [22; 20; 24]%nat), built_graph c v).
Proof. run_graph. reflexivity. Qed.

Lemma create_keras_model_run st :
  _create_keras_model st
  = (Py.Ok tt,
     set_keras_model (Some (built_model (config (self st)) (vocabs (self st)))) st).
Proof.
  unfold _create_keras_model. unfold bind at 1. unfold get.
  rewrite assemble_run. reflexivity.
Qed.

Lemma prediction_output_run st k :
  keras_model (self st) = Some k ->
  TF.model_graph k = built_graph (config (self st)) (vocabs (self st)) ->
  target_word_prediction_layer_output st = (Py.Ok 24%nat, st).
Proof.
  intros Hk Hg. unfold target_word_prediction_layer_output, the_keras_model.
  unfold bind, get. rewrite Hk. unfold ret. unfold TF.get_layer. rewrite Hg.
  run_graph. reflexivity.
Qed.

Lemma compile_run st k :
  keras_model (self st) = Some k ->
  TF.model_graph k = built_graph (config (self st)) (vocabs (self st)) ->
  _compile_keras_model None st
  = (Py.Ok tt,
     add_event (TF.ModelCompile (fresh st) (metric_names (config (self st))))
       (set_fresh (S (fresh st))
          (set_keras_model (Some (with_optimizer k (fresh st))) st))).
Proof.
  intros Hk Hg.
  unfold _compile_keras_model, _create_optimizer, new_object.
  unfold bind at 1. unfold bind at 1.
  unfold the_keras_model at 1. unfold bind at 1. unfold get at 1.
  cbn [self set_fresh]. rewrite Hk. unfold ret at 1.
  unfold bind at 1. unfold _create_metrics_for_keras_model.
  unfold bind at 1. unfold get at 1. unfold bind at 1.
  rewrite (prediction_output_run _ k) by (cbn; assumption).
  reflexivity.
Qed.

Lemma prepare_run {A} (k : M state A) st :
  (_create_keras_model ;; _compile_keras_model None ;; k) st = k (prepared st).
Proof.
  rewrite (bind_ok _ _ _ _ _ (create_keras_model_run st)).
  erewrite bind_ok; [| eapply compile_run; reflexivity]. reflexivity.
Qed.

Lemma emit_run {A} e (k : M state A) st : (emit e ;; k) st = k (add_event e st).
Proof. reflexivity. Qed.

Lemma get_checkpoint_run st k o :
  keras_model (self st) = Some k -> TF.optimizer k = Some o ->
  _get_checkpoint st
  = (Py.Ok (default (mkCheckpoint o) (_checkpoint (self st))), ensure_checkpoint o st).
Proof.
  intros Hk Ho. unfold _get_checkpoint, bind, get, ensure_checkpoint.
  rewrite Hk, Ho. destruct (_checkpoint (self st)); reflexivity.
Qed.

Lemma load_run st :
  let c := config (self st) in
  _load_inner_model st =
    if Py.truthy (Config.TRAIN_DATA_PATH_PREFIX c)
       && negb (TF.path_exists (fs st) (Config.full_model_load_path c))
    then (Py.Raise (Py.ValueError (no_model_message (Config.full_model_load_path c))),
          prepared st)
    else if Py.truthy (Config.TRAIN_DATA_PATH_PREFIX c)
            || negb (TF.path_exists (fs st) (Config.model_weights_load_path c))
    then
      match TF.latest_checkpoint (fs st) (Config.full_model_load_path c) with
      | Some name =>
          match Py.int_of_str (Py.last_item (Py.split Py.dash name) EmptyString) with
          | Py.Ok n =>
              (Py.Ok tt, add_event TF.ModelSummary (set_nr_epochs_trained n (restored st)))
          | Py.Raise e => (Py.Raise e, restored st)
          end
      | None =>
          (Py.Raise (Py.AttributeError "'NoneType' object has no attribute 'split'"),
           restored st)
      end
    else
      (Py.Ok tt,
       add_event TF.ModelSummary
         (add_event (TF.LoadWeights (Config.model_weights_load_path c)) (prepared st))).
Proof.
  intros c. unfold _load_inner_model. rewrite prepare_run.
  unfold bind at 1. unfold get at 1.
  change (config (self (prepared st))) with c.
  change (fs (prepared st)) with (fs st).
  destruct (Py.truthy (Config.TRAIN_DATA_PATH_PREFIX c)
            && negb (TF.path_exists (fs st) (Config.full_model_load_path c)));
    [reflexivity |].
  destruct (Py.truthy (Config.TRAIN_DATA_PATH_PREFIX c)
            || negb (TF.path_exists (fs st) (Config.model_weights_load_path c)));
    [| reflexivity].
  unfold bind at 1. rewrite emit_run.
  erewrite bind_ok; [| eapply get_checkpoint_run; reflexivity].
  rewrite !emit_run.
  subst c. destruct st as [[c v km nr ck mgr] f tr fr].
  unfold restored, prepared. state_simpl.
  erewrite bind_ok; [| eapply compile_run; destruct ck; state_simpl; reflexivity].
  destruct (TF.latest_checkpoint f (Config.full_model_load_path c)) as [name |].
  - unfold bind at 1. unfold lift at 1.
    destruct (Py.int_of_str _) as [n | e]; destruct ck;
      cbv [bind modify emit ret raise]; state_simpl; reflexivity.
  - destruct ck; cbv [bind modify emit ret raise]; state_simpl; reflexivity.
Qed.

Lemma new_events_app before after evs :
  trace after = (trace before ++ evs)%list -> new_events before after = evs.
Proof. intros H. unfold new_events. rewrite H. apply drop_app_length. Qed.

Lemma events_prepared st :
  new_events st (prepared st)
  = [TF.ModelCompile (fresh st) (metric_names (config (self st)))].
Proof. apply new_events_app. reflexivity. Qed.

Lemma events_weights st p :
  new_events st (add_event TF.ModelSummary (add_event (TF.LoadWeights p) (prepared st)))
  = [TF.ModelCompile (fresh st) (metric_names (config (self st)));
     TF.LoadWeights p; TF.ModelSummary].
Proof.
  apply new_events_app. unfold prepared. state_simpl.
  rewrite <- !app_assoc. reflexivity.
Qed.

Lemma trace_restored st :
  trace (restored st)
  = (trace st
     ++ [TF.ModelCompile (fresh st) (metric_names (config (self st)));
         TF.Print;
         TF.CheckpointRestore
           (TF.latest_checkpoint (fs st)
              (Config.full_model_load_path (config (self st))));
         TF.InitializeOrRestore;
         TF.ModelCompile (S (fresh st)) (metric_names (config (self st)))])%list.
Proof.
  destruct st as [[c v km nr ck mgr] f tr fr]. unfold restored, prepared.
  destruct ck; state_simpl; rewrite <- !app_assoc; reflexivity.
Qed.

Lemma int_of_str_error s e :
  Py.int_of_str s = Py.Raise e ->
  e = Py.ValueError ("invalid literal for int() with base 10: " ++ Py.repr s).
Proof.
  unfold Py.int_of_str. cbv zeta.
  match goal with |- match ?p with _ => _ end = _ -> _ => destruct p end;
    intros H; inversion H; reflexivity.
Qed.

Lemma load_other_outcomes st :
  let c := config (self st) in
  Py.truthy (Config.TRAIN_DATA_PATH_PREFIX c)
  && negb (TF.path_exists (fs st) (Config.full_model_load_path c)) = false ->
  (_load_inner_model st).1 <> Py.Raise (configuration_error c).
Proof.
  intros c H. rewrite load_run. fold c. rewrite H.
  destruct (_ || _).
  - destruct (TF.latest_checkpoint _ _) as [name |]; [| discriminate].
    destruct (Py.int_of_str _) as [n | e] eqn:E; [discriminate |].
    apply int_of_str_error in E. subst e. discriminate.
  - discriminate.
Qed.

(** C2, as amended: [_load_inner_model] raises the configuration error
    exactly when a training data prefix is configured and nothing exists
    at the full model load path ([os.path.exists] is false); it then has
    restored nothing: no checkpoint restore and no weights loading was
    called, and the epoch counter is as before. *)
Theorem load_configuration_error_iff (st : state) :
  let c := config (self st) in
  let r := _load_inner_model st in
  (r.1 = Py.Raise (configuration_error c)
   <-> Py.truthy (Config.TRAIN_DATA_PATH_PREFIX c) = true
       /\ TF.path_exists (fs st) (Config.MODEL_LOAD_PATH c ++ "-full") = false)
  /\ (r.1 = Py.Raise (configuration_error c) ->
      Forall (fun e => is_restore e = false) (new_events st r.2)
      /\ nr_epochs_trained (self r.2) = nr_epochs_trained (self st)).
Proof.
  intros c r.
  change (Config.MODEL_LOAD_PATH c ++ "-full") with (Config.full_model_load_path c).
  destruct (Py.truthy (Config.TRAIN_DATA_PATH_PREFIX c)
            && negb (TF.path_exists (fs st) (Config.full_model_load_path c))) eqn:G.
  - assert (r = (Py.Raise (configuration_error c), prepared st)) as ->.
    { subst r. rewrite load_run. fold c. rewrite G. reflexivity. }
    apply andb_true_iff in G as [G1 G2]. apply negb_true_iff in G2.
    cbn [fst snd]. split; [tauto |].
    intros _. rewrite events_prepared. split; [| reflexivity].
    repeat constructor.
  - pose proof (load_other_outcomes st G) as N. fold c r in N.
    split; [| tauto]. split; [tauto |].
    intros [G1 G2]. rewrite G1, G2 in G. discriminate.
Qed.

(** C2 as stated fails when the full model load path exists and holds no
    checkpoint: training is requested and there is no full checkpoint, but
    [_load_inner_model] raises no configuration error; it calls the
    restore with [None] and raises [AttributeError] at
    [latest_checkpoint.split]. *)
Lemma load_without_checkpoint_is_no_configuration_error :
  let c := Config.get_default_config resume_args in
  let st := fresh_state c example_vocabs
              (TF.mkFS {["models/java-small/saved_model-full"]} ∅) in
  Py.truthy (Config.TRAIN_DATA_PATH_PREFIX c) = true
  /\ TF.latest_checkpoint (fs st) (Config.MODEL_LOAD_PATH c ++ "-full") = None
  /\ (_load_inner_model st).1 <> Py.Raise (configuration_error c)
  /\ (_load_inner_model st).1
     = Py.Raise (Py.AttributeError "'NoneType' object has no attribute 'split'")
  /\ TF.CheckpointRestore None ∈ new_events st (_load_inner_model st).2.
Proof.
  intros c st.
  assert (_load_inner_model st
          = (Py.Raise (Py.AttributeError "'NoneType' object has no attribute 'split'"),
             restored st)) as E.
  { rewrite load_run.
    assert (Py.truthy (Config.TRAIN_DATA_PATH_PREFIX (config (self st)))
            && negb (TF.path_exists (fs st) (Config.full_model_load_path (config (self st))))
            = false) as -> by (vm_compute; reflexivity).
    assert (Py.truthy (Config.TRAIN_DATA_PATH_PREFIX (config (self st)))
            || negb (TF.path_exists (fs st) (Config.model_weights_load_path (config (self st))))
            = true) as -> by (vm_compute; reflexivity).
    assert (TF.latest_checkpoint (fs st) (Config.full_model_load_path (config (self st)))
            = None) as -> by (vm_compute; reflexivity).
    reflexivity. }
  rewrite E. cbn [fst snd].
  split; [reflexivity |]. split; [vm_compute; reflexivity |].
  split; [intros H; inversion H |]. split; [reflexivity |].
  erewrite new_events_app; [| apply trace_restored].
  assert (TF.latest_checkpoint (fs st) (Config.full_model_load_path (config (self st)))
          = None) as -> by (vm_compute; reflexivity).
  event_in.
Qed.

(** C10: without a training data prefix, [_load_inner_model] loads the
    weights-only file exactly when it exists; when it is absent, the
    latest checkpoint under the full model load path is restored instead;
    the configuration error is not raised. *)
Theorem inference_load_strategy (st : state) :
  let c := config (self st) in
  Py.truthy (Config.TRAIN_DATA_PATH_PREFIX c) = false ->
  let r := _load_inner_model st in
  let weights := Config.MODEL_LOAD_PATH c ++ "-only-weights" in
  let full := Config.MODEL_LOAD_PATH c ++ "-full" in
  ((exists p, TF.LoadWeights p ∈ new_events st r.2)
   <-> TF.path_exists (fs st) weights = true)
  /\ (TF.path_exists (fs st) weights = true ->
      r.1 = Py.Ok tt
      /\ TF.LoadWeights weights ∈ new_events st r.2
      /\ forall p, TF.CheckpointRestore p ∉ new_events st r.2)
  /\ (TF.path_exists (fs st) weights = false ->
      TF.CheckpointRestore (TF.latest_checkpoint (fs st) full) ∈ new_events st r.2)
  /\ r.1 <> Py.Raise (configuration_error c).
Proof.
  intros c T r weights full.
  assert (Py.truthy (Config.TRAIN_DATA_PATH_PREFIX c)
          && negb (TF.path_exists (fs st) (Config.full_model_load_path c)) = false)
    as G by (rewrite T; reflexivity).
  pose proof (load_other_outcomes st G) as N. fold c r in N.
  assert (r = _load_inner_model st) as Er by reflexivity.
  rewrite load_run in Er. fold c in Er. rewrite T in Er. cbn [andb orb] in Er.
  change (Config.model_weights_load_path c) with weights in Er.
  change (Config.full_model_load_path c) with full in Er.
  destruct (TF.path_exists (fs st) weights) eqn:W; cbn [negb] in Er.
  - rewrite Er. cbn [fst snd]. rewrite events_weights.
    split; [| split; [| split]]; [| | discriminate | discriminate].
    + split; [reflexivity |]. intros _. exists weights. event_in.
    + intros _. split; [reflexivity |]. split; [event_in |].
      intros p. event_out.
  - assert (new_events st r.2
            = [TF.ModelCompile (fresh st) (metric_names c); TF.Print;
               TF.CheckpointRestore (TF.latest_checkpoint (fs st) full);
               TF.InitializeOrRestore;
               TF.ModelCompile (S (fresh st)) (metric_names c)]
              ++ match r.1 with Py.Ok _ => [TF.ModelSummary] | _ => [] end)%list
      as Ev.
    { apply new_events_app. rewrite Er.
      destruct (TF.latest_checkpoint (fs st) full) eqn:L;
        [destruct (Py.int_of_str _) |]; cbn [fst snd];
        change (trace (add_event TF.ModelSummary (set_nr_epochs_trained ?n (restored st))))
          with (trace (restored st) ++ [TF.ModelSummary])%list;
        rewrite trace_restored; fold c; change (Config.full_model_load_path c) with full;
        rewrite ?L, <- ?app_assoc, ?app_nil_r; reflexivity. }
    split; [| split; [| split]]; [| discriminate | | exact N].
    + split; [| discriminate]. intros [p Hp]. exfalso.
      assert (TF.LoadWeights p ∉ new_events st r.2) as Hn; [| exact (Hn Hp)].
      rewrite Ev. destruct r.1; cbn [app]; event_out.
    + intros _. rewrite Ev. cbn [app]. event_in.
Qed.

Lemma inference_load_strategy_witness :
  let st := fresh_state (Config.get_default_config inference_args) example_vocabs empty_fs in
  TF.CheckpointRestore None ∈ new_events st (_load_inner_model st).2.
Proof.
  intros st.
  apply (inference_load_strategy st); reflexivity.
Defined.

Lemma new_manager_ok d k m :
  TF.new_manager d k = Py.Ok m -> 0 < k /\ m = TF.mkManager d k.
Proof.
  unfold TF.new_manager. destruct (Z.leb_spec k 0) as [Hk | Hk]; [discriminate |].
  intros E. inversion E. split; [exact Hk | reflexivity].
Qed.

Lemma manager_save_latest m n f :
  0 < TF.cm_max_to_keep m ->
  TF.latest_checkpoint (TF.manager_save m n f) (TF.cm_directory m)
  = Some (TF.checkpoint_path (TF.cm_directory m) n).
Proof.
  intros Hk. unfold TF.latest_checkpoint, TF.manager_save. cbn [TF.checkpoints].
  rewrite lookup_insert_eq.
  set (old := filter _ _). rewrite length_app. cbn [length].
  rewrite drop_app_le by lia. apply last_snoc.
Qed.

Lemma manager_save_directory m n f :
  TF.path_exists (TF.manager_save m n f) (TF.cm_directory m) = true.
Proof.
  unfold TF.path_exists, TF.manager_save. cbn [TF.paths].
  apply bool_decide_eq_true. set_solver.
Qed.

Lemma save_full_run path saver saved :
  Config.RELEASE (config (self saver)) = false ->
  manager_wf (self saver) ->
  _save_inner_model path saver = (Py.Ok tt, saved) ->
  let c := config (self saver) in
  let m := TF.mkManager (Config.full_model_save_path c) (Config.MAX_TO_KEEP c) in
  let n := nr_epochs_trained (self saver) in
  0 < Config.MAX_TO_KEEP c
  /\ fs saved = TF.manager_save m n (fs saver)
  /\ config (self saved) = c
  /\ nr_epochs_trained (self saved) = n
  /\ keras_model (self saved) = keras_model (self saver)
  /\ _save_checkpoint_manager (self saved) = Some m
  /\ trace saved
     = (trace saver
        ++ [TF.CheckpointWrite (TF.checkpoint_path (Config.full_model_save_path c) n)
              (Config.MAX_TO_KEEP c)])%list.
Proof.
  destruct saver as [[c v km nr ck mgr] f tr fr]. state_simpl.
  intros R W. unfold manager_wf in W. state_simpl.
  unfold _save_inner_model, bind at 1, get at 1. state_simpl. rewrite R.
  unfold _get_save_checkpoint_manager, _get_checkpoint.
  cbv [bind get ret raise lift modify checkpoint_manager_save emit]. state_simpl.
  destruct mgr as [m |].
  - state_simpl. apply new_manager_ok in W as [Hk ->]. intros H. inversion H. subst saved.
    state_simpl. cbn [TF.cm_directory TF.cm_max_to_keep]. auto 10.
  - state_simpl. destruct km as [k |]; [| discriminate].
    destruct (TF.optimizer k); [| discriminate].
    destruct ck; state_simpl;
      (destruct (TF.new_manager _ _) as [m | e] eqn:Em; [| discriminate];
       apply new_manager_ok in Em as [Hk ->]; intros H; inversion H; subst saved;
       state_simpl; cbn [TF.cm_directory TF.cm_max_to_keep]; auto 10).
Qed.

Lemma append_assoc (a b c : string) : (a ++ b) ++ c = a ++ b ++ c.
Proof.
  induction a as [| x a IH]; [reflexivity |].
  change (String x ((a ++ b) ++ c) = String x (a ++ b ++ c)). f_equal. exact IH.
Qed.

Lemma append_cons x (a b : string) : String x a ++ b = String x (a ++ b).
Proof. reflexivity. Qed.

Lemma last_char_app (p q : string) d :
  q <> EmptyString ->
  List.last (list_ascii_of_string (p ++ q)) d = List.last (list_ascii_of_string q) d.
Proof.
  intros Hq. induction p as [| x p IH]; [reflexivity |].
  rewrite append_cons. cbn [list_ascii_of_string List.last]. rewrite <- IH.
  destruct (list_ascii_of_string (p ++ q)) eqn:E; [| reflexivity].
  destruct p as [| y p]; [| discriminate].
  destruct q; [congruence | discriminate].
Qed.

Lemma full_checkpoint_path p n :
  TF.checkpoint_path (Config.get_full_model_path p) n
  = p ++ "-full/ckpt-" ++ Py.str_of_int n.
Proof.
  unfold TF.checkpoint_path, Py.path_join, Config.get_full_model_path.
  rewrite last_char_app by discriminate. cbn [list_ascii_of_string List.last].
  rewrite !append_assoc. reflexivity.
Qed.

(** C3: a full checkpoint written when [nr_epochs_trained] is [n] is
    numbered [n], and loading it on a fresh instance whose load path is the
    save path sets [nr_epochs_trained] to [n] again, read from the suffix
    of the checkpoint's name. *)
Theorem epoch_counter_round_trip (saver saved : state) (path : string)
    (c2 : Config.t) (v2 : Code2VecVocabs) (tr : list TF.event) (fr : nat) :
  let c1 := config (self saver) in
  let n := nr_epochs_trained (self saver) in
  0 <= n ->
  manager_wf (self saver) ->
  Config.RELEASE c1 = false ->
  _save_inner_model path saver = (Py.Ok tt, saved) ->
  Config.MODEL_LOAD_PATH c2 = Config.MODEL_SAVE_PATH c1 ->
  Py.truthy (Config.TRAIN_DATA_PATH_PREFIX c2) = true
  \/ TF.path_exists (fs saved) (Config.MODEL_LOAD_PATH c2 ++ "-only-weights") = false ->
  TF.latest_checkpoint (fs saved) (Config.MODEL_LOAD_PATH c2 ++ "-full")
  = Some (Config.MODEL_SAVE_PATH c1 ++ "-full/ckpt-" ++ Py.str_of_int n)
  /\ exists loaded,
      _load_inner_model (mkState (new_model c2 v2) (fs saved) tr fr)
      = (Py.Ok tt, loaded)
      /\ nr_epochs_trained (self loaded) = n.
Proof.
  intros c1 n Hn W R Hs Hp Hb.
  destruct (save_full_run path saver saved R W Hs) as (Hk & Hf & _).
  fold c1 n in Hk, Hf.
  set (m := TF.mkManager (Config.full_model_save_path c1) (Config.MAX_TO_KEEP c1)) in *.
  assert (Config.full_model_load_path c2 = Config.full_model_save_path c1) as Hd
    by (unfold Config.full_model_load_path, Config.full_model_save_path; congruence).
  pose proof (manager_save_latest m n (fs saver) Hk) as L.
  pose proof (manager_save_directory m n (fs saver)) as D.
  rewrite <- Hf in L, D. cbn [m TF.cm_directory] in L, D. rewrite <- Hd in L, D.
  unfold Config.full_model_load_path in L at 2. rewrite Hp, full_checkpoint_path in L.
  split.
  - exact L.
  - set (st2 := mkState (new_model c2 v2) (fs saved) tr fr).
    rewrite load_run.
    change (config (self st2)) with c2. change (fs st2) with (fs saved).
    rewrite D. cbn [negb]. rewrite andb_false_r.
    assert (Py.truthy (Config.TRAIN_DATA_PATH_PREFIX c2)
            || negb (TF.path_exists (fs saved) (Config.model_weights_load_path c2))
            = true) as ->.
    { destruct Hb as [-> | Hb]; [reflexivity |].
      unfold Config.model_weights_load_path, Config.get_model_weights_path.
      rewrite Hb. apply orb_true_r. }
    unfold Config.full_model_load_path, Config.get_full_model_path in L |- *.
    rewrite L.
    replace (Config.MODEL_SAVE_PATH c1 ++ "-full/ckpt-" ++ Py.str_of_int n)
      with ((Config.MODEL_SAVE_PATH c1 ++ "-full/ckpt") ++ "-" ++ Py.str_of_int n)
      by (rewrite append_assoc; reflexivity).
    rewrite numeric_suffix_round_trip by exact Hn.
    eexists. split; reflexivity.
Qed.

Lemma epoch_counter_round_trip_witness :
  let saver := trained_state (Config.get_default_config training_args) 3 in
  let saved := (_save_inner_model "models/java-small/saved_model" saver).2 in
  exists loaded,
    _load_inner_model
      (mkState (new_model (Config.get_default_config resume_args) example_vocabs)
         (fs saved) [] 0)
    = (Py.Ok tt, loaded)
    /\ nr_epochs_trained (self loaded) = 3.
Proof.
  intros saver saved.
  refine (proj2 (epoch_counter_round_trip saver saved "models/java-small/saved_model"
                   (Config.get_default_config resume_args) example_vocabs [] 0
                   _ _ _ _ _ _)).
  - vm_compute. discriminate.
  - exact I.
  - reflexivity.
  - vm_compute. reflexivity.
  - reflexivity.
  - left. reflexivity.
Defined.

(** *** The epoch counter is never negative *)

Lemma digit_value_range c d : Py.digit_value c = Some d -> 0 <= d <= 9.
Proof.
  unfold Py.digit_value. cbv zeta.
  destruct (Z.leb_spec 48 (Z.of_N (N_of_ascii c))); [| discriminate].
  destruct (Z.leb_spec (Z.of_N (N_of_ascii c)) 57); [| discriminate].
  cbn [andb]. intros E. inversion E. lia.
Qed.

Lemma int_digits_nonneg s : forall acc prev n,
  0 <= acc -> Py.int_digits s acc prev = Some n -> 0 <= n.
Proof.
  induction s as [| c s IH]; intros acc prev n Ha; cbn [Py.int_digits].
  - destruct prev; [| discriminate]. intros E. inversion E. lia.
  - destruct (Py.digit_value c) as [d |] eqn:D.
    + apply digit_value_range in D. apply IH. lia.
    + destruct (Ascii.eqb c "_"%char && prev).
      * destruct s as [| c' s']; [discriminate |].
        destruct (bool_decide _); [| discriminate]. apply IH. exact Ha.
      * destruct (Py.is_space c && prev); [| discriminate].
        destruct (bool_decide _); [| discriminate]. intros E. inversion E. lia.
Qed.

Lemma free_of_lstrip sep s : free_of sep s -> free_of sep (Py.lstrip s).
Proof.
  induction s as [| c s IH]; cbn [Py.lstrip free_of]; [auto |].
  intros [H1 H2]. destruct (Py.is_space c); [auto |]. split; assumption.
Qed.

(** A number read from a string without a dash is not negative. *)
Lemma int_of_str_nonneg s n :
  free_of Py.dash s -> Py.int_of_str s = Py.Ok n -> 0 <= n.
Proof.
  intros F. apply (free_of_lstrip Py.dash) in F. unfold Py.int_of_str. cbv zeta.
  destruct (Py.lstrip s) as [| c body] eqn:B; [discriminate |].
  destruct F as [Fc Fb]. unfold Py.dash in Fc. rewrite Fc.
  destruct (Ascii.eqb c "+"%char).
  - destruct (Py.int_digits body 0 false) as [m |] eqn:E; [| discriminate].
    intros H. inversion H. subst m. apply (int_digits_nonneg _ _ _ _ (Z.le_refl 0) E).
  - destruct (Py.int_digits (String c body) 0 false) as [m |] eqn:E; [| discriminate].
    intros H. inversion H. subst m. apply (int_digits_nonneg _ _ _ _ (Z.le_refl 0) E).
Qed.

Lemma split_pieces_free sep s : Forall (free_of sep) (Py.split sep s).
Proof.
  induction s as [| c s IH]; cbn [Py.split].
  - repeat constructor.
  - destruct (Ascii.eqb c sep) eqn:E.
    + constructor; [exact I | exact IH].
    + destruct (Py.split sep s) as [| w ws].
      * repeat constructor. exact E.
      * inversion IH; subst. constructor; [split; assumption | assumption].
Qed.

Lemma last_item_Forall {A} (P : A -> Prop) (l : list A) d :
  Forall P l -> P d -> P (Py.last_item l d).
Proof.
  unfold Py.last_item. induction 1 as [| x l Hx Hl IH]; intros Hd; [exact Hd |].
  cbn [List.last]. destruct l; [exact Hx | apply IH; exact Hd].
Qed.

Lemma load_counter_nonnegative st :
  0 <= nr_epochs_trained (self st) ->
  0 <= nr_epochs_trained (self (_load_inner_model st).2).
Proof.
  intros H0. rewrite load_run. cbv zeta.
  assert (nr_epochs_trained (self (prepared st)) = nr_epochs_trained (self st)) as P
    by reflexivity.
  assert (nr_epochs_trained (self (restored st)) = nr_epochs_trained (self st)) as R
    by (destruct st as [[c v km nr [ck |] mgr] f tr fr]; reflexivity).
  destruct (_ && _); [cbn [snd]; lia |].
  destruct (_ || _); [| cbn [snd]; exact H0].
  destruct (TF.latest_checkpoint _ _) as [name |]; [| cbn [snd]; lia].
  destruct (Py.int_of_str _) as [n | e] eqn:E; [| cbn [snd]; lia].
  cbn [snd]. change (0 <= n).
  apply int_of_str_nonneg in E; [exact E |].
  apply last_item_Forall; [apply split_pieces_free | exact I].
Qed.

(** ** The checkpoint callback *)
(** What a successful [_save_inner_model] does to the instance. *)
Lemma save_inner_effects path st st' :
  _save_inner_model path st = (Py.Ok tt, st') ->
  config (self st') = config (self st)
  /\ nr_epochs_trained (self st') = nr_epochs_trained (self st)
  /\ exists e, is_save e = true /\ trace st' = (trace st ++ [e])%list.
Proof.
  destruct st as [[c v km nr ck mgr] f tr fr]. state_simpl.
  unfold _save_inner_model, bind at 1, get at 1. state_simpl.
  destruct (Config.RELEASE c).
  - unfold save_weights, the_keras_model.
    cbv [bind get ret raise modify emit]. state_simpl.
    destruct km; [| discriminate]. intros H. inversion H. subst st'. state_simpl.
    repeat split. eexists. split; [| reflexivity]. reflexivity.
  - unfold _get_save_checkpoint_manager, _get_checkpoint.
    cbv [bind get ret raise lift modify checkpoint_manager_save emit]. state_simpl.
    destruct mgr as [m |]; state_simpl.
    + intros H. inversion H. subst st'. state_simpl.
      repeat split. eexists. split; [| reflexivity]. reflexivity.
    + destruct km as [k |]; [| discriminate].
      destruct (TF.optimizer k); [| discriminate].
      destruct ck; state_simpl;
        (destruct (TF.new_manager _ _) as [m | e]; [| discriminate];
         intros H; inversion H; subst st'; state_simpl;
         repeat split; eexists; (split; [| reflexivity]); reflexivity).
Qed.

Lemma save_effects st st' :
  save None st = (Py.Ok tt, st') ->
  config (self st') = config (self st)
  /\ nr_epochs_trained (self st') = nr_epochs_trained (self st)
  /\ exists p e,
       is_save e = true /\ trace st' = (trace st ++ [TF.VocabsSave p; e])%list.
Proof.
  unfold save. unfold bind at 1. unfold get at 1. rewrite emit_run.
  intros H. apply save_inner_effects in H as (Hc & Hn & e & He & Ht).
  destruct st as [[c v km nr ck mgr] f tr fr]. state_simpl.
  repeat split; auto. eexists _, e. split; [exact He |].
  rewrite Ht, <- app_assoc. reflexivity.
Qed.

(** [on_epoch_end] when the assertion on the epoch holds. *)
Lemma on_epoch_end_run cb st :
  let c := config (self st) in
  let n := nr_epochs_trained (self st) in
  on_epoch_end cb n st
  = if Config.SAVE_EVERY_EPOCHS c <=? n + 1 - last_saved_epoch cb
    then
      match save None (set_nr_epochs_trained (n + 1) st) with
      | (Py.Ok _, s) => (Py.Ok (mkCallback (nr_epochs_trained (self s))), s)
      | (Py.Raise e, s) => (Py.Raise e, s)
      end
    else (Py.Ok cb, set_nr_epochs_trained (n + 1) st).
Proof.
  intros c n. unfold on_epoch_end. unfold bind at 1. unfold get at 1.
  fold n. rewrite Z.eqb_refl. unfold bind at 1. unfold ret at 1.
  unfold bind at 1. unfold modify at 1. unfold bind at 1. unfold get at 1.
  destruct st as [[c0 v km nr ck mgr] f tr fr]. state_simpl. subst c n.
  state_simpl.
  destruct (_ <=? _); [| reflexivity].
  unfold bind at 1. destruct (save None _) as [[[] | e] s]; reflexivity.
Qed.

Lemma on_epoch_end_asserts cb epoch st cb' st' :
  on_epoch_end cb epoch st = (Py.Ok cb', st') ->
  nr_epochs_trained (self st) = epoch.
Proof.
  unfold on_epoch_end. cbv [bind get ret raise].
  destruct (Z.eqb_spec (nr_epochs_trained (self st)) epoch);
    [auto | intros ?; discriminate].
Qed.

(** One epoch boundary: the counter, the configuration and the epoch of
    the last save afterwards. *)
Lemma on_epoch_end_effects cb epoch st cb' st' :
  on_epoch_end cb epoch st = (Py.Ok cb', st') ->
  let n := nr_epochs_trained (self st) in
  nr_epochs_trained (self st') = n + 1
  /\ config (self st') = config (self st)
  /\ last_saved_epoch cb'
     = if Config.SAVE_EVERY_EPOCHS (config (self st)) <=? n + 1 - last_saved_epoch cb
       then n + 1 else last_saved_epoch cb.
Proof.
  intros H n. pose proof (on_epoch_end_asserts _ _ _ _ _ H) as E. subst epoch.
  rewrite on_epoch_end_run in H. fold n in H.
  destruct (_ <=? _).
  - destruct (save None _) as [[[] | e] s] eqn:Sv; [| discriminate H].
    inversion H. subst cb' st'. apply save_effects in Sv as (Hc & Hn & _).
    cbn [last_saved_epoch]. repeat split; assumption.
  - inversion H. subst cb' st'. repeat split.
Qed.

(** C4, as amended: an [on_epoch_end] that returns has incremented
    [nr_epochs_trained] by exactly one and has saved exactly when the
    epochs since the last save reached [SAVE_EVERY_EPOCHS]; when
    [SAVE_EVERY_EPOCHS] is at least 1, it leaves fewer than
    [SAVE_EVERY_EPOCHS] epochs unsaved.  It returns whenever the epoch is
    the one the counter expects and the save, if due, succeeds. *)
Theorem checkpoint_cadence (cb : ModelCheckpointSaverCallback) (epoch : Z)
    (st : state) :
  let c := config (self st) in
  let n := nr_epochs_trained (self st) in
  (forall cb' st',
      on_epoch_end cb epoch st = (Py.Ok cb', st') ->
      nr_epochs_trained (self st') = n + 1
      /\ (Exists (fun e => is_save e = true) (new_events st st')
          <-> Config.SAVE_EVERY_EPOCHS c <= n + 1 - last_saved_epoch cb)
      /\ (1 <= Config.SAVE_EVERY_EPOCHS c ->
          nr_epochs_trained (self st') - last_saved_epoch cb'
          < Config.SAVE_EVERY_EPOCHS c))
  /\ (n = epoch ->
      (Config.SAVE_EVERY_EPOCHS c <= n + 1 - last_saved_epoch cb ->
       exists st', save None (set_nr_epochs_trained (n + 1) st) = (Py.Ok tt, st')) ->
      exists cb' st', on_epoch_end cb epoch st = (Py.Ok cb', st')).
Proof.
  intros c n. split.
  - intros cb' st' H.
    pose proof (on_epoch_end_asserts _ _ _ _ _ H) as E. subst epoch.
    rewrite on_epoch_end_run in H. fold c n in H.
    destruct (Z.leb_spec (Config.SAVE_EVERY_EPOCHS c) (n + 1 - last_saved_epoch cb))
      as [Hd | Hd].
    + destruct (save None _) as [[[] | e] s] eqn:Sv; [| discriminate H].
      inversion H. subst cb' st'. clear H.
      apply save_effects in Sv as (Hc & Hn & p & ev & Hev & Ht).
      change (nr_epochs_trained (self (set_nr_epochs_trained (n + 1) st)))
        with (n + 1) in Hn.
      change (trace (set_nr_epochs_trained (n + 1) st)) with (trace st) in Ht.
      cbn [last_saved_epoch]. split; [exact Hn |]. split; [| lia].
      split; [intros _; exact Hd | intros _].
      rewrite (new_events_app _ _ _ Ht). apply Exists_cons_tl, Exists_cons_hd.
      exact Hev.
    + inversion H. subst cb' st'. clear H.
      change (nr_epochs_trained (self (set_nr_epochs_trained (n + 1) st)))
        with (n + 1).
      split; [reflexivity |]. split; [| lia].
      unfold new_events.
      change (trace (set_nr_epochs_trained (n + 1) st)) with (trace st).
      rewrite drop_all.
      split; [intros Hx; inversion Hx | lia].
  - intros E Hsave. unfold n in E. subst epoch. rewrite on_epoch_end_run. fold c n.
    destruct (Z.leb_spec (Config.SAVE_EVERY_EPOCHS c) (n + 1 - last_saved_epoch cb))
      as [Hd | Hd]; [| eauto].
    destruct (Hsave Hd) as [st' ->]. eauto.
Qed.

Lemma checkpoint_cadence_witness :
  let st := trained_state (Config.get_default_config training_args) 0 in
  exists cb' st', on_epoch_end (mkCallback 0) 0 st = (Py.Ok cb', st').
Proof.
  intros st.
  refine (proj2 (checkpoint_cadence (mkCallback 0) 0 st) _ _).
  - reflexivity.
  - intros _. eexists. vm_compute. reflexivity.
Defined.

(** C4 as stated fails for [SAVE_EVERY_EPOCHS = 0]: every epoch is saved,
    and right after the save the unsaved epochs are 0, which is not less
    than 0. *)
Lemma checkpoint_cadence_bound_fails_for_period_zero :
  let c := Config.with_save_every_epochs (Config.get_default_config training_args) 0 in
  let st := trained_state c 0 in
  exists cb' st',
    on_epoch_end (mkCallback 0) 0 st = (Py.Ok cb', st')
    /\ nr_epochs_trained (self st') = 1
    /\ ~ (nr_epochs_trained (self st') - last_saved_epoch cb'
          < Config.SAVE_EVERY_EPOCHS (config (self st))).
Proof.
  intros c st. eexists _, _. split; [vm_compute; reflexivity |].
  split; [reflexivity |]. vm_compute. discriminate.
Qed.

(** Along the epochs of a training run that returns, the counter advances
    by one per epoch and, for a period of at least 1, fewer than
    [SAVE_EVERY_EPOCHS] epochs are ever left unsaved. *)
Lemma fit_epochs_cadence steps validation_steps (count : nat) :
  forall cb st cb' st',
  1 <= Config.SAVE_EVERY_EPOCHS (config (self st)) ->
  nr_epochs_trained (self st) - last_saved_epoch cb
    < Config.SAVE_EVERY_EPOCHS (config (self st)) ->
  fit_epochs (seqZ (nr_epochs_trained (self st)) (Z.of_nat count))
    steps validation_steps cb st = (Py.Ok cb', st') ->
  nr_epochs_trained (self st') = nr_epochs_trained (self st) + Z.of_nat count
  /\ config (self st') = config (self st)
  /\ nr_epochs_trained (self st') - last_saved_epoch cb'
     < Config.SAVE_EVERY_EPOCHS (config (self st)).
Proof.
  induction count as [| count IH]; intros cb st cb' st' Hs Hi.
  - cbn [seqZ Z.of_nat fit_epochs]. intros H. inversion H. subst. repeat split; [lia | assumption].
  - rewrite Nat2Z.inj_succ, seqZ_cons by lia. cbn [fit_epochs].
    rewrite emit_run. unfold bind at 1.
    destruct (on_epoch_end cb _ _) as [[cb1 | e] st1] eqn:Step; [| discriminate].
    apply on_epoch_end_effects in Step as (Hn & Hc & Hl). state_simpl.
    replace (Z.succ (nr_epochs_trained (self st))) with (nr_epochs_trained (self st1))
      by lia.
    replace (Z.pred (Z.succ (Z.of_nat count))) with (Z.of_nat count) by lia.
    intros H. apply IH in H as (Hn' & Hc' & Hb').
    + rewrite Hc in *. repeat split; [lia | congruence | exact Hb'].
    + rewrite Hc. exact Hs.
    + rewrite Hc, Hn, Hl.
      destruct (Z.leb_spec (Config.SAVE_EVERY_EPOCHS (config (self st)))
                  (nr_epochs_trained (self st) + 1 - last_saved_epoch cb)); lia.
Qed.

Lemma in_class_spec ch :
  TF.in_class alphabetic_or_pipe ch = true <-> letter_or_pipe ch.
Proof.
  unfold TF.in_class, alphabetic_or_pipe, letter_or_pipe. cbv zeta.
  cbn [existsb fst snd]. rewrite orb_false_r, !orb_true_iff, !andb_true_iff, !N.leb_le.
  change (N_of_ascii "a") with 97%N. change (N_of_ascii "z") with 122%N.
  change (N_of_ascii "A") with 65%N. change (N_of_ascii "Z") with 90%N.
  change (N_of_ascii "|") with 124%N.
  split.
  - intros [H | [H | H]]; [left; lia | right; left; lia | right; right].
    rewrite <- (ascii_N_embedding ch). replace (N_of_ascii ch) with 124%N by lia.
    reflexivity.
  - intros [H | [H | ->]]; [left; lia | right; left; lia | right; right].
    cbn. lia.
Qed.

Lemma full_match_spec s :
  TF.full_match_plus alphabetic_or_pipe s = true <-> alphabetic_name s.
Proof.
  unfold TF.full_match_plus, alphabetic_name.
  destruct s as [| ch s]; cbn [list_ascii_of_string].
  - split; [discriminate | intros [H _]; congruence].
  - rewrite forallb_forall, Forall_forall. split.
    + intros H. split; [discriminate |]. intros x Hx. apply in_class_spec, H.
      apply list_elem_of_In. exact Hx.
    + intros [_ H] x Hx. apply in_class_spec, H. apply list_elem_of_In. exact Hx.
Qed.

Lemma compose_two_filters (f g : TF.word_filter) (word_indices : list Z)
    (word_strings : list string) (i : nat) b1 b2 :
  f word_indices word_strings !! i = Some b1 ->
  g word_indices word_strings !! i = Some b2 ->
  (i < length word_indices)%nat ->
  compose_filters [f; g] word_indices word_strings !! i = Some (b1 && b2).
Proof.
  intros H1 H2 Hi. unfold compose_filters. cbn [foldr].
  assert (List.map (fun _ : Z => true) word_indices !! i = Some true) as H3.
  { rewrite list_lookup_fmap. destruct (lookup_lt_is_Some_2 word_indices i Hi) as [x ->].
    reflexivity. }
  rewrite !lookup_zip_with, H1, H2, H3. cbn. rewrite andb_true_r. reflexivity.
Qed.

(** C6: the network [_create_keras_model] builds has one layer named
    [target_word_prediction]; it is a word prediction layer with
    [K = TOP_K_WORDS_CONSIDERED_DURING_PREDICTION], the target vocabulary's
    reverse lookup table and exactly two filters.  The first keeps a
    candidate exactly when its index is not the out-of-vocabulary index,
    whatever its string; the second keeps a candidate exactly when its
    string is a non-empty sequence of letters and pipes, whatever its
    index; their conjunction keeps a candidate exactly when both do. *)
Theorem word_predictor_construction (st : state) :
  let c := config (self st) in
  let v := vocabs (self st) in
  exists k l not_oov legal_name,
    keras_model (self (_create_keras_model st).2) = Some k
    /\ TF.get_layer k "target_word_prediction" = Some l
    /\ TF.kind l
       = TF.WordPredictionLayer
           (Config.TOP_K_WORDS_CONSIDERED_DURING_PREDICTION c)
           (get_index_to_word_lookup_table (target_vocab v))
           [not_oov; legal_name]
    /\ (forall (word_indices : list Z) (word_strings : list string),
          length (not_oov word_indices word_strings) = length word_indices
          /\ forall (i : nat) index,
               word_indices !! i = Some index ->
               exists keep,
                 not_oov word_indices word_strings !! i = Some keep
                 /\ (keep = true <-> index <> oov_index (target_vocab v)))
    /\ (forall (word_indices : list Z) (word_strings : list string),
          length (legal_name word_indices word_strings) = length word_strings
          /\ forall (i : nat) word,
               word_strings !! i = Some word ->
               exists keep,
                 legal_name word_indices word_strings !! i = Some keep
                 /\ (keep = true <-> alphabetic_name word))
    /\ forall (word_indices : list Z) (word_strings : list string) i index word,
         word_indices !! (i : nat) = Some index ->
         word_strings !! i = Some word ->
         exists keep,
           compose_filters [not_oov; legal_name] word_indices word_strings !! i
           = Some keep
           /\ (keep = true
               <-> index <> oov_index (target_vocab v) /\ alphabetic_name word).
Proof.
  intros c v. rewrite create_keras_model_run. fold c v.
  exists (built_model c v), (TF.mkLayer 23 (Some "target_word_prediction")
            (TF.WordPredictionLayer
               (Config.TOP_K_WORDS_CONSIDERED_DURING_PREDICTION c)
               (get_index_to_word_lookup_table (target_vocab v))
               [oov_filter v; legal_name_filter])),
    (oov_filter v), legal_name_filter.
  split; [reflexivity |].
  split; [unfold built_model, TF.get_layer; cbn [TF.model_graph]; run_graph; reflexivity |].
  split; [reflexivity |].
  split; [| split].
  - intros word_indices word_strings. unfold oov_filter, TF.not_equal.
    split; [apply length_map |].
    intros i index Hi. eexists. split.
    + rewrite list_lookup_fmap, Hi. reflexivity.
    + rewrite negb_true_iff, Z.eqb_neq. reflexivity.
  - intros word_indices word_strings. unfold legal_name_filter, TF.regex_full_match_plus.
    split; [apply length_map |].
    intros i word Hw. eexists. split.
    + rewrite list_lookup_fmap, Hw. reflexivity.
    + apply full_match_spec.
  - intros word_indices word_strings i index word Hi Hw.
    eexists. split.
    + apply compose_two_filters.
      * unfold oov_filter, TF.not_equal. rewrite list_lookup_fmap, Hi. reflexivity.
      * unfold legal_name_filter, TF.regex_full_match_plus.
        rewrite list_lookup_fmap, Hw. reflexivity.
      * apply lookup_lt_is_Some_1. eauto.
    + rewrite andb_true_iff, negb_true_iff, Z.eqb_neq, full_match_spec. reflexivity.
Qed.

(** C9: in the network [_create_keras_model] builds, the source-token and
    the target-token inputs are each fed to one layer only, the same
    [Embedding] layer named [token_embedding]; the path input is fed to a
    different [Embedding] layer, [path_embedding], with a table of its
    own. *)
Theorem token_embedding_is_shared (st : state) :
  let c := config (self st) in
  let v := vocabs (self st) in
  exists k source path target mask tokens paths,
    keras_model (self (_create_keras_model st).2) = Some k
    /\ TF.inputs k = [source; path; target; mask]
    /\ TF.consumers k source = [tokens]
    /\ TF.consumers k target = [tokens]
    /\ TF.consumers k path = [paths]
    /\ tokens <> paths
    /\ TF.layer_of_id k tokens
       = Some (TF.mkLayer tokens (Some "token_embedding")
                 (TF.Embedding (size (token_vocab v))
                    (Config.TOKEN_EMBEDDINGS_SIZE c)))
    /\ TF.layer_of_id k paths
       = Some (TF.mkLayer paths (Some "path_embedding")
                 (TF.Embedding (size (path_vocab v))
                    (Config.PATH_EMBEDDINGS_SIZE c))).
Proof.
  intros c v. rewrite create_keras_model_run. fold c v.
  eexists _, _, _, _, _, _, _. split; [reflexivity |].
  split; [reflexivity |].
  unfold TF.consumers, TF.layer_of_id, built_model. cbn [TF.model_graph].
  run_graph.
  repeat split; try reflexivity. discriminate.
Qed.

Lemma predict_loop_run lines k : forall st,
  keras_model (self st) = Some k ->
  for_each lines (fun predict_line =>
    emit TF.Print ;;
    emit TF.Print ;;
    emit (TF.ReaderRun TF.Predict predict_line) ;;
    emit TF.Print ;;
    emit TF.Print ;;
    emit TF.Print ;;
    let* k := the_keras_model in
    emit (TF.ModelPredict predict_line) ;;
    emit TF.Print) st
  = (Py.Ok tt,
     mkState (self st) (fs st)
       (trace st ++ flat_map predict_line_events lines)%list (fresh st)).
Proof.
  induction lines as [| line lines IH]; intros st Hk.
  - cbn [for_each flat_map]. rewrite app_nil_r. destruct st; reflexivity.
  - cbn [for_each flat_map].
    erewrite bind_ok.
    2: { rewrite !emit_run. unfold bind at 1, the_keras_model at 1.
         unfold bind at 1, get at 1. state_simpl. rewrite Hk. unfold ret at 1.
         rewrite emit_run. reflexivity. }
    rewrite IH by (state_simpl; exact Hk). state_simpl.
    unfold predict_line_events at 2. rewrite <- !app_assoc. reflexivity.
Qed.

(** C1, what the code does: on a built model, [predict] sends every line
    to the reader in predict mode and then to the network, prints, and
    returns [None]: no predicted names and no code vector reach the
    caller. *)
Theorem predict_returns_nothing (lines : list string) (st : state) (k : TF.KerasModel) :
  keras_model (self st) = Some k ->
  (predict lines st).1 = Py.Ok None
  /\ new_events st (predict lines st).2 = flat_map predict_line_events lines.
Proof.
  intros Hk.
  assert (predict lines st
          = (Py.Ok None,
             mkState (self st) (fs st)
               (trace st ++ flat_map predict_line_events lines)%list (fresh st)))
    as ->.
  { unfold predict, _create_data_reader. unfold bind at 1. unfold ret at 1.
    cbn [estimator_mode]. unfold bind at 1.
    rewrite (predict_loop_run lines k st Hk). reflexivity. }
  split; [reflexivity |]. apply new_events_app. reflexivity.
Qed.

Lemma predict_returns_nothing_witness :
  let st := trained_state (Config.get_default_config inference_args) 0 in
  (predict ["get|name a,1,b"] st).1 = Py.Ok None.
Proof.
  intros st.
  refine (proj1 (predict_returns_nothing ["get|name a,1,b"] st _ _)).
  vm_compute. reflexivity.
Defined.

(** C8, what the code does without [RELEASE]: the full checkpoint goes
    under [MODEL_SAVE_PATH + '-full'] of the configuration, numbered with
    the epoch counter and kept by a manager with [MAX_TO_KEEP]; the path
    passed to [_save_inner_model] is not used. *)
Theorem full_checkpoint_ignores_path (path : string) (saver saved : state) :
  let c := config (self saver) in
  let n := nr_epochs_trained (self saver) in
  Config.RELEASE c = false ->
  manager_wf (self saver) ->
  _save_inner_model path saver = (Py.Ok tt, saved) ->
  new_events saver saved
  = [TF.CheckpointWrite
       (Config.MODEL_SAVE_PATH c ++ "-full/ckpt-" ++ Py.str_of_int n)
       (Config.MAX_TO_KEEP c)]
  /\ fs saved
     = TF.manager_save
         (TF.mkManager (Config.MODEL_SAVE_PATH c ++ "-full") (Config.MAX_TO_KEEP c))
         n (fs saver).
Proof.
  intros c n R W H.
  destruct (save_full_run path saver saved R W H) as (_ & Hf & _ & _ & _ & _ & Ht).
  fold c n in Hf, Ht. split; [| exact Hf].
  apply new_events_app. rewrite Ht.
  unfold Config.full_model_save_path. rewrite full_checkpoint_path. reflexivity.
Qed.

Lemma full_checkpoint_ignores_path_witness :
  let saver := trained_state (Config.get_default_config training_args) 0 in
  let saved := (_save_inner_model "elsewhere/model" saver).2 in
  new_events saver saved
  = [TF.CheckpointWrite "models/java-small/saved_model-full/ckpt-0" 10]
  /\ TF.path_exists (fs saved) "elsewhere/model-full" = false
  /\ TF.path_exists (fs saved) "models/java-small/saved_model-full" = true.
Proof.
  intros saver saved.
  split; [| split; vm_compute; reflexivity].
  refine (proj1 (full_checkpoint_ignores_path "elsewhere/model" saver saved _ _ _)).
  - reflexivity.
  - exact I.
  - vm_compute. reflexivity.
Defined.

(** With [RELEASE], [_save_inner_model] saves the weights alone, under
    the name [path + '-only-weights'], and no checkpoint. *)
Lemma release_saves_weights_only (path : string) (st : state) (k : TF.KerasModel) :
  Config.RELEASE (config (self st)) = true ->
  keras_model (self st) = Some k ->
  exists st',
    _save_inner_model path st = (Py.Ok tt, st')
    /\ new_events st st' = [TF.SaveWeights (path ++ "-only-weights")]
    /\ TF.checkpoints (fs st') = TF.checkpoints (fs st).
Proof.
  intros R Hk. destruct st as [[c v km nr ck mgr] f tr fr]. state_simpl.
  unfold _save_inner_model, bind at 1, get at 1. state_simpl. rewrite R.
  unfold save_weights, the_keras_model. cbv [bind get ret raise modify emit].
  state_simpl. rewrite Hk. eexists. split; [reflexivity |].
  split; [| reflexivity]. apply new_events_app. reflexivity.
Qed.

(** * Further properties of [config.py] *)

Lemma append_nil_r (s : string) : s ++ EmptyString = s.
Proof.
  induction s as [| c s IH]; [reflexivity |]. rewrite append_cons, IH. reflexivity.
Qed.

(** ['/'.join(s.split('/')) == s], for any separator. *)
Lemma join_cons sep w (l : list string) :
  l <> [] -> Py.join sep (w :: l) = w ++ sep ++ Py.join sep l.
Proof. destruct l; [congruence | reflexivity]. Qed.

Lemma join_split sep s : Py.join (String sep EmptyString) (Py.split sep s) = s.
Proof.
  induction s as [| c s IH]; [reflexivity |]. cbn [Py.split].
  pose proof (split_nonempty sep s) as N.
  destruct (Ascii.eqb_spec c sep) as [-> | Hc].
  - rewrite join_cons, IH by exact N. reflexivity.
  - destruct (Py.split sep s) as [| w ws]; [congruence |].
    destruct ws as [| w' ws].
    + change (String c w = String c s). f_equal. exact IH.
    + rewrite join_cons by discriminate. rewrite join_cons in IH by discriminate.
      rewrite append_cons, IH. reflexivity.
Qed.

Lemma join_snoc sep (l : list string) w :
  l <> [] -> Py.join sep (l ++ [w])%list = Py.join sep l ++ sep ++ w.
Proof.
  induction l as [| x l IH]; [congruence |]. intros _.
  destruct l as [| y l]; [reflexivity |].
  change (Py.join sep ((x :: y :: l) ++ [w])%list)
    with (x ++ sep ++ Py.join sep ((y :: l) ++ [w])%list).
  rewrite IH by discriminate.
  change (Py.join sep (x :: y :: l)) with (x ++ sep ++ Py.join sep (y :: l)).
  rewrite !append_assoc. reflexivity.
Qed.

(** X1: The vocabularies are kept in the directory of the model file: the
    last component of the model path is replaced by [vocabularies.bin];
    a model path without a directory gives the bare file name. *)
Theorem vocabularies_path_in_model_directory (directory name : string) :
  free_of "/"%char name ->
  Config.get_vocabularies_path_from_model_path (directory ++ "/" ++ name)
  = directory ++ "/vocabularies.bin"
  /\ Config.get_vocabularies_path_from_model_path name = "vocabularies.bin".
Proof.
  intros F. unfold Config.get_vocabularies_path_from_model_path. cbv zeta. split.
  - change ("/" ++ name) with (String "/"%char name).
    rewrite split_app, (split_free_of _ name F).
    rewrite removelast_last, join_snoc by apply split_nonempty.
    rewrite join_split. reflexivity.
  - rewrite (split_free_of _ name F). reflexivity.
Qed.

Lemma vocabularies_path_in_model_directory_witness :
  Config.get_vocabularies_path_from_model_path ("models/java14m" ++ "/" ++ "saved_model")
  = "models/java14m" ++ "/vocabularies.bin".
Proof.
  refine (proj1 (vocabularies_path_in_model_directory "models/java14m" "saved_model" _)).
  vm_compute. repeat split.
Defined.

Lemma append_length (a b : string) :
  String.length (a ++ b) = (String.length a + String.length b)%nat.
Proof.
  induction a as [| c a IH]; [reflexivity |]. rewrite append_cons. cbn. rewrite IH.
  reflexivity.
Qed.

Lemma append_inj_l (a b suffix : string) : a ++ suffix = b ++ suffix -> a = b.
Proof.
  revert b. induction a as [| c a IH]; intros b H.
  - destruct b as [| d b]; [reflexivity |]. exfalso.
    apply (f_equal String.length) in H. rewrite !append_length in H.
    cbn [String.length] in H. lia.
  - destruct b as [| d b].
    + exfalso. apply (f_equal String.length) in H. rewrite !append_length in H.
      cbn [String.length] in H. lia.
    + rewrite !append_cons in H. inversion H. f_equal. apply IH. assumption.
Qed.

Lemma full_path_is_not_weights_path (p q : string) :
  Config.get_full_model_path p <> Config.get_model_weights_path q.
Proof.
  unfold Config.get_full_model_path, Config.get_model_weights_path. intros H.
  apply (f_equal (fun s => List.last (list_ascii_of_string s) "/"%char)) in H.
  rewrite !last_char_app in H by discriminate. discriminate H.
Qed.

(** X2: The checkpoint directory and the weights file of a model are told
    apart by their names: no two model paths make the full-model path of
    the one the weights path of the other, and each of the two paths
    determines the model path. *)
Theorem model_paths_are_distinct (p q : string) :
  Config.get_full_model_path p <> Config.get_model_weights_path q
  /\ (Config.get_full_model_path p = Config.get_full_model_path q -> p = q)
  /\ (Config.get_model_weights_path p = Config.get_model_weights_path q -> p = q).
Proof.
  split; [apply full_path_is_not_weights_path |].
  unfold Config.get_full_model_path, Config.get_model_weights_path.
  split; apply append_inj_l.
Qed.

(** X3: [train_steps_per_epoch] and [test_steps_per_epoch] raise
    [ZeroDivisionError] exactly for a batch size of 0, the value
    [Config.__init__] leaves. *)
Theorem steps_per_epoch_zero_division (c : Config.t) :
  (Config.train_steps_per_epoch c = Py.Raise Py.ZeroDivisionError
   <-> Config.TRAIN_BATCH_SIZE c = 0)
  /\ (Config.test_steps_per_epoch c = Py.Raise Py.ZeroDivisionError
      <-> Config.TEST_BATCH_SIZE c = 0)
  /\ Config.train_steps_per_epoch Config.init = Py.Raise Py.ZeroDivisionError.
Proof.
  assert (forall n b, Config.steps n b = Py.Raise Py.ZeroDivisionError <-> b = 0) as K.
  { intros n b. unfold Config.steps, Py.truediv.
    destruct (Z.eqb_spec b 0) as [-> | Hb]; [split; reflexivity |].
    destruct (n =? 0); [split; [discriminate | contradiction] |].
    destruct (_ <=? _); cbn [Py.rbind]; split; try discriminate; contradiction. }
  split; [apply K | split; [apply K | reflexivity]].
Qed.

(** * The tensors former *)

(** X4: Reading back what [to_model_input_form] made gives the tensors the
    mode carries: everything in evaluate mode, no target string in train
    mode, no targets at all in predict mode; it never raises. *)
Theorem former_round_trip {Tensor : Type} (mode : TF.EstimatorMode)
    (t : Former.ReaderInputTensors Tensor) :
  Former.from_model_input_form mode (Former.to_model_input_form mode t)
  = Former.Found (Former.carried mode t)
  /\ Former.carried TF.Evaluate t = t.
Proof.
  split; [| destruct t; reflexivity].
  destruct t as [i0 i1 i2 i3 ti ts], mode; try reflexivity.
Qed.

(** X5: [from_model_input_form] raises [KeyError] exactly when a target the
    mode needs is missing from the dictionary: [y_hat] in train and
    evaluate mode, then [true_target_word] in evaluate mode; other keys are
    ignored, and predict mode never raises. *)
Theorem former_missing_targets {Tensor : Type}
    (inputs : Tensor * Tensor * Tensor * Tensor)
    (targets : gmap string (option Tensor)) :
  (forall k, Former.from_model_input_form TF.Predict inputs <> Former.KeyError k)
  /\ (forall k,
        Former.from_model_input_form TF.Train (inputs, targets) = Former.KeyError k
        <-> k = "y_hat" /\ targets !! "y_hat" = None)
  /\ (forall k,
        Former.from_model_input_form TF.Evaluate (inputs, targets) = Former.KeyError k
        <-> (k = "y_hat" /\ targets !! "y_hat" = None)
            \/ (k = "true_target_word" /\ is_Some (targets !! "y_hat")
                /\ targets !! "true_target_word" = None))
  /\ (forall extra v,
        extra <> "y_hat" -> extra <> "true_target_word" ->
        Former.from_model_input_form TF.Train (inputs, <[extra := v]> targets)
        = Former.from_model_input_form TF.Train (inputs, targets)
        /\ Former.from_model_input_form TF.Evaluate (inputs, <[extra := v]> targets)
           = Former.from_model_input_form TF.Evaluate (inputs, targets)).
Proof.
  split; [discriminate |].
  cbn [Former.from_model_input_form fst snd]. unfold Former.getitem.
  split; [| split].
  - intros k. destruct (targets !! "y_hat") as [v |].
    + split; [discriminate | intros [_ ?]; discriminate].
    + split; [intros E; inversion E; auto | intros [-> _]; reflexivity].
  - intros k. destruct (targets !! "y_hat") as [v |].
    + destruct (targets !! "true_target_word") as [w |].
      * split; [discriminate | intros [[_ ?] | [_ [_ ?]]]; discriminate].
      * split; [intros E; inversion E; right; eauto | ].
        intros [[_ ?] | [-> _]]; [discriminate | reflexivity].
    + split; [intros E; inversion E; auto |].
      intros [[-> _] | [_ [[? ?] _]]]; [reflexivity | discriminate].
  - intros extra v H1 H2. rewrite !lookup_insert_ne by assumption. split; reflexivity.
Qed.

(** * Reading the embeddings *)

Lemma named_layers_of_built_model c v :
  let k := built_model c v in
  TF.get_layer k "y_hat"
  = Some (TF.mkLayer 21 (Some "y_hat") (TF.Dense (size (target_vocab v)) false TF.Softmax))
  /\ TF.get_layer k "token_embedding"
     = Some (TF.mkLayer 10 (Some "token_embedding")
               (TF.Embedding (size (token_vocab v)) (Config.TOKEN_EMBEDDINGS_SIZE c)))
  /\ TF.get_layer k "path_embedding"
     = Some (TF.mkLayer 8 (Some "path_embedding")
               (TF.Embedding (size (path_vocab v)) (Config.PATH_EMBEDDINGS_SIZE c))).
Proof.
  cbv zeta. unfold TF.get_layer, built_model. cbn [TF.model_graph]. run_graph.
  repeat split.
Qed.

(** X6: On the network [_create_keras_model] builds,
    [_get_vocab_embedding_as_np_array] finds a layer for each of the three
    vocabularies (an [Embedding] of the vocabulary's size for tokens and
    paths, the [Dense] output layer with one unit per target word for
    targets); it returns only arrays of two axes whose first axis has the
    size of the vocabulary, raises [AssertionError] exactly when the
    weight has not two axes or none of the vocabulary's size, and leaves
    the instance as it was.  A weight whose first axis already has the
    vocabulary's size is returned as it is, also when both axes have that
    size. *)
Theorem vocab_embedding_has_one_row_per_word {A : Type}
    (first_weight : TF.layer -> ndarray A) (vocab_type : VocabType) (st : state) :
  let built := (_create_keras_model st).2 in
  let v := vocabs (self st) in
  let n := size (vocabs_get v vocab_type) in
  exists l,
    (forall k, keras_model (self built) = Some k ->
       TF.get_layer k (vocab_type_to_embedding_layer_mapping vocab_type) = Some l)
    /\ (exists width,
          keras_weight_shape (TF.kind l) width
          = match vocab_type with Target => [width; n] | _ => [n; width] end)
    /\ let r := _get_vocab_embedding_as_np_array first_weight vocab_type built in
       let w := first_weight l in
       r.2 = built
       /\ (forall a, r.1 = Py.Ok a ->
             exists m, shape a = [n; m]
                       /\ (a = w \/ (a = transpose w /\ shape w = [m; n] /\ m <> n)))
       /\ (forall e, r.1 = Py.Raise e -> e = Py.AssertionError)
       /\ (r.1 = Py.Raise Py.AssertionError
           <-> length (shape w) <> 2%nat \/ n ∉ shape w)
       /\ (forall m, shape w = [n; m] -> r.1 = Py.Ok w).
Proof.
  intros built v n. subst built. rewrite create_keras_model_run. cbn [snd]. fold v.
  set (c := config (self st)).
  destruct (named_layers_of_built_model c v) as (Hy & Ht & Hp).
  set (name := vocab_type_to_embedding_layer_mapping vocab_type).
  assert (exists l, TF.get_layer (built_model c v) name = Some l
          /\ exists width, keras_weight_shape (TF.kind l) width
             = match vocab_type with Target => [width; n] | _ => [n; width] end)
    as (l & Hl & Hw).
  { subst name n. destruct vocab_type; cbn [vocab_type_to_embedding_layer_mapping vocabs_get];
      eexists; (split; [eassumption |]); cbn [TF.kind keras_weight_shape];
      first [exists 0; reflexivity | eexists; reflexivity]. }
  exists l. split; [| split; [exact Hw |]].
  { intros k Hk. state_simpl. inversion Hk. subst k. exact Hl. }
  cbv zeta.
  set (built := set_keras_model (Some (built_model c v)) st).
  assert (_get_vocab_embedding_as_np_array first_weight vocab_type built
          = (if negb (length (shape (first_weight l)) =? 2)%nat
             then Py.Raise Py.AssertionError
             else if negb (bool_decide (n ∈ shape (first_weight l)))
             then Py.Raise Py.AssertionError
             else if negb (n =? List.hd 0 (shape (first_weight l)))
             then Py.Ok (transpose (first_weight l))
             else Py.Ok (first_weight l), built)) as ->.
  { unfold _get_vocab_embedding_as_np_array. fold name. unfold bind at 1.
    unfold the_keras_model, bind at 1, get at 1. subst built.
    destruct st as [[c0 v0 km nr ck mgr] f tr fr]. state_simpl. unfold ret at 1.
    rewrite Hl. cbv [bind get ret raise]. state_simpl. fold n.
    repeat (destruct (negb _)); reflexivity. }
  cbn [fst snd]. clearbody built. clear Hy Ht Hp Hl Hw. clearbody n.
  set (w := first_weight l). clearbody w. split; [reflexivity |].
  destruct (shape w) as [| a [| b [| x rest]]] eqn:S; cbn [length Nat.eqb negb List.hd].
  1,2,4: (split; [| split; [| split]];
          [intros y E; discriminate E
          | intros e E; inversion E; reflexivity
          | split; [intros _; left; cbn; lia | reflexivity]
          | intros m E; discriminate E]).
  destruct (bool_decide (n ∈ [a; b])) eqn:D; cbn [negb].
  - apply bool_decide_eq_true in D.
    destruct (Z.eqb_spec n a) as [-> | Hne]; cbn [negb].
    + split; [| split; [| split]].
      * intros y E. inversion E. subst y. exists b. rewrite S. auto.
      * intros e E. discriminate E.
      * split; [intros E; discriminate E |].
        intros [H | H]; exfalso; apply H; [reflexivity | apply list_elem_of_here].
      * intros m E. reflexivity.
    + apply elem_of_cons in D as [D | D]; [contradiction |].
      apply list_elem_of_singleton in D. subst n.
      split; [| split; [| split]].
      * intros y E. inversion E. subst y. exists a.
        split; [cbn [transpose shape]; rewrite S; reflexivity |].
        right. repeat split; congruence.
      * intros e E. discriminate E.
      * split; [intros E; discriminate E |].
        intros [H | H]; exfalso; apply H;
          [reflexivity | apply list_elem_of_further, list_elem_of_here].
      * intros m E. inversion E. congruence.
  - apply bool_decide_eq_false in D.
    split; [| split; [| split]].
    + intros y E. discriminate E.
    + intros e E. inversion E. reflexivity.
    + split; [intros _; right; exact D | reflexivity].
    + intros m E. inversion E. subst. exfalso. apply D, list_elem_of_here.
Qed.

(** * Edge cases of the lifecycle *)

(** X7: Without a built model, [predict] on no lines returns [None] and
    touches nothing; on one line or more it raises [AttributeError] at the
    first line, after the reader has parsed that line and before any
    network call, and no later line is read. *)
Theorem predict_without_model (st : state) (line : string) (lines : list string) :
  keras_model (self st) = None ->
  predict [] st = (Py.Ok None, st)
  /\ (exists msg, (predict (line :: lines) st).1 = Py.Raise (Py.AttributeError msg))
  /\ new_events st (predict (line :: lines) st).2
     = [TF.Print; TF.Print; TF.ReaderRun TF.Predict line; TF.Print; TF.Print;
        TF.Print].
Proof.
  intros Hk. split; [reflexivity |].
  assert (exists msg,
            predict (line :: lines) st
            = (Py.Raise (Py.AttributeError msg),
               mkState (self st) (fs st)
                 (trace st ++ [TF.Print; TF.Print; TF.ReaderRun TF.Predict line;
                               TF.Print; TF.Print; TF.Print])%list (fresh st)))
    as [msg ->].
  { eexists. unfold predict, _create_data_reader. unfold bind at 1. unfold ret at 1.
    cbn [estimator_mode for_each]. unfold bind at 1, bind at 1.
    rewrite !emit_run. unfold bind at 1, the_keras_model at 1.
    unfold bind at 1, get at 1. state_simpl. rewrite Hk. unfold raise at 1.
    unfold add_event. state_simpl. rewrite <- !app_assoc. reflexivity. }
  split; [eexists; reflexivity |]. apply new_events_app. reflexivity.
Qed.

Lemma predict_without_model_witness :
  exists msg,
    (predict ["get|name a,1,b"; "set|name c,2,d"]
       (fresh_state (Config.get_default_config inference_args) example_vocabs empty_fs)).1
    = Py.Raise (Py.AttributeError msg).
Proof.
  refine (proj1 (proj2 (predict_without_model _ _ _ _))). reflexivity.
Defined.

(** X8: [on_epoch_end] for an epoch other than the one the counter expects
    raises [AssertionError] and changes nothing: the counter is not
    incremented and nothing is saved. *)
Theorem epoch_end_rejects_other_epochs (cb : ModelCheckpointSaverCallback)
    (epoch : Z) (st : state) :
  epoch <> nr_epochs_trained (self st) ->
  on_epoch_end cb epoch st = (Py.Raise Py.AssertionError, st).
Proof.
  intros H. unfold on_epoch_end. cbv [bind get ret raise].
  destruct (Z.eqb_spec (nr_epochs_trained (self st)) epoch); [congruence | reflexivity].
Qed.

Lemma epoch_end_rejects_other_epochs_witness :
  let st := fresh_state (Config.get_default_config training_args) example_vocabs empty_fs in
  on_epoch_end (mkCallback 0) 5 st = (Py.Raise Py.AssertionError, st).
Proof.
  intros st. apply (epoch_end_rejects_other_epochs (mkCallback 0) 5 st).
  cbn. lia.
Defined.

(** The outcome of [_save_inner_model], whatever it is. *)
Lemma save_inner_run path st :
  let r := _save_inner_model path st in
  (r.1 = Py.Ok tt <-> can_save st = true)
  /\ (r.1 <> Py.Ok tt -> fs r.2 = fs st /\ trace r.2 = trace st)
  /\ config (self r.2) = config (self st)
  /\ vocabs (self r.2) = vocabs (self st)
  /\ nr_epochs_trained (self r.2) = nr_epochs_trained (self st)
  /\ keras_model (self r.2) = keras_model (self st)
  /\ (manager_wf (self st) -> manager_wf (self r.2)).
Proof.
  destruct st as [[c v km nr ck mgr] f tr fr]. intros r.
  assert (r = _save_inner_model path (mkState (mkSelf c v km nr ck mgr) f tr fr))
    as E by reflexivity.
  clearbody r. unfold can_save, manager_wf. state_simpl.
  unfold _save_inner_model, bind at 1, get at 1 in E. state_simpl.
  destruct (Config.RELEASE c).
  - unfold save_weights, the_keras_model in E.
    cbv [bind get ret raise modify emit] in E. state_simpl.
    destruct km as [k |]; subst r; cbn [fst snd]; state_simpl; save_cases.
  - unfold _get_save_checkpoint_manager, _get_checkpoint in E.
    cbv [bind get ret raise lift modify checkpoint_manager_save emit] in E.
    state_simpl.
    destruct mgr as [m |]; state_simpl;
      [subst r; cbn [fst snd]; state_simpl; save_cases |].
    destruct km as [k |]; state_simpl;
      [| subst r; cbn [fst snd]; state_simpl; save_cases].
    destruct (TF.optimizer k) as [o |]; state_simpl;
      [| subst r; cbn [fst snd andb]; state_simpl; save_cases].
    unfold TF.new_manager in *.
    destruct (Z.leb_spec (Config.MAX_TO_KEEP c) 0) as [Hk | Hk];
      destruct (Z.ltb_spec 0 (Config.MAX_TO_KEEP c)) as [Hk' | Hk']; try lia;
      destruct ck; state_simpl; subst r; cbn [fst snd]; state_simpl;
      rewrite ?andb_false_r, ?andb_true_r; save_cases.
    all: destruct (Z.leb_spec (Config.MAX_TO_KEEP c) 0); [lia | reflexivity].
Qed.

(** X9: [_save_inner_model] returns exactly when it can write ([can_save]);
    when it raises, nothing was written to the file system and no library
    call was made.  In both cases the configuration, the epoch counter
    and the network are as before. *)
Theorem save_writes_all_or_nothing (path : string) (st : state) :
  let r := _save_inner_model path st in
  (r.1 = Py.Ok tt <-> can_save st = true)
  /\ (r.1 <> Py.Ok tt -> fs r.2 = fs st /\ new_events st r.2 = [])
  /\ config (self r.2) = config (self st)
  /\ nr_epochs_trained (self r.2) = nr_epochs_trained (self st)
  /\ keras_model (self r.2) = keras_model (self st).
Proof.
  destruct (save_inner_run path st) as (H1 & H2 & H3 & _ & H5 & H6 & _).
  cbv zeta. split; [exact H1 |]. split; [| auto].
  intros H. destruct (H2 H) as [Hf Ht]. split; [exact Hf |].
  unfold new_events. rewrite Ht. apply drop_all.
Qed.

(** * Checkpoint retention *)

(** X10: After a full save, the checkpoint directory lists at most
    [MAX_TO_KEEP] checkpoints, the new one last; every listed checkpoint
    is the new one or was listed before, the checkpoints that left the
    list are deleted, and the lists of other directories are untouched. *)
Theorem full_save_retention (path : string) (saver saved : state) :
  let c := config (self saver) in
  let directory := Config.full_model_save_path c in
  let new := TF.checkpoint_path directory (nr_epochs_trained (self saver)) in
  let old := default [] (TF.checkpoints (fs saver) !! directory) in
  Config.RELEASE c = false ->
  manager_wf (self saver) ->
  _save_inner_model path saver = (Py.Ok tt, saved) ->
  exists kept,
    TF.checkpoints (fs saved) !! directory = Some kept
    /\ Z.of_nat (length kept) <= Config.MAX_TO_KEEP c
    /\ last kept = Some new
    /\ (forall p, p ∈ kept -> p = new \/ p ∈ old)
    /\ (forall p, p ∈ old -> p ∉ kept -> p <> directory -> p ∉ TF.paths (fs saved))
    /\ (forall d, d <> directory ->
          TF.checkpoints (fs saved) !! d = TF.checkpoints (fs saver) !! d).
Proof.
  intros c directory new old R W H.
  destruct (save_full_run path saver saved R W H) as (Hk & Hf & _).
  fold c directory in Hk, Hf. rewrite Hf. unfold TF.manager_save.
  cbn [TF.cm_directory TF.cm_max_to_keep TF.checkpoints TF.paths].
  fold new old.
  set (all := (filter (fun q => q <> new) old ++ [new])%list).
  set (excess := (length all - Z.to_nat (Config.MAX_TO_KEEP c))%nat).
  assert (length all = S (length (filter (fun q => q <> new) old))) as La
    by (unfold all; rewrite length_app; cbn; lia).
  assert (excess < length all)%nat as Le by (unfold excess; lia).
  exists (drop excess all). split; [apply lookup_insert_eq |].
  split; [rewrite length_drop; unfold excess; lia |].
  split.
  { unfold all. rewrite drop_app_le by (unfold all in Le; rewrite length_app in Le;
                                        cbn in Le; lia).
    apply last_snoc. }
  assert (forall p, p ∈ all <-> (p ∈ old /\ p <> new) \/ p = new) as Hall.
  { intros p. unfold all. rewrite elem_of_app, list_elem_of_filter, list_elem_of_singleton.
    tauto. }
  split; [| split].
  - intros p Hp.
    assert (p ∈ all) as Ha
      by (rewrite <- (take_drop excess all); apply elem_of_app; right; exact Hp).
    apply Hall in Ha. tauto.
  - intros p Hp Hn Hd.
    assert (p <> new) as Hpn.
    { intros ->. apply Hn. unfold all.
      rewrite drop_app_le by (unfold all in Le; rewrite length_app in Le; cbn in Le; lia).
      apply elem_of_app. right. apply list_elem_of_here. }
    assert (p ∈ take excess all) as Ht.
    { assert (p ∈ all) as Ha by (apply Hall; auto).
      rewrite <- (take_drop excess all) in Ha. apply elem_of_app in Ha as [Ha | Ha];
        [exact Ha | contradiction]. }
    rewrite elem_of_union, elem_of_union, !elem_of_singleton, elem_of_difference,
      elem_of_list_to_set.
    intros [[E | E] | [_ E]]; [exact (Hd E) | exact (Hpn E) | exact (E Ht)].
  - intros d Hd. apply lookup_insert_ne. congruence.
Qed.

Lemma full_save_retention_witness :
  let saver := trained_state (Config.get_default_config training_args) 2 in
  let saved := (_save_inner_model "models/java-small/saved_model" saver).2 in
  exists kept,
    TF.checkpoints (fs saved) !! "models/java-small/saved_model-full" = Some kept
    /\ Z.of_nat (length kept) <= 10.
Proof.
  intros saver saved.
  destruct (full_save_retention "models/java-small/saved_model" saver saved)
    as (kept & H1 & H2 & _).
  - reflexivity.
  - exact I.
  - vm_compute. reflexivity.
  - exists kept. split; [exact H1 | exact H2].
Defined.

(** * Loading a full model *)

Lemma full_branch_conditions st :
  takes_full_branch st = true ->
  let c := config (self st) in
  Py.truthy (Config.TRAIN_DATA_PATH_PREFIX c)
  && negb (TF.path_exists (fs st) (Config.full_model_load_path c)) = false
  /\ Py.truthy (Config.TRAIN_DATA_PATH_PREFIX c)
     || negb (TF.path_exists (fs st) (Config.model_weights_load_path c)) = true.
Proof.
  unfold takes_full_branch. cbv zeta. intros H.
  apply andb_true_iff in H as [H1 H2]. apply negb_true_iff in H1. auto.
Qed.

Lemma restored_fields st :
  config (self (restored st)) = config (self st)
  /\ fs (restored st) = fs st
  /\ nr_epochs_trained (self (restored st)) = nr_epochs_trained (self st)
  /\ _checkpoint (self (restored st))
     = Some (default (mkCheckpoint (fresh st)) (_checkpoint (self st)))
  /\ keras_model (self (restored st))
     = Some (with_optimizer (built_model (config (self st)) (vocabs (self st)))
               (S (fresh st))).
Proof.
  destruct st as [[c v km nr [ck |] mgr] f tr fr]; repeat split.
Qed.

(** X11: When [_load_inner_model] restores the full model, the restore of the
    latest checkpoint of the load directory is always called, and the
    result depends on that checkpoint's name alone: without a checkpoint
    the load raises [AttributeError]; with one, it returns with the epoch
    counter read from the name's last dash-separated piece, or raises the
    [ValueError] of [int] when that piece is no number.  A load that raises
    leaves the epoch counter as it was; no load writes to the file
    system. *)
Theorem full_load_outcome (st : state) :
  takes_full_branch st = true ->
  let c := config (self st) in
  let r := _load_inner_model st in
  let latest := TF.latest_checkpoint (fs st) (Config.MODEL_LOAD_PATH c ++ "-full") in
  TF.CheckpointRestore latest ∈ new_events st r.2
  /\ fs r.2 = fs st
  /\ match latest with
     | None =>
         (exists msg, r.1 = Py.Raise (Py.AttributeError msg))
         /\ nr_epochs_trained (self r.2) = nr_epochs_trained (self st)
     | Some name =>
         match Py.int_of_str (Py.last_item (Py.split Py.dash name) EmptyString) with
         | Py.Ok n => r.1 = Py.Ok tt /\ nr_epochs_trained (self r.2) = n
         | Py.Raise e =>
             r.1 = Py.Raise e
             /\ nr_epochs_trained (self r.2) = nr_epochs_trained (self st)
         end
     end.
Proof.
  intros H c r latest. destruct (full_branch_conditions st H) as [G1 G2].
  fold c in G1, G2.
  assert (r = _load_inner_model st) as E by reflexivity. clearbody r.
  rewrite load_run in E. fold c in E. rewrite G1, G2 in E.
  change (Config.full_model_load_path c) with (Config.MODEL_LOAD_PATH c ++ "-full") in E.
  fold latest in E.
  destruct (restored_fields st) as (_ & Rf & Rn & _).
  pose proof (trace_restored st) as Rt. fold c in Rt.
  change (Config.full_model_load_path c) with (Config.MODEL_LOAD_PATH c ++ "-full") in Rt.
  fold latest in Rt.
  set (base := [TF.ModelCompile (fresh st) (metric_names c); TF.Print;
                TF.CheckpointRestore latest; TF.InitializeOrRestore;
                TF.ModelCompile (S (fresh st)) (metric_names c)]) in *.
  assert (forall tail, TF.CheckpointRestore latest ∈ (base ++ tail)%list) as In.
  { intros tail. subst base. cbn [app]. event_in. }
  clearbody base.
  destruct latest as [name |].
  - destruct (Py.int_of_str _) as [n | e]; subst r; cbn [fst snd].
    + split; [| split; [exact Rf | split; reflexivity]].
      rewrite (new_events_app st _ (base ++ [TF.ModelSummary])%list); [apply In |].
      change (trace (add_event TF.ModelSummary (set_nr_epochs_trained n (restored st))))
        with (trace (restored st) ++ [TF.ModelSummary])%list.
      rewrite Rt, <- app_assoc. reflexivity.
    + split; [| split; [exact Rf | split; [reflexivity | exact Rn]]].
      rewrite (new_events_app st _ (base ++ [])%list); [apply In |].
      rewrite Rt, app_nil_r. reflexivity.
  - subst r. cbn [fst snd].
    split; [| split; [exact Rf | split; [eexists; reflexivity | exact Rn]]].
    rewrite (new_events_app st _ (base ++ [])%list); [apply In |].
    rewrite Rt, app_nil_r. reflexivity.
Qed.

Lemma full_load_outcome_witness :
  let st := fresh_state (Config.get_default_config inference_args) example_vocabs empty_fs in
  TF.CheckpointRestore None ∈ new_events st (_load_inner_model st).2.
Proof.
  intros st. refine (proj1 (full_load_outcome st _)). reflexivity.
Defined.

(** X12: After a full load on a new instance, the checkpoint the instance
    keeps holds the optimizer of the first compile, the one the restore
    wrote to, while the model is compiled with another optimizer made
    after the restore; [_get_checkpoint] goes on returning the first one. *)
Theorem full_load_compiles_a_new_optimizer (st : state) :
  _checkpoint (self st) = None ->
  takes_full_branch st = true ->
  let c := config (self st) in
  let loaded := (_load_inner_model st).2 in
  exists restored_into compiled k tail,
    _checkpoint (self loaded) = Some (mkCheckpoint restored_into)
    /\ keras_model (self loaded) = Some k
    /\ TF.optimizer k = Some compiled
    /\ compiled <> restored_into
    /\ (_get_checkpoint loaded).1 = Py.Ok (mkCheckpoint restored_into)
    /\ new_events st loaded
       = ([TF.ModelCompile restored_into (metric_names c); TF.Print;
           TF.CheckpointRestore
             (TF.latest_checkpoint (fs st) (Config.MODEL_LOAD_PATH c ++ "-full"));
           TF.InitializeOrRestore;
           TF.ModelCompile compiled (metric_names c)] ++ tail)%list.
Proof.
  intros Hc H c loaded. destruct (full_branch_conditions st H) as [G1 G2].
  fold c in G1, G2.
  assert (exists tail,
            loaded = restored st /\ tail = []
            \/ (exists n, loaded = add_event TF.ModelSummary
                                     (set_nr_epochs_trained n (restored st)))
               /\ tail = [TF.ModelSummary]) as (tail & Hl).
  { subst loaded. rewrite load_run. fold c. rewrite G1, G2.
    destruct (TF.latest_checkpoint _ _) as [name |]; [| eauto].
    destruct (Py.int_of_str _) as [n | e]; cbn [snd]; eauto 6. }
  destruct (restored_fields st) as (_ & _ & _ & Rc & Rk).
  rewrite Hc in Rc. cbn [default] in Rc.
  pose proof (trace_restored st) as Rt. fold c in Rt, Rk.
  change (Config.full_model_load_path c) with (Config.MODEL_LOAD_PATH c ++ "-full") in Rt.
  exists (fresh st), (S (fresh st)),
    (with_optimizer (built_model c (vocabs (self st))) (S (fresh st))), tail.
  assert (_checkpoint (self loaded) = Some (mkCheckpoint (fresh st))
          /\ keras_model (self loaded)
             = Some (with_optimizer (built_model c (vocabs (self st))) (S (fresh st)))
          /\ trace loaded = (trace (restored st) ++ tail)%list) as (L1 & L2 & L3).
  { destruct Hl as [[-> ->] | [[n ->] ->]].
    - rewrite app_nil_r. auto.
    - repeat split; assumption. }
  split; [exact L1 |]. split; [exact L2 |]. split; [reflexivity |].
  split; [lia |]. split.
  - unfold _get_checkpoint, bind, get. rewrite L2, L1. reflexivity.
  - apply new_events_app. rewrite L3, Rt, <- app_assoc. reflexivity.
Qed.

Lemma full_load_compiles_a_new_optimizer_witness :
  let st := fresh_state (Config.get_default_config inference_args) example_vocabs empty_fs in
  exists restored_into compiled k,
    _checkpoint (self (_load_inner_model st).2) = Some (mkCheckpoint restored_into)
    /\ keras_model (self (_load_inner_model st).2) = Some k
    /\ TF.optimizer k = Some compiled
    /\ compiled <> restored_into.
Proof.
  intros st.
  destruct (full_load_compiles_a_new_optimizer st) as (a & b & k & t & H1 & H2 & H3 & H4 & _).
  - reflexivity.
  - reflexivity.
  - exists a, b, k. auto.
Defined.

(** * Releasing a model *)

Lemma list_ascii_of_string_app (a b : string) :
  list_ascii_of_string (a ++ b)
  = (list_ascii_of_string a ++ list_ascii_of_string b)%list.
Proof.
  induction a as [| c a IH]; [reflexivity |].
  rewrite append_cons. cbn [list_ascii_of_string]. rewrite IH. reflexivity.
Qed.

Lemma append_inj_r (p a b : string) : p ++ a = p ++ b -> a = b.
Proof.
  induction p as [| c p IH]; [auto |]. rewrite !append_cons. intros H.
  inversion H. auto.
Qed.

(** A weights path never has one of the endings of an HDF5 file, so the
    weights of a release are written in TensorFlow's format. *)
Lemma weights_path_is_not_hdf5 (path : string) :
  TF.is_hdf5_filepath (Config.get_model_weights_path path) = false.
Proof.
  unfold TF.is_hdf5_filepath, Py.endswith, Config.get_model_weights_path.
  rewrite list_ascii_of_string_app, rev_app_distr. reflexivity.
Qed.

Lemma release_save_run path st k :
  Config.RELEASE (config (self st)) = true ->
  keras_model (self st) = Some k ->
  let weights := Config.get_model_weights_path path in
  _save_inner_model path st
  = (Py.Ok tt,
     add_event (TF.SaveWeights weights)
       (set_fs (TF.mkFS ({[weights ++ ".index"; weights ++ ".data-00000-of-00001"]}
                         ∪ TF.paths (fs st))
                  (TF.checkpoints (fs st))) st)).
Proof.
  intros R Hk weights. destruct st as [[c v km nr ck mgr] f tr fr]. state_simpl.
  unfold _save_inner_model, bind at 1, get at 1. state_simpl. rewrite R.
  unfold save_weights, the_keras_model. cbv [bind get ret raise modify emit].
  state_simpl. rewrite Hk. unfold TF.weights_files.
  rewrite weights_path_is_not_hdf5. reflexivity.
Qed.

(** X13: A model released to [path] is not found again: [save_weights]
    writes [path + '-only-weights.index'] and a data shard, not a file at
    [path + '-only-weights'], so a new instance loading from [path] still
    sees no weights file (unless one was there before), never calls
    [load_weights] and goes for the full model under [path + '-full']
    instead; when no checkpoint is listed there, the load raises. *)
Theorem released_weights_are_not_found (path : string) (st : state)
    (k : TF.KerasModel) (c2 : Config.t) (v2 : Code2VecVocabs)
    (tr : list TF.event) (fr : nat) :
  Config.RELEASE (config (self st)) = true ->
  keras_model (self st) = Some k ->
  Config.MODEL_LOAD_PATH c2 = path ->
  TF.path_exists (fs st) (path ++ "-only-weights") = false ->
  let saved := _save_inner_model path st in
  let loader := mkState (new_model c2 v2) (fs saved.2) tr fr in
  let r := _load_inner_model loader in
  saved.1 = Py.Ok tt
  /\ TF.path_exists (fs saved.2) (path ++ "-only-weights.index") = true
  /\ TF.path_exists (fs saved.2) (path ++ "-only-weights") = false
  /\ (forall p, TF.LoadWeights p ∉ new_events loader r.2)
  /\ (Py.truthy (Config.TRAIN_DATA_PATH_PREFIX c2) = false ->
      TF.CheckpointRestore (TF.latest_checkpoint (fs st) (path ++ "-full"))
        ∈ new_events loader r.2)
  /\ (TF.latest_checkpoint (fs st) (path ++ "-full") = None ->
      exists e, r.1 = Py.Raise e).
Proof.
  intros R Hk Hp Hw saved loader r.
  assert (saved = _save_inner_model path st) as Es by reflexivity.
  rewrite (release_save_run path st k R Hk) in Es. cbv zeta in Es.
  unfold Config.get_model_weights_path in Es.
  assert (fs saved.2
          = TF.mkFS ({[(path ++ "-only-weights") ++ ".index";
                       (path ++ "-only-weights") ++ ".data-00000-of-00001"]}
                     ∪ TF.paths (fs st))
              (TF.checkpoints (fs st))) as Hf.
  { rewrite Es. destruct st; reflexivity. }
  assert (TF.path_exists (fs saved.2) (path ++ "-only-weights") = false) as W.
  { rewrite Hf. unfold TF.path_exists in *. cbn [TF.paths].
    apply bool_decide_eq_false. apply bool_decide_eq_false in Hw.
    rewrite elem_of_union, elem_of_union, !elem_of_singleton.
    intros [[E | E] | E]; [| | exact (Hw E)].
    - rewrite <- (append_nil_r (path ++ "-only-weights")) in E at 1.
      apply append_inj_r in E. discriminate E.
    - rewrite <- (append_nil_r (path ++ "-only-weights")) in E at 1.
      apply append_inj_r in E. discriminate E. }
  assert (TF.latest_checkpoint (fs loader) (Config.full_model_load_path c2)
          = TF.latest_checkpoint (fs st) (path ++ "-full")) as L.
  { unfold loader. cbn [fs]. rewrite Hf. unfold TF.latest_checkpoint.
    cbn [TF.checkpoints]. unfold Config.full_model_load_path, Config.get_full_model_path.
    rewrite Hp. reflexivity. }
  split; [rewrite Es; reflexivity |].
  split.
  { rewrite Hf. unfold TF.path_exists. cbn [TF.paths]. apply bool_decide_eq_true.
    change "-only-weights.index" with ("-only-weights" ++ ".index").
    rewrite <- append_assoc.
    rewrite elem_of_union, elem_of_union, !elem_of_singleton. auto. }
  split; [exact W |].
  assert (r = _load_inner_model loader) as Er by reflexivity. clearbody r.
  rewrite load_run in Er.
  change (config (self loader)) with c2 in Er.
  assert (TF.path_exists (fs loader) (Config.model_weights_load_path c2) = false) as W2.
  { unfold Config.model_weights_load_path, Config.get_model_weights_path.
    rewrite Hp. exact W. }
  rewrite W2, L in Er. cbn [negb] in Er. rewrite orb_true_r in Er.
  pose proof (trace_restored loader) as Rt.
  change (config (self loader)) with c2 in Rt. rewrite L in Rt.
  destruct (Py.truthy (Config.TRAIN_DATA_PATH_PREFIX c2)
            && negb (TF.path_exists (fs loader) (Config.full_model_load_path c2))) eqn:G.
  - subst r. cbn [fst snd]. rewrite events_prepared.
    apply andb_true_iff in G as [G1 G2].
    split; [intros p; event_out |].
    split; [intros T; rewrite T in G1; discriminate G1 |].
    intros _. eexists. reflexivity.
  - set (base := [TF.ModelCompile (fresh loader) (metric_names c2); TF.Print;
                  TF.CheckpointRestore (TF.latest_checkpoint (fs st) (path ++ "-full"));
                  TF.InitializeOrRestore;
                  TF.ModelCompile (S (fresh loader)) (metric_names c2)]) in *.
    assert (exists tail,
              new_events loader r.2 = (base ++ tail)%list
              /\ (tail = [] \/ tail = [TF.ModelSummary])) as (tail & Ev & Ht).
    { destruct (TF.latest_checkpoint (fs st) (path ++ "-full")) as [name |].
      - destruct (Py.int_of_str _) as [n | e]; subst r; cbn [snd].
        + exists [TF.ModelSummary]. split; [| auto]. apply new_events_app.
          change (trace (add_event TF.ModelSummary
                           (set_nr_epochs_trained n (restored loader))))
            with (trace (restored loader) ++ [TF.ModelSummary])%list.
          rewrite Rt, <- app_assoc. reflexivity.
        + exists []. split; [| auto]. apply new_events_app.
          rewrite Rt, app_nil_r. reflexivity.
      - subst r. cbn [snd]. exists []. split; [| auto]. apply new_events_app.
        rewrite Rt, app_nil_r. reflexivity. }
    split; [| split].
    + intros p. rewrite Ev. subst base.
      destruct Ht as [-> | ->]; cbn [app]; event_out.
    + intros _. rewrite Ev. subst base. cbn [app]. event_in.
    + intros N. rewrite N in Er. subst r. eexists. reflexivity.
Qed.

Lemma released_weights_are_not_found_witness :
  let st := trained_state (Config.get_default_config release_args) 7 in
  let saved := _save_inner_model "models/java-small/saved_model" st in
  let c2 := Config.get_default_config inference_args in
  let loader := mkState (new_model c2 example_vocabs) (fs saved.2) [] 0 in
  saved.1 = Py.Ok tt
  /\ TF.path_exists (fs saved.2) "models/java-small/saved_model-only-weights" = false
  /\ exists e, (_load_inner_model loader).1 = Py.Raise e.
Proof.
  intros st saved c2 loader.
  assert (exists k, keras_model (self st) = Some k) as [k Hk]
    by (eexists; vm_compute; reflexivity).
  destruct (released_weights_are_not_found "models/java-small/saved_model" st k
              c2 example_vocabs [] 0) as (H1 & _ & H3 & _ & _ & H6).
  - reflexivity.
  - exact Hk.
  - reflexivity.
  - vm_compute. reflexivity.
  - split; [exact H1 |]. split; [exact H3 |]. apply H6. vm_compute. reflexivity.
Defined.

(** * Training *)

Lemma can_save_after_save path st st' :
  manager_wf (self st) ->
  _save_inner_model path st = (Py.Ok tt, st') ->
  can_save st' = true.
Proof.
  intros W H. pose proof (save_inner_run path st) as R. cbv zeta in R.
  rewrite H in R. cbn [fst snd] in R.
  destruct R as (R1 & _ & Rc & _ & _ & Rk & _).
  assert (can_save st = true) as C by (apply R1; reflexivity).
  unfold can_save in *. cbv zeta in *. rewrite Rc, Rk.
  destruct (Config.RELEASE (config (self st))) eqn:Rel; [exact C |].
  destruct (save_full_run path st st' Rel W H) as (_ & _ & _ & _ & _ & -> & _).
  reflexivity.
Qed.

Lemma save_when_ready st :
  ready st ->
  exists st',
    save None st = (Py.Ok tt, st')
    /\ ready st'
    /\ config (self st') = config (self st)
    /\ nr_epochs_trained (self st') = nr_epochs_trained (self st).
Proof.
  intros (Hk & Hc & Hw). unfold save. unfold bind at 1, get at 1. rewrite emit_run.
  set (path := default _ None). set (st1 := add_event _ st).
  pose proof (save_inner_run path st1) as R. cbv zeta in R.
  destruct (_save_inner_model path st1) as [r st'] eqn:E. cbn [fst snd] in R.
  destruct R as (R1 & _ & Rc & _ & Rn & Rk & Rw).
  assert (r = Py.Ok tt) as -> by (apply R1; exact Hc).
  exists st'. split; [reflexivity |]. split; [| split; [exact Rc | exact Rn]].
  split; [rewrite Rk; exact Hk |]. split; [| apply Rw; exact Hw].
  apply (can_save_after_save path st1 st' Hw E).
Qed.

Lemma ready_set_nr n st : ready st -> ready (set_nr_epochs_trained n st).
Proof. destruct st as [[c v km nr ck mgr] f tr fr]. exact (fun H => H). Qed.

Lemma ready_add_event e st : ready st -> ready (add_event e st).
Proof. destruct st as [[c v km nr ck mgr] f tr fr]. exact (fun H => H). Qed.

Lemma on_epoch_end_when_ready cb st :
  ready st ->
  exists cb' st',
    on_epoch_end cb (nr_epochs_trained (self st)) st = (Py.Ok cb', st')
    /\ ready st'
    /\ config (self st') = config (self st)
    /\ nr_epochs_trained (self st') = nr_epochs_trained (self st) + 1.
Proof.
  intros H. rewrite on_epoch_end_run. cbv zeta.
  set (n := nr_epochs_trained (self st)).
  destruct (_ <=? _).
  - destruct (save_when_ready (set_nr_epochs_trained (n + 1) st))
      as (st' & -> & Hr & Hc & Hn); [apply ready_set_nr; exact H |].
    eexists _, st'. split; [reflexivity |]. split; [exact Hr |].
    split; [exact Hc | exact Hn].
  - eexists _, _. split; [reflexivity |]. split; [apply ready_set_nr; exact H |].
    split; reflexivity.
Qed.

Lemma fit_epochs_when_ready steps validation_steps (count : nat) :
  forall cb st,
  ready st ->
  exists cb' st',
    fit_epochs (seqZ (nr_epochs_trained (self st)) (Z.of_nat count))
      steps validation_steps cb st = (Py.Ok cb', st')
    /\ ready st'
    /\ config (self st') = config (self st)
    /\ nr_epochs_trained (self st') = nr_epochs_trained (self st) + Z.of_nat count.
Proof.
  induction count as [| count IH]; intros cb st H.
  - exists cb, st. cbn [Z.of_nat]. rewrite seqZ_nil by lia. cbn [fit_epochs].
    split; [reflexivity |]. split; [exact H |]. split; [reflexivity | lia].
  - rewrite Nat2Z.inj_succ, seqZ_cons by lia. cbn [fit_epochs]. rewrite emit_run.
    set (st0 := add_event _ st).
    destruct (on_epoch_end_when_ready cb st0) as (cb1 & st1 & E & Hr & Hc & Hn);
      [apply ready_add_event; exact H |].
    change (nr_epochs_trained (self st0)) with (nr_epochs_trained (self st)) in E, Hn.
    change (config (self st0)) with (config (self st)) in Hc.
    unfold bind at 1. rewrite E.
    replace (Z.succ (nr_epochs_trained (self st))) with (nr_epochs_trained (self st1))
      by lia.
    replace (Z.pred (Z.succ (Z.of_nat count))) with (Z.of_nat count) by lia.
    destruct (IH cb1 st1 Hr) as (cb' & st' & E' & Hr' & Hc' & Hn').
    exists cb', st'. split; [exact E' |]. split; [exact Hr' |].
    split; [congruence | lia].
Qed.

(** X14: On an instance that is ready and whose steps per epoch can be
    computed, [train] returns after training exactly the epochs that are
    left: the counter ends at [NUM_EPOCHS], or stays where it is when
    [NUM_EPOCHS] epochs or more were trained already; the configuration
    is unchanged and the instance is ready again. *)
Theorem train_runs_the_remaining_epochs (st : state) (steps validation_steps : Z) :
  let c := config (self st) in
  ready st ->
  Config.train_steps_per_epoch c = Py.Ok steps ->
  Config.test_steps_per_epoch c = Py.Ok validation_steps ->
  exists st',
    train st = (Py.Ok tt, st')
    /\ nr_epochs_trained (self st')
       = Z.max (nr_epochs_trained (self st)) (Config.NUM_EPOCHS c)
    /\ config (self st') = c
    /\ ready st'
    /\ (Config.NUM_EPOCHS c <= nr_epochs_trained (self st) -> st' = st).
Proof.
  intros c H Hs Hv. pose proof H as ([k Hk] & _).
  unfold train, _create_data_reader. cbv [bind ret]. unfold the_keras_model.
  cbv [bind get ret]. rewrite Hk. fold c. rewrite Hs, Hv. cbv [lift new_callback bind get ret].
  set (n := nr_epochs_trained (self st)).
  destruct (Z_le_gt_dec (Config.NUM_EPOCHS c) n) as [Hle | Hgt].
  - rewrite seqZ_nil by lia. cbn [fit_epochs]. cbv [ret].
    exists st. split; [reflexivity |]. split; [lia |]. split; [reflexivity |].
    split; [exact H | reflexivity].
  - destruct (fit_epochs_when_ready steps validation_steps
                (Z.to_nat (Config.NUM_EPOCHS c - n)) (mkCallback n) st H)
      as (cb' & st' & E & Hr & Hc & Hn).
    rewrite Z2Nat.id in E, Hn by lia. fold n in E, Hn. rewrite E.
    exists st'. split; [reflexivity |]. split; [lia |]. split; [exact Hc |].
    split; [exact Hr | lia].
Qed.

Lemma train_runs_the_remaining_epochs_witness :
  let st := trained_state (Config.get_default_config training_args) 18 in
  exists st', train st = (Py.Ok tt, st') /\ nr_epochs_trained (self st') = 20.
Proof.
  intros st.
  assert (ready st) as R.
  { split; [eexists; vm_compute; reflexivity |]. split; [vm_compute; reflexivity | exact I]. }
  destruct (train_runs_the_remaining_epochs st 0 0 R) as (st' & H1 & H2 & _).
  - reflexivity.
  - reflexivity.
  - exists st'. split; [exact H1 | exact H2].
Defined.

(** X15: [train] starts no epoch when it cannot: without a built network it
    raises [AttributeError], and with a network and a training batch size
    of 0 it raises [ZeroDivisionError]; in both cases the instance, the
    file system and the record of library calls are as before. *)
Theorem train_with_zero_batch_size (st : state) :
  Config.TRAIN_BATCH_SIZE (config (self st)) = 0 ->
  exists e,
    train st = (Py.Raise e, st)
    /\ match keras_model (self st) with
       | Some _ => e = Py.ZeroDivisionError
       | None => exists msg, e = Py.AttributeError msg
       end.
Proof.
  intros Hb. unfold train, _create_data_reader. cbv [bind ret]. unfold the_keras_model.
  cbv [bind get ret raise].
  destruct (keras_model (self st)) as [k |].
  - assert (Config.train_steps_per_epoch (config (self st)) = Py.Raise Py.ZeroDivisionError)
      as -> by (unfold Config.train_steps_per_epoch, Config.steps, Py.truediv;
                rewrite Hb; reflexivity).
    cbv [lift]. eexists. split; reflexivity.
  - eexists. split; [reflexivity | eexists; reflexivity].
Qed.

Lemma train_with_zero_batch_size_witness :
  let st := fresh_state Config.init example_vocabs empty_fs in
  exists e, train st = (Py.Raise e, st).
Proof.
  intros st. destruct (train_with_zero_batch_size st) as (e & H & _).
  - reflexivity.
  - exists e. exact H.
Defined.

(** * What every reachable state satisfies *)

Lemma invariant_new c v : invariant c v (new_model c v).
Proof.
  split; [reflexivity | reflexivity | cbn; lia | exact I |].
  intros k E. discriminate E.
Qed.

Lemma invariant_set_nr c v n st :
  0 <= n -> invariant c v (self st) ->
  invariant c v (self (set_nr_epochs_trained n st)).
Proof.
  intros Hn [H1 H2 H3 H4 H5]. destruct st as [[c0 v0 km nr ck mgr] f tr fr].
  split; assumption.
Qed.

Lemma invariant_prepared c v st :
  invariant c v (self st) -> invariant c v (self (prepared st)).
Proof.
  intros [H1 H2 H3 H4 H5]. destruct st as [[c0 v0 km nr ck mgr] f tr fr].
  cbn in H1, H2. subst c0 v0. split; try assumption; try reflexivity.
  intros k E. inversion E. reflexivity.
Qed.

Lemma invariant_restored c v st :
  invariant c v (self st) -> invariant c v (self (restored st)).
Proof.
  intros [H1 H2 H3 H4 H5]. destruct st as [[c0 v0 km nr ck mgr] f tr fr].
  cbn in H1, H2. subst c0 v0.
  destruct ck; (split; try assumption; try reflexivity;
                intros k E; inversion E; reflexivity).
Qed.

Lemma invariant_create c v st :
  invariant c v (self st) -> invariant c v (self (_create_inner_model st).2).
Proof.
  intros H. unfold _create_inner_model. rewrite prepare_run.
  apply (invariant_prepared c v st H).
Qed.

Lemma invariant_load c v st :
  invariant c v (self st) -> invariant c v (self (_load_inner_model st).2).
Proof.
  intros H. pose proof (load_counter_nonnegative st (inv_counter _ _ _ H)) as N.
  revert N. rewrite load_run. cbv zeta.
  destruct (_ && _); [intros _; apply invariant_prepared, H |].
  destruct (_ || _); [| intros _; apply (invariant_prepared c v st H)].
  destruct (TF.latest_checkpoint _ _) as [name |];
    [| intros _; apply invariant_restored, H].
  destruct (Py.int_of_str _) as [n | e]; [| intros _; apply invariant_restored, H].
  cbn [snd]. intros N.
  apply (invariant_set_nr c v n (restored st) N (invariant_restored c v st H)).
Qed.

Lemma invariant_save_inner c v path st :
  invariant c v (self st) -> invariant c v (self (_save_inner_model path st).2).
Proof.
  intros [H1 H2 H3 H4 H5].
  destruct (save_inner_run path st) as (_ & _ & Rc & Rv & Rn & Rk & Rw).
  split; [congruence | congruence | lia | auto |].
  intros k. rewrite Rk. apply H5.
Qed.

Lemma invariant_save c v path st :
  invariant c v (self st) -> invariant c v (self (save path st).2).
Proof.
  intros H. unfold save. unfold bind at 1, get at 1. rewrite emit_run.
  apply invariant_save_inner. exact H.
Qed.

Lemma on_epoch_end_final cb epoch st :
  (on_epoch_end cb epoch st).2
  = if nr_epochs_trained (self st) =? epoch
    then
      if Config.SAVE_EVERY_EPOCHS (config (self st))
         <=? nr_epochs_trained (self st) + 1 - last_saved_epoch cb
      then (save None (set_nr_epochs_trained (nr_epochs_trained (self st) + 1) st)).2
      else set_nr_epochs_trained (nr_epochs_trained (self st) + 1) st
    else st.
Proof.
  destruct (Z.eqb_spec (nr_epochs_trained (self st)) epoch) as [<- | Hne].
  - rewrite on_epoch_end_run. cbv zeta. destruct (_ <=? _); [| reflexivity].
    destruct (save None _) as [[[] | e] s]; reflexivity.
  - unfold on_epoch_end. cbv [bind get ret raise].
    destruct (Z.eqb_spec (nr_epochs_trained (self st)) epoch); [contradiction | reflexivity].
Qed.

Lemma invariant_epoch_end c v cb epoch st :
  invariant c v (self st) -> invariant c v (self (on_epoch_end cb epoch st).2).
Proof.
  intros H. rewrite on_epoch_end_final.
  destruct (_ =? _); [| exact H].
  assert (invariant c v (self (set_nr_epochs_trained (nr_epochs_trained (self st) + 1) st)))
    as H' by (apply invariant_set_nr; [pose proof (inv_counter _ _ _ H); lia | exact H]).
  destruct (_ <=? _); [apply invariant_save; exact H' | exact H'].
Qed.

Lemma invariant_fit_epochs c v steps validation_steps epochs :
  forall cb st,
  invariant c v (self st) ->
  invariant c v (self (fit_epochs epochs steps validation_steps cb st).2).
Proof.
  induction epochs as [| epoch rest IH]; intros cb st H; [exact H |].
  cbn [fit_epochs]. rewrite emit_run. unfold bind at 1.
  set (st0 := add_event _ st).
  assert (invariant c v (self st0)) as H0 by exact H.
  pose proof (invariant_epoch_end c v cb epoch st0 H0) as H1.
  destruct (on_epoch_end cb epoch st0) as [[cb1 | e] st1]; cbn [snd] in H1.
  - apply IH. exact H1.
  - exact H1.
Qed.

Lemma invariant_train c v st :
  invariant c v (self st) -> invariant c v (self (train st).2).
Proof.
  intros H. unfold train, _create_data_reader. cbv [bind ret]. unfold the_keras_model.
  cbv [bind get ret raise lift new_callback].
  destruct (keras_model (self st)); [| exact H].
  destruct (Config.train_steps_per_epoch _); [| exact H].
  destruct (Config.test_steps_per_epoch _); [| exact H].
  pose proof (invariant_fit_epochs c v a a0
                (seqZ (nr_epochs_trained (self st))
                   (Config.NUM_EPOCHS (config (self st)) - nr_epochs_trained (self st)))
                (mkCallback (nr_epochs_trained (self st))) st H) as F.
  destruct (fit_epochs _ _ _ _ _) as [[cb' | e] st']; exact F.
Qed.

Lemma predict_keeps_self lines st : self (predict lines st).2 = self st.
Proof.
  unfold predict, _create_data_reader. unfold bind at 1. unfold ret at 1.
  cbn [estimator_mode]. unfold bind at 1.
  match goal with |- context [for_each lines ?b] => set (body := b) end.
  assert (forall s, self (for_each lines body s).2 = self s) as F.
  { induction lines as [| line lines IH]; intros s; [reflexivity |].
    cbn [for_each]. unfold bind at 1.
    assert (self (body line s).2 = self s) as B.
    { subst body. cbv beta. rewrite !emit_run. unfold bind at 1, the_keras_model at 1.
      unfold bind at 1, get at 1. unfold add_event. state_simpl.
      destruct (keras_model (self s)); reflexivity. }
    destruct (body line s) as [[[] | e] s1]; cbn [snd] in *;
      [rewrite IH; exact B | exact B]. }
  specialize (F st). destruct (for_each lines body st) as [[[] | e] s1]; exact F.
Qed.

Lemma invariant_step c v st st' :
  step st st' -> invariant c v (self st) -> invariant c v (self st').
Proof.
  intros S H. destruct S.
  - apply invariant_create, H.
  - apply invariant_load, H.
  - apply invariant_save, H.
  - apply invariant_save_inner, H.
  - apply invariant_train, H.
  - rewrite predict_keeps_self. exact H.
  - apply invariant_epoch_end, H.
  - exact H.
Qed.

Lemma invariant_steps c v st st' :
  rtc step st st' -> invariant c v (self st) -> invariant c v (self st').
Proof.
  induction 1 as [| x y z S R IH]; intros H; [exact H |].
  apply IH. exact (invariant_step c v x y S H).
Qed.

(** X16: Whatever methods are called on a new instance, in any order and with
    any outcome: its configuration and vocabularies stay the ones it was
    made with, the epoch counter is never negative, a cached checkpoint
    manager is the one for the configured save path and [MAX_TO_KEEP],
    and a network, once built, is the one [_create_keras_model] builds
    from the configuration and the vocabularies. *)
Theorem reachable_states_are_consistent (c : Config.t) (v : Code2VecVocabs)
    (st : state) :
  reachable c v st -> invariant c v (self st).
Proof.
  intros (f & tr & fr & R).
  apply (invariant_steps c v _ st R). apply invariant_new.
Qed.

Lemma reachable_states_are_consistent_witness :
  reachable Config.init example_vocabs
    (train (_load_inner_model
              (mkState (new_model Config.init example_vocabs) empty_fs nil 0)).2).2
  /\ invariant Config.init example_vocabs
       (self (train (_load_inner_model
                (mkState (new_model Config.init example_vocabs) empty_fs nil 0)).2).2).
Proof.
  assert (reachable Config.init example_vocabs
    (train (_load_inner_model
              (mkState (new_model Config.init example_vocabs) empty_fs nil 0)).2).2) as R.
  { exists empty_fs, nil, 0%nat.
    eapply rtc_l; [apply step_load |]. eapply rtc_l; [apply step_train |].
    apply rtc_refl. }
  split; [exact R |].
  exact (reachable_states_are_consistent _ _ _ R).
Defined.
